(** * Chatroom backend: connection registry and session-token lifecycle

    A shallow embedding of

    - [app/core/connection_manager.py] (the in-memory room registry),
    - [app/core/utils.py] (token issue / verify / blacklist / refresh records),
    - [app/routers/auth.py] (login, logout, refresh exchange),
    - [app/routers/ws_chat.py] (the streaming handshake),

    followed by the properties of these functions.

    Conventions.  Python objects that are mutated in place (the registry
    dict, the database tables) are threaded explicitly as state.  A Python
    exception is a value of [exn]; a call that can raise returns a [result].
    Wall-clock instants and [timedelta]s are integers counting microseconds,
    the resolution of [datetime]. *)

From stdpp Require Import gmap strings pretty list fin_maps.
From Stdlib Require Import ZArith Lia Ascii.

(* ===================================================================== *)
(** * Part 1: the embedding                                               *)
(* ===================================================================== *)

(** ** Exceptions and results *)

(** The two families of [jwt.PyJWTError] the code can meet:
    [ExpiredSignatureError] and [DecodeError] (bad structure or signature). *)
Inductive jwt_error := ExpiredSignatureError | DecodeError.

Inductive exn :=
  | ValueError (msg : string)
  | KeyError (msg : string)
  | IndexError
  | Exception_ (msg : string)
  | PyJWTError (e : jwt_error)
  | HTTPException (status_code : Z) (detail : string)
  | IntegrityError
  | MultipleResultsFound
  | SendFailure (ws : nat)
  | RuntimeError.

Inductive result (A : Type) :=
  | Ok (a : A)
  | Raise (e : exn).
Arguments Ok {A} a.
Arguments Raise {A} e.

(** ** [app/core/connection_manager.py] *)

Module ConnectionManager.

(** A [WebSocket] object is compared by identity ([list.remove] and [in]
    fall back on [is] for it): a channel is its object identity. *)
Definition WebSocket := nat.

(** [self.active_connections : Dict[int, List[WebSocket]]]. *)
Abbreviation active_connections := (gmap Z (list WebSocket)).

(** [__init__]: the empty dict. *)
Definition init : active_connections := ∅.

(** [connect]: [await websocket.accept()] is the transport's handshake;
    [connect] stands for a call in which it returned, and [connect_call]
    below is the call as a whole.  The two dict statements are kept apart
    as in the source. *)
Definition connect (ac : active_connections) (chatroom_id : Z)
    (websocket : WebSocket) : active_connections :=
  let ac1 :=
    match ac !! chatroom_id with
    | None => <[chatroom_id := []]> ac
    | Some _ => ac
    end in
  alter (λ l, l ++ [websocket]) chatroom_id ac1.

(** [list.remove(x)]: drops the first occurrence; [None] stands for the
    [ValueError] Python raises when there is none. *)
Fixpoint list_remove (x : WebSocket) (l : list WebSocket)
    : option (list WebSocket) :=
  match l with
  | [] => None
  | y :: l' =>
      if decide (y = x) then Some l'
      else (y ::.) <$> list_remove x l'
  end.

(** [disconnect]: the registry after the call, and the exception that
    left it, if any.  [list.remove] raises before anything is mutated. *)
Definition disconnect (ac : active_connections) (chatroom_id : Z)
    (websocket : WebSocket) : active_connections * option exn :=
  match ac !! chatroom_id with
  | Some l =>
      match list_remove websocket l with
      | None => (ac, Some (ValueError "list.remove(x): x not in list"))
      | Some l' =>
          let ac1 := <[chatroom_id := l']> ac in
          match l' with
          | [] => (delete chatroom_id ac1, None)
          | _ :: _ => (ac1, None)
          end
      end
  | None => (ac, None)
  end.

(** The loop of [broadcast] over one room's list.  [send_ok c] tells
    whether [c.send_json] returns; when it raises, the loop is left and
    the channels after [c] are not served.  The result is the log of the
    sends that returned, oldest first, and the exception, if any. *)
Fixpoint send_all {M : Type} (send_ok : WebSocket → bool)
    (l : list WebSocket) (message : M)
    : list (WebSocket * M) * option exn :=
  match l with
  | [] => ([], None)
  | connection :: l' =>
      if send_ok connection then
        let '(log, e) := send_all send_ok l' message in
        ((connection, message) :: log, e)
      else ([], Some (SendFailure connection))
  end.

(** [broadcast] (the [print] is left out); the registry is only read. *)
Definition broadcast {M : Type} (send_ok : WebSocket → bool)
    (ac : active_connections) (chatroom_id : Z) (message : M)
    : list (WebSocket * M) * option exn :=
  match ac !! chatroom_id with
  | Some l => send_all send_ok l message
  | None => ([], None)
  end.

(** What channel [c] received according to a send log. *)
Definition received {M : Type} (c : WebSocket) (log : list (WebSocket * M))
    : list M :=
  snd <$> filter (λ d, d.1 = c) log.

(** How many times [c] is registered under a room. *)
Definition registrations (ac : active_connections) (chatroom_id : Z)
    (c : WebSocket) : nat :=
  length (filter (λ x, x = c) (default [] (ac !! chatroom_id))).

(** Every room that has an entry has a channel. *)
Definition no_empty_room (ac : active_connections) : Prop :=
  ∀ r l, ac !! r = Some l → l ≠ [].

(** One operation of the registry, and the states a run can reach from
    the empty registry. *)
Inductive step : active_connections → active_connections → Prop :=
  | step_connect ac r c : step ac (connect ac r c)
  | step_disconnect ac r c : step ac (disconnect ac r c).1
  | step_broadcast ac : step ac ac.

Inductive reachable : active_connections → Prop :=
  | reachable_init : reachable init
  | reachable_step ac ac' : reachable ac → step ac ac' → reachable ac'.

(** The channel objects beside the registry.  Starlette completes the
    handshake of a [WebSocket] once: [accept] on a channel whose handshake
    is over raises [RuntimeError] before anything is sent.  [handshaken]
    holds these channels, [active] is [self.active_connections]. *)
Record channels := {
  handshaken : gset WebSocket;
  active : active_connections }.

Definition channels_init : channels := {| handshaken := ∅; active := init |}.

(** [await websocket.accept()]. *)
Definition accept (s : channels) (websocket : WebSocket)
    : channels * option exn :=
  if decide (websocket ∈ handshaken s) then (s, Some RuntimeError)
  else ({| handshaken := {[ websocket ]} ∪ handshaken s; active := active s |},
        None).

(** A call of [connect] as a whole: the handshake, whose exception leaves
    the call before the registry is touched, then the two dict
    statements. *)
Definition connect_call (s : channels) (chatroom_id : Z)
    (websocket : WebSocket) : channels * option exn :=
  match accept s websocket with
  | (s', Some e) => (s', Some e)
  | (s', None) =>
      ({| handshaken := handshaken s';
          active := connect (active s') chatroom_id websocket |}, None)
  end.

(** A call of [disconnect] on the registry of [s]. *)
Definition disconnect_call (s : channels) (chatroom_id : Z)
    (websocket : WebSocket) : channels * option exn :=
  let '(ac, e) := disconnect (active s) chatroom_id websocket in
  ({| handshaken := handshaken s; active := ac |}, e).

(** One call of the program on its [manager], and the states the program
    can reach from the start of the process. *)
Inductive call : channels → channels → Prop :=
  | call_connect s r c : call s (connect_call s r c).1
  | call_disconnect s r c : call s (disconnect_call s r c).1
  | call_broadcast s : call s s.

Inductive call_reachable : channels → Prop :=
  | call_reachable_init : call_reachable channels_init
  | call_reachable_step s s' : call_reachable s → call s s' → call_reachable s'.

(** In a room's list no channel occurs twice, and every channel listed has
    completed its handshake. *)
Definition registered_once (s : channels) : Prop :=
  ∀ r l, active s !! r = Some l → NoDup l ∧ ∀ c, c ∈ l → c ∈ handshaken s.

End ConnectionManager.

(** ** The data model: token claims and the tables of [app/models.py] *)

(** The [user] claim: [{"user_id": .., "username": .., "email": ..}]. *)
Module UserData.
Record t := { user_id : Z; username : string; email : string }.
End UserData.

(** The payload dict of a token.  The claims the code reads with [.get] or
    tests with [in] are optional; for [user], [None] also stands for a
    value that is falsy. *)
Module Claims.
Record t := {
  user : option UserData.t;
  exp : option Z;
  jti : option string;
  refresh : bool;
  session_id : option string }.
End Claims.

Module User.
Record t := {
  id : Z;
  username : string;
  email : string;
  hashed_password : string;
  is_active : bool;
  created_at : Z }.
End User.

(** Table [blacklistedtokens]; [token] and [token_jti] are [unique=True].
    The surrogate key [id] is left out: no query reads it. *)
Module BlacklistedToken.
Record t := { token : string; token_jti : option string; expires_at : Z }.
End BlacklistedToken.

(** Table [refreshtokens]; [jti] and [session_id] are [unique=True].  The
    columns [id] and [created_at] are left out: no query reads them. *)
Module RefreshToken.
Record t := {
  jti : string;
  user_id : Z;
  session_id : string;
  expires_at : Z;
  revoked : bool }.
End RefreshToken.

(** [schemas.LoginData]. *)
Module LoginData.
Record t := { username : string; password : string }.
End LoginData.

(** ** The world a request runs in *)

(** What lies outside the repository.  [jwt_encode] and [jwt_payload] are
    [jwt.encode] and the structure-and-signature half of [jwt.decode], both
    at the process-wide [Config.JWT_SECRET] and [Config.JWT_ALGORITHM];
    [uuid4 k] is the string of the [k]-th [uuid.uuid4()] the deployment draws;
    [clock n] is the [n]-th reading of the wall clock, in microseconds since
    the epoch; [verify_password] is passlib's [pwd_context.verify]. *)
Record env := {
  jwt_encode : Claims.t → string;
  jwt_payload : string → option Claims.t;
  uuid4 : nat → string;
  clock : nat → Z;
  verify_password : string → string → bool }.

(** The mutable state: the two counters of the oracles, the tables, and the
    registry of the process-wide [manager]. *)
Record world := {
  uuid_calls : nat;
  clock_reads : nat;
  users : list User.t;
  blacklistedtokens : list BlacklistedToken.t;
  refreshtokens : list RefreshToken.t;
  manager : gmap Z (list ConnectionManager.WebSocket) }.

Definition set_blacklistedtokens (t : list BlacklistedToken.t) (w : world)
    : world :=
  {| uuid_calls := uuid_calls w; clock_reads := clock_reads w;
     users := users w; blacklistedtokens := t;
     refreshtokens := refreshtokens w; manager := manager w |}.

Definition set_refreshtokens (t : list RefreshToken.t) (w : world) : world :=
  {| uuid_calls := uuid_calls w; clock_reads := clock_reads w;
     users := users w; blacklistedtokens := blacklistedtokens w;
     refreshtokens := t; manager := manager w |}.

Definition set_manager (m : gmap Z (list ConnectionManager.WebSocket))
    (w : world) : world :=
  {| uuid_calls := uuid_calls w; clock_reads := clock_reads w;
     users := users w; blacklistedtokens := blacklistedtokens w;
     refreshtokens := refreshtokens w; manager := m |}.

(** The world after one reading of the clock, and after one [uuid4()]. *)
Definition tick (w : world) : world :=
  {| uuid_calls := uuid_calls w; clock_reads := S (clock_reads w);
     users := users w; blacklistedtokens := blacklistedtokens w;
     refreshtokens := refreshtokens w; manager := manager w |}.

Definition draw (w : world) : world :=
  {| uuid_calls := S (uuid_calls w); clock_reads := clock_reads w;
     users := users w; blacklistedtokens := blacklistedtokens w;
     refreshtokens := refreshtokens w; manager := manager w |}.

(** A computation that reads and writes the world and may raise.  A raised
    exception keeps the world as it was when it was raised. *)
Definition IO (A : Type) : Type := world → result A * world.

#[global] Instance IO_ret : MRet IO := λ A a w, (Ok a, w).

#[global] Instance IO_bind : MBind IO := λ A B f m w,
  match m w with
  | (Ok a, w') => f a w'
  | (Raise e, w') => (Raise e, w')
  end.

Definition raise {A : Type} (e : exn) : IO A := λ w, (Raise e, w).

(** [try: body  except ..: handler]; a handler re-raises what its [except]
    clauses do not name. *)
Definition try_except {A : Type} (body : IO A) (handler : exn → IO A)
    : IO A := λ w,
  match body w with
  | (Ok a, w') => (Ok a, w')
  | (Raise e, w') => handler e w'
  end.

Definition get_world : IO world := λ w, (Ok w, w).
Definition modify_world (f : world → world) : IO unit := λ w, (Ok tt, f w).

(** [Result.scalar_one_or_none()]. *)
Definition scalar_one_or_none {A : Type} (rows : list A) : IO (option A) :=
  match rows with
  | [] => mret None
  | [row] => mret (Some row)
  | _ :: _ :: _ => raise MultipleResultsFound
  end.

(** [timedelta(minutes=n)] and [timedelta(days=n)], in microseconds. *)
Definition timedelta_minutes (n : Z) : Z := (n * 60 * 1000000)%Z.
Definition timedelta_days (n : Z) : Z := (n * 86400 * 1000000)%Z.

(** [datetime.fromtimestamp(ts)] of a whole number of seconds.  Naive local
    datetimes are only ever compared with [datetime.now()], also naive and
    local, so both are kept as instants: the order of two wall-clock
    values is taken to be the order of their instants, as it is in a zone
    without a repeated hour.  No statement below derives a comparison of
    naive values from PyJWT's test of [exp], or the converse. *)
Definition fromtimestamp (ts : Z) : Z := (ts * 1000000)%Z.

(** [x or y] on an optional string: [None] and the empty string are
    falsy. *)
Definition truthy (x : option string) : option string :=
  match x with
  | Some s => if decide (s = EmptyString) then None else Some s
  | None => None
  end.

(** [str.split(sep)] for a one-character separator. *)
Fixpoint split (sep : ascii) (s : string) : list string :=
  match s with
  | EmptyString => [EmptyString]
  | String a s' =>
      if decide (a = sep) then EmptyString :: split sep s'
      else match split sep s' with
           | piece :: pieces => String a piece :: pieces
           | [] => [String a EmptyString]
           end
  end.

Section Embedding.
Context (E : env).

(** [datetime.now()] / [datetime.now(timezone.utc)]: one reading of the
    clock. *)
Definition datetime_now : IO Z := λ w, (Ok (clock E (clock_reads w)), tick w).

(** [str(uuid.uuid4())]. *)
Definition str_uuid4 : IO string := λ w, (Ok (uuid4 E (uuid_calls w)), draw w).

(** [x or str(uuid.uuid4())]. *)
Definition or_uuid4 (x : option string) : IO string :=
  match truthy x with
  | Some s => mret s
  | None => str_uuid4
  end.

(** [jwt.decode(jwt=token, key=.., algorithms=[..])] of PyJWT 2: structure
    and signature first ([DecodeError]), then the clock is read and an [exp]
    claim, when there is one, must lie strictly after it. *)
Definition jwt_decode (token : string) : IO Claims.t :=
  match jwt_payload E token with
  | None => raise (PyJWTError DecodeError)
  | Some payload =>
      now ← datetime_now;
      match Claims.exp payload with
      | Some exp =>
          if decide (exp * 1000000 ≤ now)%Z
          then raise (PyJWTError ExpiredSignatureError)
          else mret payload
      | None => mret payload
      end
  end.

(** *** [app/core/utils.py] *)

Definition ACCESS_TOKEN_EXPIRY : Z := 120.

(** [create_access_token]: [int(d.timestamp())] truncates toward zero, hence
    [Z.quot]; the float between the two is taken as exact. *)
Definition create_access_token (user_data : option UserData.t)
    (expiry : option Z) (refresh : bool) (session_id jti : option string)
    : IO string :=
  let token_expiry :=
    match expiry with
    | Some expiry => expiry
    | None => timedelta_minutes ACCESS_TOKEN_EXPIRY
    end in
  now ← datetime_now;
  let exp := Z.quot (now + token_expiry) 1000000 in
  jti ← or_uuid4 jti;
  session_id ← or_uuid4 session_id;
  mret (jwt_encode E
          {| Claims.user := user_data;
             Claims.exp := Some exp;
             Claims.jti := Some jti;
             Claims.refresh := refresh;
             Claims.session_id := Some session_id |}).

(** The message of the second handler, [f"Invalid token: {e}"], is cut
    at the colon. *)
Definition verify_access_token (token : string) : IO Claims.t :=
  try_except
    (token_data ← jwt_decode token;
     match Claims.jti token_data with
     | None => raise (KeyError "Token does not contain 'jti' field!")
     | Some _ => mret token_data
     end)
    (λ e, match e with
          | PyJWTError ExpiredSignatureError =>
              raise (Exception_ "Token has expired.")
          | PyJWTError DecodeError => raise (Exception_ "Invalid token")
          | _ => raise e
          end).

(** [session.add(row); await session.commit()] on [blacklistedtokens]: the
    unique constraints on [token] and [token_jti] (a NULL [token_jti]
    conflicts with nothing) make the commit fail with [IntegrityError]. *)
Definition blacklist_conflict (row r : BlacklistedToken.t) : bool :=
  bool_decide (BlacklistedToken.token r = BlacklistedToken.token row)
  || match BlacklistedToken.token_jti row with
     | Some j => bool_decide (BlacklistedToken.token_jti r = Some j)
     | None => false
     end.

Definition add_blacklistedtoken (row : BlacklistedToken.t) : IO unit :=
  w ← get_world;
  if existsb (blacklist_conflict row) (blacklistedtokens w)
  then raise IntegrityError
  else modify_world (set_blacklistedtokens (blacklistedtokens w ++ [row])).

Definition create_token_blacklist (token : string) : IO unit :=
  '(payload, expires_at) ←
    try_except
      (payload ← jwt_decode token;
       match Claims.exp payload with
       | Some exp_timestamp => mret (payload, fromtimestamp exp_timestamp)
       | None => raise (Exception_ "TypeError")
       end)
      (λ _, raise (ValueError "Invalid token"));
  let token_jti := Claims.jti payload in
  add_blacklistedtoken
    {| BlacklistedToken.token := token;
       BlacklistedToken.token_jti := token_jti;
       BlacklistedToken.expires_at := expires_at |}.

Definition get_blacklisted_token_jti (jti : string)
    : IO (option BlacklistedToken.t) :=
  w ← get_world;
  scalar_one_or_none
    (filter (λ r, BlacklistedToken.token_jti r = Some jti)
       (blacklistedtokens w)).

Definition get_blacklisted_token (token : string)
    : IO (option BlacklistedToken.t) :=
  w ← get_world;
  scalar_one_or_none
    (filter (λ r, BlacklistedToken.token r = token) (blacklistedtokens w)).

Definition delete_blacklisted_token : IO unit :=
  now ← datetime_now;
  modify_world (λ w,
    set_blacklistedtokens
      (filter (λ r, ¬ (BlacklistedToken.expires_at r < now)%Z)
         (blacklistedtokens w)) w).

(** [session.add(row); await session.commit()] on [refreshtokens], with the
    unique constraints on [jti] and [session_id]. *)
Definition refresh_conflict (row r : RefreshToken.t) : bool :=
  bool_decide (RefreshToken.jti r = RefreshToken.jti row)
  || bool_decide (RefreshToken.session_id r = RefreshToken.session_id row).

Definition save_refresh_token (jti : string) (user_id : Z)
    (session_id : string) (expires_at : Z) : IO unit :=
  let token :=
    {| RefreshToken.jti := jti;
       RefreshToken.user_id := user_id;
       RefreshToken.session_id := session_id;
       RefreshToken.expires_at := expires_at;
       RefreshToken.revoked := false |} in
  w ← get_world;
  if existsb (refresh_conflict token) (refreshtokens w)
  then raise IntegrityError
  else modify_world (set_refreshtokens (refreshtokens w ++ [token])).

(** The [where] clause of [validate_refresh_token_jti]. *)
Definition refresh_valid (jti : option string) (now : Z)
    (r : RefreshToken.t) : Prop :=
  Some (RefreshToken.jti r) = jti
  ∧ RefreshToken.revoked r = false
  ∧ (RefreshToken.expires_at r > now)%Z.

#[global] Instance refresh_valid_dec jti now r :
  Decision (refresh_valid jti now r).
Proof. unfold refresh_valid. apply _. Defined.

Definition validate_refresh_token_jti (jti : option string)
    : IO RefreshToken.t :=
  now ← datetime_now;
  w ← get_world;
  token ← scalar_one_or_none
             (filter (refresh_valid jti now) (refreshtokens w));
  match token with
  | None => raise (HTTPException 403 "Invalid of expired token")
  | Some token => mret token
  end.

Definition revoke (r : RefreshToken.t) : RefreshToken.t :=
  {| RefreshToken.jti := RefreshToken.jti r;
     RefreshToken.user_id := RefreshToken.user_id r;
     RefreshToken.session_id := RefreshToken.session_id r;
     RefreshToken.expires_at := RefreshToken.expires_at r;
     RefreshToken.revoked := true |}.

(** [revoke_refresh_token]: [token.revoked = True] writes the one row the
    query returned, which is the one row with this [session_id]. *)
Definition revoke_refresh_token (session_id : string) : IO unit :=
  w ← get_world;
  token ← scalar_one_or_none
             (filter (λ r, RefreshToken.session_id r = session_id)
                (refreshtokens w));
  match token with
  | Some _ =>
      modify_world
        (set_refreshtokens
           ((λ r, if decide (RefreshToken.session_id r = session_id)
                  then revoke r else r) <$> refreshtokens w))
  | None => mret tt
  end.

(** *** [app/services/users.py] *)

Definition get_user_email (user_email : string) : IO (option User.t) :=
  w ← get_world;
  scalar_one_or_none (filter (λ u, User.email u = user_email) (users w)).

Definition get_username (username : string) : IO (option User.t) :=
  w ← get_world;
  scalar_one_or_none (filter (λ u, User.username u = username) (users w)).

Definition user_service_user (username email : string)
    : IO (option User.t) :=
  user ← get_user_email email;
  match user with
  | Some user => mret (Some user)
  | None => get_username username
  end.

(** *** [app/routers/auth.py] *)

Definition REFRESH_EXPIRY : Z := 3.

(** [login] returns the pair [(access_token, refresh_token)] of the JSON
    response. *)
Definition login (data : LoginData.t) : IO (string * string) :=
  let username_or_email := LoginData.username data in
  let password := LoginData.password data in
  user ← user_service_user username_or_email username_or_email;
  match user with
  | Some user =>
      if verify_password E password (User.hashed_password user) then
        session_id ← str_uuid4;
        jti ← str_uuid4;
        let user_payload :=
          {| UserData.user_id := User.id user;
             UserData.username := User.username user;
             UserData.email := User.email user |} in
        access_token ←
          create_access_token (Some user_payload) None false
            (Some session_id) (Some jti);
        refresh_token ←
          create_access_token (Some user_payload)
            (Some (timedelta_days REFRESH_EXPIRY)) true
            (Some session_id) (Some jti);
        decode_rt ← jwt_decode refresh_token;
        match Claims.exp decode_rt with
        | Some exp =>
            save_refresh_token jti (User.id user) session_id
              (fromtimestamp exp);;
            mret (access_token, refresh_token)
        | None => raise (KeyError "exp")
        end
      else raise (HTTPException 400 "Invalid login details!")
  | None => raise (HTTPException 400 "Invalid login details!")
  end.

(** [logout] up to its response; the sweep [delete_blacklisted_token] it
    schedules with [bg_task.add_task] runs after the response. *)
Definition logout (token : string) : IO string :=
  revoked_token ← get_blacklisted_token token;
  match revoked_token with
  | Some _ => raise (HTTPException 410 "User already logged out")
  | None =>
      try_except
        (token_data ← verify_access_token token;
         match truthy (Claims.session_id token_data) with
         | None => raise (HTTPException 400 "Token is missing session_id")
         | Some session_id =>
             create_token_blacklist token;;
             revoke_refresh_token session_id
         end)
        (λ e, match e with
              | ValueError _ => raise (HTTPException 400 "Invalid token")
              | _ => raise e
              end);;
      mret "Logged out successfully"
  end.

(** [get_new_token]; [token_details] is what the dependency [refresh_token]
    hands over, the claims of the refresh token presented. *)
Definition get_new_token (token_details : Claims.t) : IO string :=
  match Claims.exp token_details with
  | None => raise (KeyError "exp")
  | Some expiry_time =>
      let user := Claims.user token_details in
      let session_id := Claims.session_id token_details in
      let jti := Claims.jti token_details in
      validate_refresh_token_jti jti;;
      now ← datetime_now;
      if decide (fromtimestamp expiry_time > now)%Z then
        create_access_token user None false session_id None
      else raise (HTTPException 403 "Invalid or expired refresh token")
  end.

(** *** [app/routers/ws_chat.py] *)

Definition WS_1008_POLICY_VIOLATION : Z := 1008.

(** How the handshake of [websocket_endpoint] ends: [websocket.close] with
    a code, then [return]; or the channel is registered and the receive
    loop is entered for [current_user]. *)
Inductive handshake :=
  | Closed (code : Z)
  | Registered (current_user : UserData.t).

(** [websocket_endpoint] from the header to the entry of the receive loop;
    [authorization] is [websocket.headers.get("Authorization")]. *)
Definition websocket_endpoint (websocket : ConnectionManager.WebSocket)
    (chatroom_id : Z) (authorization : option string) : IO handshake :=
  match truthy authorization with
  | None => mret (Closed WS_1008_POLICY_VIOLATION)
  | Some token =>
      if negb (String.prefix "Bearer " token)
      then mret (Closed WS_1008_POLICY_VIOLATION)
      else
        match split " " token !! 1%nat with
        | None => raise IndexError
        | Some token =>
            checked ←
              try_except
                (payload ← jwt_decode token;
                 match Claims.user payload with
                 | None => mret (Closed WS_1008_POLICY_VIOLATION)
                 | Some current_user => mret (Registered current_user)
                 end)
                (λ e, match e with
                      | PyJWTError _ =>
                          mret (Closed WS_1008_POLICY_VIOLATION)
                      | _ => raise e
                      end);
            match checked with
            | Closed code => mret (Closed code)
            | Registered current_user =>
                modify_world (λ w,
                  set_manager
                    (ConnectionManager.connect (manager w) chatroom_id
                       websocket) w);;
                mret (Registered current_user)
            end
        end
  end.

End Embedding.

(** ** What the properties assume of the outside world *)

(** PyJWT decodes what it encoded, under the one key of the process. *)
Definition jwt_sound (E : env) : Prop :=
  ∀ payload, jwt_payload E (jwt_encode E payload) = Some payload.

(** The string of a UUID is never empty, and [uuid4] does not repeat. *)
Definition uuid4_nonempty (E : env) : Prop := ∀ k, uuid4 E k ≠ EmptyString.
Definition uuid4_fresh (E : env) : Prop :=
  ∀ i j, uuid4 E i = uuid4 E j → i = j.

(** The unique constraints of the two tables, as predicates on their rows. *)
Definition blacklist_unique (rows : list BlacklistedToken.t) : Prop :=
  NoDup (BlacklistedToken.token <$> rows)
  ∧ NoDup (omap BlacklistedToken.token_jti rows).

Definition refresh_unique (rows : list RefreshToken.t) : Prop :=
  NoDup (RefreshToken.jti <$> rows)
  ∧ NoDup (RefreshToken.session_id <$> rows).

(** ** Shorthands of the statements *)

(** The claims [login] puts in a token for account [u]. *)
Definition login_claims (u : User.t) (refresh : bool) (exp : Z)
    (session_id jti : string) : Claims.t :=
  {| Claims.user :=
       Some {| UserData.user_id := User.id u;
               UserData.username := User.username u;
               UserData.email := User.email u |};
     Claims.exp := Some exp;
     Claims.jti := Some jti;
     Claims.refresh := refresh;
     Claims.session_id := Some session_id |}.

(** ** A concrete outside world

    An instance of [env] that meets the three assumptions above: tokens are
    the binary digits of stdpp's [encode] of the payload, UUIDs are numbered,
    and the clock starts at 2023-11-14T22:13:20Z and advances one
    microsecond per reading. *)
Module Sample.

Definition tuple : Type :=
  option (Z * string * string) * option Z * option string * bool
  * option string.

Definition to_tuple (p : Claims.t) : tuple :=
  ((λ u, (UserData.user_id u, UserData.username u, UserData.email u))
     <$> Claims.user p,
   Claims.exp p, Claims.jti p, Claims.refresh p, Claims.session_id p).

Definition of_tuple (t : tuple) : Claims.t :=
  let '(u, e, j, r, s) := t in
  {| Claims.user :=
       (λ '(i, n, m),
          {| UserData.user_id := i; UserData.username := n;
             UserData.email := m |}) <$> u;
     Claims.exp := e; Claims.jti := j; Claims.refresh := r;
     Claims.session_id := s |}.

Fixpoint bits (p : positive) : string :=
  match p with
  | xH => EmptyString
  | xO p => String "0" (bits p)
  | xI p => String "1" (bits p)
  end.

Fixpoint unbits (s : string) : option positive :=
  match s with
  | EmptyString => Some xH
  | String a s =>
      p ← unbits s;
      if decide (a = "0"%char) then Some (xO p)
      else if decide (a = "1"%char) then Some (xI p)
      else None
  end.

Definition E : env :=
  {| jwt_encode := λ p, bits (encode (to_tuple p));
     jwt_payload := λ s, p ← unbits s; t ← decode p; Some (of_tuple t);
     uuid4 := λ k, String "u" (pretty k);
     clock := λ n, (1700000000000000 + Z.of_nat n)%Z;
     verify_password := λ password hashed, bool_decide (password = hashed) |}.

Definition alice : User.t :=
  {| User.id := 1; User.username := "alice";
     User.email := "alice@example.org"; User.hashed_password := "secret";
     User.is_active := true; User.created_at := 0 |}.

Definition alice_data : UserData.t :=
  {| UserData.user_id := 1; UserData.username := "alice";
     UserData.email := "alice@example.org" |}.

(** A fresh process with one account. *)
Definition w0 : world :=
  {| uuid_calls := 0; clock_reads := 0; users := [alice];
     blacklistedtokens := []; refreshtokens := []; manager := ∅ |}.

End Sample.

(** ** Sign-up: [app/services/users.py] and [app/routers/auth.py] *)

(** [schemas.UserCreate], after validation. *)
Module UserCreate.
Record t := { username : string; email : string; password : string }.
End UserCreate.

Section SignUp.

(** [hash_password salt password] is passlib's [pwd_context.hash], which
    draws a salt; [salt] is the one drawn in the call at hand, and [new_id]
    the primary key the database gives the row. *)
Context (hash_password : string → string → string).

(** [session.add(new_user); await session.commit()] on [users], with the
    unique constraints on [username] and [email]. *)
Definition user_conflict (row r : User.t) : bool :=
  bool_decide (User.username r = User.username row)
  || bool_decide (User.email r = User.email row).

Definition create_user (E : env) (salt : string) (new_id : Z)
    (user_data : UserCreate.t) : IO User.t :=
  created_at ← datetime_now E;
  let new_user :=
    {| User.id := new_id;
       User.username := UserCreate.username user_data;
       User.email := UserCreate.email user_data;
       User.hashed_password :=
         hash_password salt (UserCreate.password user_data);
       User.is_active := true;
       User.created_at := created_at |} in
  w ← get_world;
  if existsb (user_conflict new_user) (users w)
  then raise IntegrityError
  else
    modify_world (λ w,
      {| uuid_calls := uuid_calls w; clock_reads := clock_reads w;
         users := users w ++ [new_user];
         blacklistedtokens := blacklistedtokens w;
         refreshtokens := refreshtokens w; manager := manager w |});;
    mret new_user.

(** [create_account] returns the new user and the [Location] header. *)
Definition create_account (E : env) (salt : string) (new_id : Z)
    (user_data : UserCreate.t) : IO (User.t * string) :=
  existing_email ← get_user_email (UserCreate.email user_data);
  match existing_email with
  | Some _ => raise (HTTPException 400 "Email already exists")
  | None =>
      existing_username ← get_username (UserCreate.username user_data);
      match existing_username with
      | Some _ => raise (HTTPException 400 "Username already exists")
      | None =>
          new_user ← create_user E salt new_id user_data;
          mret (new_user, String.append "/users/" (pretty (User.id new_user)))
      end
  end.

End SignUp.

(** Whether a character occurs in a string ([c in s]). *)
Fixpoint contains (c : ascii) (s : string) : bool :=
  match s with
  | EmptyString => false
  | String a s' => bool_decide (a = c) || contains c s'
  end.

(** The unique constraints of [users]. *)
Definition users_unique (rows : list User.t) : Prop :=
  NoDup (User.username <$> rows) ∧ NoDup (User.email <$> rows).

(** Two worlds with the same tables and the same registry. *)
Definition same_tables (w w' : world) : Prop :=
  users w' = users w
  ∧ blacklistedtokens w' = blacklistedtokens w
  ∧ refreshtokens w' = refreshtokens w
  ∧ manager w' = manager w.

(** ** Runs of the service *)

(** The unique constraints of the three tables and the invariant of the
    registry, together. *)
Definition consistent (w : world) : Prop :=
  users_unique (users w)
  ∧ blacklist_unique (blacklistedtokens w)
  ∧ refresh_unique (refreshtokens w)
  ∧ ConnectionManager.no_empty_room (manager w).

(** One call of the service, whatever its arguments and its outcome: the
    handlers of [app/routers/auth.py], the sweep that [logout] schedules,
    the handshake of [websocket_endpoint], and the [manager.disconnect] of
    its [except WebSocketDisconnect] clause. *)
Inductive api_step (E : env) (hash_password : string → string → string)
    : world → world → Prop :=
  | api_create_account salt new_id user_data w :
      api_step E hash_password w
        (create_account hash_password E salt new_id user_data w).2
  | api_login data w : api_step E hash_password w (login E data w).2
  | api_logout token w : api_step E hash_password w (logout E token w).2
  | api_sweep w :
      api_step E hash_password w (delete_blacklisted_token E w).2
  | api_get_new_token token_details w :
      api_step E hash_password w (get_new_token E token_details w).2
  | api_handshake websocket chatroom_id authorization w :
      api_step E hash_password w
        (websocket_endpoint E websocket chatroom_id authorization w).2
  | api_disconnect websocket chatroom_id w :
      api_step E hash_password w
        (set_manager
           (ConnectionManager.disconnect (manager w) chatroom_id websocket).1
           w).

(** The worlds a deployment can be in: it starts with empty tables and an
    empty registry. *)
Inductive api_reachable (E : env) (hash_password : string → string → string)
    : world → Prop :=
  | api_start w :
      users w = [] → blacklistedtokens w = [] → refreshtokens w = [] →
      manager w = ∅ → api_reachable E hash_password w
  | api_next w w' :
      api_reachable E hash_password w → api_step E hash_password w w' →
      api_reachable E hash_password w'.

(** ** Rooms, memberships and messages *)

(** The remaining tables of [app/models.py].  The foreign-key columns are
    nullable in the schema, but the code embedded here never writes NULL
    into them: they are plain integers. *)
Module ChatRoom.
Record t := {
  id : Z;
  name : string;
  is_private : bool;
  is_direct_message : bool;
  owner_id : Z }.
End ChatRoom.

Module ChatRoomParticipant.
Record t := { id : Z; user_id : Z; chatroom_id : Z; joined_at : Z }.
End ChatRoomParticipant.

Module Message.
Record t := {
  id : Z;
  content : string;
  timestamp : Z;
  is_edited : bool;
  sender_id : Z;
  chatroom_id : Z }.
End Message.

(** [MessageCreate] and [MessageUpdate] of [app/schemas.py]: one field. *)
Module MessageCreate.
Record t := { content : string }.
End MessageCreate.

(** How a [datetime] is turned into text: [str(ts)] or [ts.isoformat()]. *)
Inductive rendering := Str | Isoformat.

(** The dict a listener is sent.  The REST route sends
    [{"type": "message", "sender", "content", "timestamp": str(ts)}], the
    stream [{"sender", "content", "timestamp": ts.isoformat()}]. *)
Module Frame.
Record t := {
  type : option string;
  sender : string;
  content : string;
  timestamp : rendering * Z }.
End Frame.

(** The state of the chat routes: the [world] of the token routes, the
    three tables, the number of primary keys the database has handed out,
    and the log of the frames that [send_json] delivered, oldest first. *)
Record chat := {
  base : world;
  key_calls : nat;
  chatrooms : list ChatRoom.t;
  chatroomparticipants : list ChatRoomParticipant.t;
  messages : list Message.t;
  sent : list (ConnectionManager.WebSocket * Frame.t) }.

Definition set_base (w : world) (c : chat) : chat :=
  {| base := w; key_calls := key_calls c; chatrooms := chatrooms c;
     chatroomparticipants := chatroomparticipants c;
     messages := messages c; sent := sent c |}.

Definition set_chatroomparticipants (t : list ChatRoomParticipant.t)
    (c : chat) : chat :=
  {| base := base c; key_calls := key_calls c; chatrooms := chatrooms c;
     chatroomparticipants := t; messages := messages c; sent := sent c |}.

Definition set_messages (t : list Message.t) (c : chat) : chat :=
  {| base := base c; key_calls := key_calls c; chatrooms := chatrooms c;
     chatroomparticipants := chatroomparticipants c;
     messages := t; sent := sent c |}.

Definition set_sent (log : list (ConnectionManager.WebSocket * Frame.t))
    (c : chat) : chat :=
  {| base := base c; key_calls := key_calls c; chatrooms := chatrooms c;
     chatroomparticipants := chatroomparticipants c;
     messages := messages c; sent := log |}.

Definition Chat (A : Type) : Type := chat → result A * chat.

#[global] Instance Chat_ret : MRet Chat := λ A a c, (Ok a, c).

#[global] Instance Chat_bind : MBind Chat := λ A B f m c,
  match m c with
  | (Ok a, c') => f a c'
  | (Raise e, c') => (Raise e, c')
  end.

Definition chat_raise {A : Type} (e : exn) : Chat A := λ c, (Raise e, c).
Definition get_chat : Chat chat := λ c, (Ok c, c).
Definition modify_chat (f : chat → chat) : Chat unit := λ c, (Ok tt, f c).

(** A computation of the token routes, run on the [base] of the state. *)
Definition lift {A : Type} (m : IO A) : Chat A := λ c,
  let '(r, w) := m (base c) in (r, set_base w c).

(** What [websocket.receive_json()] does next: it returns a frame, here a
    JSON object with string members, or raises [WebSocketDisconnect]. *)
Inductive event :=
  | Receive (data : gmap string string)
  | WebSocketDisconnect.

(** How the receive loop stands when the events are used up: awaiting the
    next frame, or left through the [except WebSocketDisconnect] clause. *)
Inductive loop_end := Waiting | Left.

Section ChatEmbedding.
Context (E : env).
(** The primary key the database assigns to the n-th row it is given. *)
Context (primary_key : nat → Z).
(** Whether the database enforces foreign keys (PostgreSQL does; SQLite
    does not unless told to). *)
Context (foreign_keys : bool).
(** Whether [send_json] on a channel returns, and, when it raises, whether
    the exception is a [WebSocketDisconnect] (the peer vanished during the
    send) or another one (the channel was closed before). *)
Context (send_ok send_disconnects : ConnectionManager.WebSocket → bool).

Definition references_user (user_id : Z) (c : chat) : bool :=
  bool_decide (Exists (λ u, User.id u = user_id) (users (base c))).

Definition references_chatroom (chatroom_id : Z) (c : chat) : bool :=
  bool_decide (Exists (λ r, ChatRoom.id r = chatroom_id) (chatrooms c)).

(** The check of the foreign keys of a row at [session.commit()]. *)
Definition commit_references (referenced : chat → bool) : Chat unit := λ c,
  if foreign_keys && negb (referenced c)
  then (Raise IntegrityError, c)
  else (Ok tt, c).

Definition assigned_key : Chat Z := λ c,
  (Ok (primary_key (key_calls c)),
   {| base := base c; key_calls := S (key_calls c); chatrooms := chatrooms c;
      chatroomparticipants := chatroomparticipants c;
      messages := messages c; sent := sent c |}).

(** [session.add(row); await session.commit(); await session.refresh(row)]
    for a [ChatRoomParticipant] and for a [Message]. *)
Definition add_participant (user_id chatroom_id joined_at : Z)
    : Chat ChatRoomParticipant.t :=
  commit_references (λ c,
    references_user user_id c && references_chatroom chatroom_id c);;
  id ← assigned_key;
  let row :=
    {| ChatRoomParticipant.id := id;
       ChatRoomParticipant.user_id := user_id;
       ChatRoomParticipant.chatroom_id := chatroom_id;
       ChatRoomParticipant.joined_at := joined_at |} in
  modify_chat (λ c,
    set_chatroomparticipants (chatroomparticipants c ++ [row]) c);;
  mret row.

Definition add_message (content : string) (timestamp sender_id chatroom_id : Z)
    : Chat Message.t :=
  commit_references (λ c,
    references_user sender_id c && references_chatroom chatroom_id c);;
  id ← assigned_key;
  let row :=
    {| Message.id := id;
       Message.content := content;
       Message.timestamp := timestamp;
       Message.is_edited := false;
       Message.sender_id := sender_id;
       Message.chatroom_id := chatroom_id |} in
  modify_chat (λ c, set_messages (messages c ++ [row]) c);;
  mret row.

(** *** [app/services/chatroom.py] *)

Definition get_single_chatroom (chatroom_id : Z) : Chat (option ChatRoom.t) :=
  c ← get_chat;
  lift (scalar_one_or_none
          (filter (λ r, ChatRoom.id r = chatroom_id) (chatrooms c))).

(** [join_room]: [joined_at] is filled by [default_factory=datetime.now]
    when the row object is built. *)
Definition join_room (chatroom_id : Z) (current_user : User.t)
    : Chat ChatRoomParticipant.t :=
  joined_at ← lift (datetime_now E);
  add_participant (User.id current_user) chatroom_id joined_at.

Definition participant_check (user_id chatroom_id : Z)
    : Chat (option ChatRoomParticipant.t) :=
  c ← get_chat;
  lift (scalar_one_or_none
          (filter (λ p, ChatRoomParticipant.user_id p = user_id
                        ∧ ChatRoomParticipant.chatroom_id p = chatroom_id)
             (chatroomparticipants c))).

Definition get_member (user_id chatroom_id : Z)
    : Chat (option ChatRoomParticipant.t) :=
  c ← get_chat;
  lift (scalar_one_or_none
          (filter (λ p, ChatRoomParticipant.user_id p = user_id
                        ∧ ChatRoomParticipant.chatroom_id p = chatroom_id)
             (chatroomparticipants c))).

(** [leave_room]: [session.delete(row)] deletes by primary key. *)
Definition leave_room_service (user_id chatroom_id : Z) : Chat unit :=
  user_leaving ← get_member user_id chatroom_id;
  match user_leaving with
  | Some row =>
      modify_chat (λ c,
        set_chatroomparticipants
          (filter (λ p, ChatRoomParticipant.id p ≠ ChatRoomParticipant.id row)
             (chatroomparticipants c)) c)
  | None => mret tt
  end.

(** *** [app/services/message.py] *)

(** [send_message]: [timestamp] is filled by [default_factory=datetime.now]
    when the row object is built. *)
Definition send_message_service (payload : MessageCreate.t)
    (chatroom_id user_id : Z) : Chat Message.t :=
  timestamp ← lift (datetime_now E);
  add_message (MessageCreate.content payload) timestamp user_id chatroom_id.

Definition get_message (message_id : Z) : Chat (option Message.t) :=
  c ← get_chat;
  lift (scalar_one_or_none
          (filter (λ m, Message.id m = message_id) (messages c))).

(** [edit_message]: the two attribute writes become one UPDATE of the row
    with the primary key of [message]. *)
Definition edit_message_service (message_id : Z) (content : string)
    : Chat (option Message.t) :=
  message ← get_message message_id;
  match message with
  | Some message =>
      let message' :=
        {| Message.id := Message.id message;
           Message.content := content;
           Message.timestamp := Message.timestamp message;
           Message.is_edited := true;
           Message.sender_id := Message.sender_id message;
           Message.chatroom_id := Message.chatroom_id message |} in
      modify_chat (λ c,
        set_messages
          ((λ m, if decide (Message.id m = Message.id message)
                 then message' else m) <$> messages c) c);;
      mret (Some message')
  | None => mret None
  end.

(** [delete_message]: [session.get(Message, message_id)] looks the row up
    by primary key. *)
Definition delete_message_service (message_id : Z) : Chat unit :=
  c ← get_chat;
  match head (filter (λ m, Message.id m = message_id) (messages c)) with
  | Some message =>
      modify_chat (λ c,
        set_messages
          (filter (λ m, Message.id m ≠ Message.id message) (messages c)) c)
  | None => mret tt
  end.

(** *** [app/routers/chatroom.py] *)

(** [join_chatroom] returns the [Location] header and the ["message"] of
    the body. *)
Definition join_chatroom (chatroom_id : Z) (current_user : User.t)
    : Chat (string * string) :=
  chatroom ← get_single_chatroom chatroom_id;
  match chatroom with
  | None => chat_raise (HTTPException 404 "Chatroom does not exist!")
  | Some chatroom =>
      is_member ←
        participant_check (User.id current_user) (ChatRoom.id chatroom);
      match is_member with
      | Some _ =>
          chat_raise
            (HTTPException 400
               ("You are already a member of '" +:+ ChatRoom.name chatroom
                +:+ "' room"))
      | None =>
          join_room chatroom_id current_user;;
          mret ("/chatrooms/" +:+ pretty (ChatRoom.id chatroom) +:+ "/members",
                "You have successfully joined '" +:+ ChatRoom.name chatroom
                +:+ "' room.")
      end
  end.

(** [leave_room] returns the ["message"] of the body. *)
Definition leave_room (chatroom_id : Z) (current_user : User.t)
    : Chat string :=
  chatroom ← get_single_chatroom chatroom_id;
  match chatroom with
  | None => chat_raise (HTTPException 404 "Chatrooom does not exist!")
  | Some chatroom =>
      member_check ← get_member (User.id current_user) chatroom_id;
      match member_check with
      | None =>
          chat_raise (HTTPException 404 "Member does not exist in this room!")
      | Some _ =>
          leave_room_service (User.id current_user) chatroom_id;;
          mret ("You've successfully exited " +:+ ChatRoom.name chatroom)
      end
  end.

(** *** [app/routers/message.py] *)

(** [await manager.broadcast(chatroom_id, frame)]: the frames delivered go
    to the log; the exception of a failing send is raised. *)
Definition manager_broadcast (chatroom_id : Z) (frame : Frame.t)
    : Chat unit := λ c,
  let '(log, e) :=
    ConnectionManager.broadcast send_ok (manager (base c)) chatroom_id frame in
  (match e with None => Ok tt | Some e => Raise e end,
   set_sent (sent c ++ log) c).

(** [send_message] returns the new message and the [Location] header. *)
Definition send_message (payload : MessageCreate.t) (chatroom_id : Z)
    (current_user : User.t) : Chat (Message.t * string) :=
  room ← get_single_chatroom chatroom_id;
  match room with
  | None => chat_raise (HTTPException 404 "Chatroom does not exist")
  | Some room =>
      participant ← participant_check (User.id current_user) chatroom_id;
      match participant with
      | None =>
          chat_raise
            (HTTPException 403
               ("You are not a participant of " +:+ ChatRoom.name room
                +:+ ". Please join " +:+ ChatRoom.name room
                +:+ " to send message!"))
      | Some _ =>
          new_message ←
            send_message_service payload (ChatRoom.id room)
              (User.id current_user);
          manager_broadcast chatroom_id
            {| Frame.type := Some "message";
               Frame.sender := User.username current_user;
               Frame.content := Message.content new_message;
               Frame.timestamp := (Str, Message.timestamp new_message) |};;
          mret (new_message, "/messages/" +:+ pretty (Message.id new_message))
      end
  end.

Definition edit_message (message_id : Z) (payload : MessageCreate.t)
    (current_user : User.t) : Chat (option Message.t) :=
  message ← get_message message_id;
  match message with
  | None => chat_raise (HTTPException 404 "Message does not exist")
  | Some message =>
      if decide (User.id current_user ≠ Message.sender_id message)
      then chat_raise (HTTPException 403 "You can only edit message you sent!")
      else edit_message_service message_id (MessageCreate.content payload)
  end.

Definition delete_message (message_id : Z) (current_user : User.t)
    : Chat unit :=
  message ← get_message message_id;
  match message with
  | None => chat_raise (HTTPException 404 "Message does not exist")
  | Some message =>
      if decide (User.id current_user ≠ Message.sender_id message)
      then
        chat_raise (HTTPException 403 "You can only delete message you sent!")
      else delete_message_service message_id
  end.

(** *** The receive loop of [app/routers/ws_chat.py] *)

(** The clause [except WebSocketDisconnect]: [manager.disconnect], whose
    [ValueError] is not caught. *)
Definition on_disconnect (websocket : ConnectionManager.WebSocket)
    (chatroom_id : Z) : Chat loop_end := λ c,
  let '(ac, e) :=
    ConnectionManager.disconnect (manager (base c)) chatroom_id websocket in
  (match e with None => Ok Left | Some e => Raise e end,
   set_base (set_manager ac (base c)) c).

(** [websocket_endpoint] from the entry of the loop on, for a channel that
    [events] describes.  A [KeyError] of [data["content"]] is raised before
    the row object is built; an exception of [broadcast] is caught by the
    clause only if it is a [WebSocketDisconnect]. *)
Fixpoint receive_loop (websocket : ConnectionManager.WebSocket)
    (chatroom_id : Z) (current_user : UserData.t) (events : list event)
    : Chat loop_end :=
  match events with
  | [] => mret Waiting
  | WebSocketDisconnect :: _ => on_disconnect websocket chatroom_id
  | Receive data :: events =>
      match data !! "content" with
      | None => chat_raise (KeyError "content")
      | Some content =>
          timestamp ← lift (datetime_now E);
          new_message ←
            add_message content timestamp (UserData.user_id current_user)
              chatroom_id;
          ((λ c,
              match
                manager_broadcast chatroom_id
                  {| Frame.type := None;
                     Frame.sender := UserData.username current_user;
                     Frame.content := Message.content new_message;
                     Frame.timestamp :=
                       (Isoformat, Message.timestamp new_message) |} c
              with
              | (Ok _, c') =>
                  receive_loop websocket chatroom_id current_user events c'
              | (Raise (SendFailure connection), c') =>
                  if send_disconnects connection
                  then on_disconnect websocket chatroom_id c'
                  else (Raise (SendFailure connection), c')
              | (Raise e, c') => (Raise e, c')
              end) : Chat loop_end)
      end
  end.

End ChatEmbedding.

(** The primary keys of the three tables are unique, and so is a
    membership: [join_chatroom] is the only writer of the latter. *)
Definition chatrooms_unique (c : chat) : Prop :=
  NoDup (ChatRoom.id <$> chatrooms c).

Definition messages_unique (c : chat) : Prop :=
  NoDup (Message.id <$> messages c).

Definition members_unique (c : chat) : Prop :=
  NoDup (ChatRoomParticipant.id <$> chatroomparticipants c)
  ∧ NoDup ((λ p, (ChatRoomParticipant.user_id p,
                   ChatRoomParticipant.chatroom_id p))
             <$> chatroomparticipants c).

(** The rows the foreign keys of a new message or membership refer to
    exist, or the database does not check. *)
Definition references_ok (foreign_keys : bool) (user_id chatroom_id : Z)
    (c : chat) : Prop :=
  foreign_keys = true →
  Exists (λ u, User.id u = user_id) (users (base c))
  ∧ Exists (λ r, ChatRoom.id r = chatroom_id) (chatrooms c).

(** The row the receive loop stores for the [i]-th frame it is given from
    state [c] on, and the frame it then sends. *)
Definition stream_row (E : env) (primary_key : nat → Z) (c : chat)
    (chatroom_id : Z) (current_user : UserData.t) (i : nat)
    (content : string) : Message.t :=
  {| Message.id := primary_key (key_calls c + i)%nat;
     Message.content := content;
     Message.timestamp := clock E (clock_reads (base c) + i)%nat;
     Message.is_edited := false;
     Message.sender_id := UserData.user_id current_user;
     Message.chatroom_id := chatroom_id |}.

Definition stream_frame (E : env) (c : chat) (current_user : UserData.t)
    (i : nat) (content : string) : Frame.t :=
  {| Frame.type := None;
     Frame.sender := UserData.username current_user;
     Frame.content := content;
     Frame.timestamp :=
       (Isoformat, clock E (clock_reads (base c) + i)%nat) |}.

(** A room with two listeners, of which account 1 is a member. *)
Module SampleChat.

Definition lobby : ChatRoom.t :=
  {| ChatRoom.id := 7; ChatRoom.name := "lobby"; ChatRoom.is_private := false;
     ChatRoom.is_direct_message := false; ChatRoom.owner_id := 1 |}.

Definition member : ChatRoomParticipant.t :=
  {| ChatRoomParticipant.id := 1; ChatRoomParticipant.user_id := 1;
     ChatRoomParticipant.chatroom_id := 7;
     ChatRoomParticipant.joined_at := 0 |}.

Definition hello : Message.t :=
  {| Message.id := 1; Message.content := "hello"; Message.timestamp := 0;
     Message.is_edited := false; Message.sender_id := 1;
     Message.chatroom_id := 7 |}.

Definition c0 : chat :=
  {| base := set_manager {[ 7%Z := [1%nat; 2%nat] ]} Sample.w0;
     key_calls := 0;
     chatrooms := [lobby];
     chatroomparticipants := [member];
     messages := [hello];
     sent := [] |}.

(** Keys are handed out from 100 on. *)
Definition primary_key (n : nat) : Z := 100 + Z.of_nat n.

(** Account 2, which exists in no table. *)
Definition stranger : User.t :=
  {| User.id := 2; User.username := "bob"; User.email := "bob@example.org";
     User.hashed_password := "secret"; User.is_active := true;
     User.created_at := 0 |}.

End SampleChat.

(* ===================================================================== *)
(** * Part 2: properties                                                  *)
(* ===================================================================== *)

Section Registry.
Import ConnectionManager.
Implicit Types (ac : active_connections) (r : Z) (c d : WebSocket)
  (l : list WebSocket).

Lemma connect_lookup ac r c :
  connect ac r c !! r = Some (default [] (ac !! r) ++ [c]).
Proof.
  unfold connect. destruct (ac !! r) as [l|] eqn:E.
  - rewrite lookup_alter_eq, E. done.
  - rewrite lookup_alter_eq, lookup_insert_eq. done.
Qed.

Lemma connect_lookup_ne ac r r' c :
  r ≠ r' → connect ac r c !! r' = ac !! r'.
Proof.
  intros Hne. unfold connect. destruct (ac !! r) as [l|] eqn:E.
  - by rewrite lookup_alter_ne.
  - rewrite lookup_alter_ne, lookup_insert_ne; done.
Qed.

Lemma registrations_connect ac r c :
  registrations (connect ac r c) r c = S (registrations ac r c).
Proof.
  unfold registrations. rewrite connect_lookup. simpl.
  rewrite filter_app, length_app, filter_cons_True by done.
  simpl. lia.
Qed.

Lemma list_remove_None c l :
  list_remove c l = None ↔ length (filter (λ x, x = c) l) = 0%nat.
Proof.
  induction l as [|y l IH]; simpl; [done|].
  destruct (decide (y = c)) as [->|Hne].
  - rewrite filter_cons_True by done. simpl. split; [done | lia].
  - rewrite filter_cons_False by done.
    destruct (list_remove c l); simpl in *; [|tauto].
    split; [done|]. intros H. apply IH in H. done.
Qed.

Lemma list_remove_Some c l l' :
  list_remove c l = Some l' →
  length (filter (λ x, x = c) l) = S (length (filter (λ x, x = c) l')).
Proof.
  revert l'. induction l as [|y l IH]; intros l'; simpl; [done|].
  destruct (decide (y = c)) as [->|Hne].
  - intros [= ->]. by rewrite filter_cons_True.
  - destruct (list_remove c l) as [l0|]; simpl; [|done].
    intros [= <-]. rewrite !filter_cons_False by done. by apply IH.
Qed.

Lemma send_all_ok {M : Type} (send_ok : WebSocket → bool) l (m : M) :
  (∀ d, d ∈ l → send_ok d = true) →
  send_all send_ok l m = ((λ d, (d, m)) <$> l, None).
Proof.
  induction l as [|d l IH]; intros H; simpl; [done|].
  rewrite H by apply list_elem_of_here.
  rewrite IH; [done|]. intros d' Hd'. apply H. by apply list_elem_of_further.
Qed.

Lemma received_fmap {M : Type} c l (m : M) :
  received c ((λ d, (d, m)) <$> l)
  = replicate (length (filter (λ x, x = c) l)) m.
Proof.
  unfold received. induction l as [|d l IH]; [done|].
  rewrite fmap_cons. destruct (decide (d = c)) as [->|Hne].
  - rewrite !filter_cons_True by done. rewrite fmap_cons.
    cbn [length replicate snd]. f_equal. exact IH.
  - rewrite !filter_cons_False by done. exact IH.
Qed.


Lemma received_nil {M : Type} c (log : list (WebSocket * M)) :
  (∀ m, (c, m) ∉ log) → received c log = [].
Proof.
  unfold received. induction log as [|[d m] log IH]; intros H; [done|].
  destruct (decide (d = c)) as [->|Hne].
  - exfalso. apply (H m). apply list_elem_of_here.
  - rewrite filter_cons_False by done. apply IH.
    intros m' Hm'. apply (H m'). by apply list_elem_of_further.
Qed.

Lemma filter_length_0 c l :
  length (filter (λ x, x = c) l) = 0%nat → c ∉ l.
Proof.
  intros H Hin. apply length_zero_iff_nil in H.
  assert (c ∈ filter (λ x, x = c) l) as Hc by (by apply list_elem_of_filter).
  rewrite H in Hc. by apply not_elem_of_nil in Hc.
Qed.

Lemma filter_length_pos c l :
  (0 < length (filter (λ x, x = c) l))%nat → c ∈ l.
Proof.
  induction l as [|y l IH]; simpl; [lia|].
  destruct (decide (y = c)) as [->|Hne].
  - intros _. apply list_elem_of_here.
  - rewrite filter_cons_False by done. intros H.
    apply list_elem_of_further. by apply IH.
Qed.

Lemma broadcast_received_ok {M : Type} (send_ok : WebSocket → bool)
    ac r c (m : M) :
  (∀ d, d ∈ default [] (ac !! r) → send_ok d = true) →
  received c (broadcast send_ok ac r m).1
  = replicate (registrations ac r c) m.
Proof.
  unfold broadcast, registrations. intros H.
  destruct (ac !! r) as [l|]; simpl in *; [|done].
  rewrite send_all_ok by done. apply received_fmap.
Qed.


Lemma registrations_disconnect ac r c :
  registrations (disconnect ac r c).1 r c = pred (registrations ac r c).
Proof.
  unfold registrations, disconnect.
  destruct (ac !! r) as [l|] eqn:E; simpl; [|by rewrite E].
  destruct (list_remove c l) as [l'|] eqn:R; simpl.
  - apply list_remove_Some in R. rewrite R. simpl.
    destruct l'; simpl.
    + by rewrite lookup_delete_eq.
    + by rewrite lookup_insert_eq.
  - rewrite E. simpl. apply list_remove_None in R. by rewrite R.
Qed.


Lemma no_empty_room_connect ac r c :
  no_empty_room ac → no_empty_room (connect ac r c).
Proof.
  intros H r' l. destruct (decide (r = r')) as [<-|Hne].
  - rewrite connect_lookup. intros [= <-]. by destruct (default [] (ac !! r)).
  - rewrite connect_lookup_ne by done. apply H.
Qed.

Lemma no_empty_room_disconnect ac r c :
  no_empty_room ac → no_empty_room (disconnect ac r c).1.
Proof.
  intros H. unfold disconnect.
  destruct (ac !! r) as [l|] eqn:E; simpl; [|done].
  destruct (list_remove c l) as [[|x l']|]; simpl; [| |done].
  - intros r' l0. destruct (decide (r = r')) as [<-|Hne].
    + by rewrite lookup_delete_eq.
    + rewrite lookup_delete_ne, lookup_insert_ne by done. apply H.
  - intros r' l0. destruct (decide (r = r')) as [<-|Hne].
    + rewrite lookup_insert_eq. by intros [= <-].
    + rewrite lookup_insert_ne by done. apply H.
Qed.

(** C8: in every registry state reachable from the empty registry by
    connect, disconnect and broadcast operations, every room that is a key
    of the registry maps to a non-empty list of channels. *)
Theorem C8_no_empty_room ac :
  reachable ac → ∀ r l, ac !! r = Some l → l ≠ [].
Proof.
  induction 1 as [|ac ac' _ IH Hstep].
  - intros r l. unfold init. by rewrite lookup_empty.
  - destruct Hstep.
    + by apply no_empty_room_connect.
    + by apply no_empty_room_disconnect.
    + exact IH.
Qed.

Lemma C8_witness :
  reachable (disconnect (connect (connect init 7 1) 7 2) 7 1).1
  ∧ (disconnect (connect (connect init 7 1) 7 2) 7 1).1 !! 7%Z = Some [2]
  ∧ [2] ≠ @nil WebSocket.
Proof.
  assert (reachable (disconnect (connect (connect init 7 1) 7 2) 7 1).1)
    as Hr by (repeat econstructor).
  assert ((disconnect (connect (connect init 7 1) 7 2) 7 1).1 !! 7%Z
          = Some [2]) as Hl by (vm_compute; reflexivity).
  split; [exact Hr|]. split; [exact Hl|].
  exact (C8_no_empty_room _ Hr 7%Z [2] Hl).
Defined.

(** The calls of the program keep a channel at most once in a room. *)
Lemma list_remove_NoDup c l l' :
  list_remove c l = Some l' → NoDup l →
  NoDup l' ∧ (c ∉ l') ∧ (∀ x, x ∈ l' → x ∈ l).
Proof.
  revert l'. induction l as [|y l IH]; intros l'; simpl; [done|].
  intros Hrem [Hy Hnd]%NoDup_cons.
  destruct (decide (y = c)) as [->|Hne].
  - injection Hrem as <-. split; [done|]. split; [done|].
    intros x Hx. by apply list_elem_of_further.
  - destruct (list_remove c l) as [l0|]; [|done]. injection Hrem as <-.
    destruct (IH l0 eq_refl Hnd) as (Hnd0 & Hc & Hsub).
    split; [|split].
    + apply NoDup_cons. split; [|done]. intros Hin. by apply Hy, Hsub.
    + intros [->|Hin]%elem_of_cons; [done|by apply Hc].
    + intros x [->|Hx]%elem_of_cons;
        [apply list_elem_of_here|by apply list_elem_of_further, Hsub].
Qed.

Lemma connect_call_run (s : channels) r c :
  connect_call s r c
  = if decide (c ∈ handshaken s) then (s, Some RuntimeError)
    else ({| handshaken := {[ c ]} ∪ handshaken s;
             active := connect (active s) r c |}, None).
Proof.
  unfold connect_call, accept. by destruct (decide (c ∈ handshaken s)).
Qed.

Lemma registered_once_connect_call (s : channels) r c :
  registered_once s → registered_once (connect_call s r c).1.
Proof.
  intros Hs. rewrite connect_call_run.
  destruct (decide (c ∈ handshaken s)) as [|Hc]; [done|].
  intros r' l. cbn [fst active handshaken].
  destruct (decide (r = r')) as [<-|Hne].
  - rewrite connect_lookup. intros [= <-].
    destruct (active s !! r) as [l0|] eqn:Hl0; cbn [default].
    + destruct (Hs r l0 Hl0) as [Hnd Hin]. split.
      * apply NoDup_app. split; [done|]. split; [|apply NoDup_singleton].
        intros x Hx ->%list_elem_of_singleton. by apply Hc, Hin.
      * intros x [Hx| ->%list_elem_of_singleton]%elem_of_app;
          [apply elem_of_union_r; by apply Hin|].
        by apply elem_of_union_l, elem_of_singleton.
    + split; [apply NoDup_singleton|].
      intros x ->%list_elem_of_singleton.
      by apply elem_of_union_l, elem_of_singleton.
  - rewrite connect_lookup_ne by done. intros Hl.
    destruct (Hs r' l Hl) as [Hnd Hin]. split; [done|].
    intros x Hx. apply elem_of_union_r. by apply Hin.
Qed.

Lemma registered_once_disconnect_call (s : channels) r c :
  registered_once s → registered_once (disconnect_call s r c).1.
Proof.
  intros Hs. unfold disconnect_call, disconnect.
  destruct (active s !! r) as [l0|] eqn:Hl0; [|done].
  destruct (list_remove c l0) as [l1|] eqn:Hrem; [|done].
  destruct (Hs r l0 Hl0) as [Hnd0 Hin0].
  destruct (list_remove_NoDup c l0 l1 Hrem Hnd0) as (Hnd1 & _ & Hsub).
  assert (∀ r' l, <[r := l1]> (active s) !! r' = Some l →
            NoDup l ∧ ∀ x, x ∈ l → x ∈ handshaken s) as Hins.
  { intros r' l. destruct (decide (r = r')) as [<-|Hne].
    - rewrite lookup_insert_eq. intros [= <-]. split; [done|].
      intros x Hx. by apply Hin0, Hsub.
    - rewrite lookup_insert_ne by done. apply Hs. }
  destruct l1 as [|x l1]; cbn [fst]; [|exact Hins].
  intros r' l. cbn [active handshaken].
  destruct (decide (r = r')) as [<-|Hne].
  - by rewrite lookup_delete_eq.
  - rewrite lookup_delete_ne by done. apply Hins.
Qed.

Lemma call_reachable_registered_once (s : channels) :
  call_reachable s → registered_once s.
Proof.
  induction 1 as [|s s' _ IH Hcall].
  - intros r l. unfold channels_init, init. cbn [active].
    by rewrite lookup_empty.
  - destruct Hcall.
    + by apply registered_once_connect_call.
    + by apply registered_once_disconnect_call.
    + exact IH.
Qed.

Lemma filter_absent c l : c ∉ l → filter (λ x, x = c) l = [].
Proof.
  induction l as [|y l IH]; intros Hc; [done|].
  rewrite filter_cons_False by (intros ->; apply Hc, list_elem_of_here).
  apply IH. intros Hin. by apply Hc, list_elem_of_further.
Qed.

Lemma registered_once_registrations (s : channels) r c :
  registered_once s →
  (registrations (active s) r c ≤ 1)%nat
  ∧ (c ∉ handshaken s → registrations (active s) r c = 0%nat).
Proof.
  intros Hs. unfold registrations.
  destruct (active s !! r) as [l|] eqn:Hl; cbn [default];
    [|split; [simpl; lia|done]].
  destruct (Hs r l Hl) as [Hnd Hin]. split.
  - clear Hin Hl. induction Hnd as [|x l Hx _ IH]; simpl; [lia|].
    destruct (decide (x = c)) as [->|Hne].
    + rewrite filter_cons_True by done. simpl.
      rewrite filter_absent by done. simpl. lia.
    + by rewrite filter_cons_False.
  - intros Hc. rewrite filter_absent; [done|].
    intros Hy. by apply Hc, Hin.
Qed.







(** C10, as the code has it: when [connect] is called twice for a channel
    and a room, the second call raises [RuntimeError] at the handshake and
    leaves the state of the first; the room holds at most one registration
    of the channel.  If the first call returned, the room holds exactly
    one: a broadcast whose sends all return delivers the message to it
    once, and one disconnect returns normally and leaves the channel
    unregistered. *)
Theorem C10_double_connect {M : Type} (send_ok : WebSocket → bool)
    (s : channels) r c (m : M) :
  call_reachable s →
  let first := connect_call s r c in
  let second := connect_call first.1 r c in
  second = (first.1, Some RuntimeError)
  ∧ (registrations (active second.1) r c ≤ 1)%nat
  ∧ (first.2 = None →
     registrations (active second.1) r c = 1%nat
     ∧ ((∀ d, d ∈ default [] (active second.1 !! r) → send_ok d = true) →
        received c (broadcast send_ok (active second.1) r m).1 = [m])
     ∧ (disconnect (active second.1) r c).2 = None
     ∧ registrations (disconnect (active second.1) r c).1 r c = 0%nat
     ∧ c ∉ default [] ((disconnect (active second.1) r c).1 !! r)).
Proof.
  intros Hs first second.
  assert (c ∈ handshaken first.1) as Hc1.
  { unfold first. rewrite connect_call_run.
    destruct (decide (c ∈ handshaken s)); [done|].
    by apply elem_of_union_l, elem_of_singleton. }
  assert (second = (first.1, Some RuntimeError)) as Hsecond.
  { unfold second. rewrite connect_call_run. by rewrite decide_True. }
  rewrite Hsecond. cbn [fst].
  assert (call_reachable first.1) as Hs1 by (econstructor; [done|constructor]).
  apply call_reachable_registered_once in Hs1 as Honce1.
  apply call_reachable_registered_once in Hs as Honce.
  split; [done|]. split; [by apply registered_once_registrations|].
  intros Hfirst.
  assert (registrations (active first.1) r c = 1%nat) as H1.
  { revert Hfirst. unfold first. rewrite connect_call_run.
    destruct (decide (c ∈ handshaken s)) as [|Hc]; [done|]. intros _.
    cbn [fst active]. rewrite registrations_connect.
    by rewrite (proj2 (registered_once_registrations s r c Honce)). }
  assert (registrations (disconnect (active first.1) r c).1 r c = 0%nat)
    as H0 by by rewrite registrations_disconnect, H1.
  split; [done|]. split; [|split; [|split; [done|]]].
  - intros Hsend. rewrite broadcast_received_ok by done. by rewrite H1.
  - unfold disconnect. destruct (active first.1 !! r) as [l|] eqn:E; [|done].
    destruct (list_remove c l) as [[|x l']|] eqn:R; [done|done|].
    apply list_remove_None in R. unfold registrations in H1.
    rewrite E in H1. simpl in H1. lia.
  - by apply filter_length_0.
Qed.

Lemma C10_witness :
  let s := (connect_call channels_init 7 2).1 in
  let first := connect_call s 7 1 in
  let second := connect_call first.1 7 1 in
  second = (first.1, Some RuntimeError)
  ∧ active second.1 !! 7%Z = Some [2%nat; 1%nat]
  ∧ received 1 (broadcast (λ _, true) (active second.1) 7 "hi").1 = ["hi"]
  ∧ (disconnect (active second.1) 7 1).2 = None
  ∧ 1%nat ∉ default [] ((disconnect (active second.1) 7 1).1 !! 7%Z).
Proof.
  intros s first second.
  assert (call_reachable s) as Hs by (repeat econstructor).
  destruct (C10_double_connect (λ _, true) s 7 1 "hi" Hs)
    as (Hsecond & _ & Hfirst).
  destruct Hfirst as (_ & Hrecv & Hret & _ & Hgone);
    [vm_compute; reflexivity|].
  split; [exact Hsecond|]. split; [vm_compute; reflexivity|].
  split; [by apply Hrecv|]. split; [exact Hret|exact Hgone].
Defined.

(** C10 as stated fails: after two connect calls for channel 1 and room 7
    the room holds one registration of it, not two; a broadcast delivers
    the message to it once, not twice; and one disconnect leaves it
    unregistered and the room without an entry. *)
Lemma C10_counterexample :
  let first := connect_call channels_init 7 1 in
  let second := connect_call first.1 7 1 in
  first.2 = None
  ∧ second.2 = Some RuntimeError
  ∧ registrations (active second.1) 7 1 = 1%nat
  ∧ registrations (active second.1) 7 1 ≠ 2%nat
  ∧ received 1 (broadcast (λ _, true) (active second.1) 7 "hi").1 = ["hi"]
  ∧ received 1 (broadcast (λ _, true) (active second.1) 7 "hi").1
    ≠ ["hi"; "hi"]
  ∧ registrations (disconnect (active second.1) 7 1).1 7 1 = 0%nat
  ∧ (disconnect (active second.1) 7 1).1 !! 7%Z = None.
Proof.
  repeat split; vm_compute; (reflexivity || discriminate).
Qed.

End Registry.

(** ** The concrete outside world meets the assumptions *)

Section SampleFacts.

Lemma sample_unbits_bits p : Sample.unbits (Sample.bits p) = Some p.
Proof. induction p as [p IH|p IH|]; simpl; [by rewrite IH..|done]. Qed.

Lemma sample_of_to_tuple p : Sample.of_tuple (Sample.to_tuple p) = p.
Proof. destruct p as [[[i n m]|] e j r s]; reflexivity. Qed.

Lemma sample_sound : jwt_sound Sample.E.
Proof.
  intros p. cbn [jwt_payload jwt_encode Sample.E].
  rewrite sample_unbits_bits. cbn [mbind option_bind].
  rewrite decode_encode. cbn [mbind option_bind].
  by rewrite sample_of_to_tuple.
Qed.

Lemma sample_uuid4_nonempty : uuid4_nonempty Sample.E.
Proof. intros k. done. Qed.

Lemma sample_uuid4_fresh : uuid4_fresh Sample.E.
Proof. intros i j [= H]. by apply (inj pretty) in H. Qed.

End SampleFacts.

(** ** Token service *)

Section TokenLemmas.
Context (E : env).
Implicit Types (w : world) (token : string) (p td : Claims.t).
Local Open Scope Z_scope.

Lemma jwt_decode_ok token p w :
  jwt_payload E token = Some p →
  (∀ e, Claims.exp p = Some e → clock E (clock_reads w) < e * 1000000) →
  jwt_decode E token w = (Ok p, tick w).
Proof.
  intros Hp Hexp. unfold jwt_decode. rewrite Hp.
  unfold mbind, IO_bind, datetime_now.
  destruct (Claims.exp p) as [e|]; [|done].
  specialize (Hexp e eq_refl). rewrite decide_False by lia. done.
Qed.

Lemma jwt_decode_expired token p e w :
  jwt_payload E token = Some p →
  Claims.exp p = Some e →
  e * 1000000 ≤ clock E (clock_reads w) →
  jwt_decode E token w = (Raise (PyJWTError ExpiredSignatureError), tick w).
Proof.
  intros Hp He Hle. unfold jwt_decode. rewrite Hp.
  unfold mbind, IO_bind, datetime_now. rewrite He.
  rewrite decide_True by lia. done.
Qed.

Lemma jwt_decode_bad token w :
  jwt_payload E token = None →
  jwt_decode E token w = (Raise (PyJWTError DecodeError), w).
Proof. intros Hp. unfold jwt_decode. by rewrite Hp. Qed.

(** What [create_access_token] returns and how it leaves the world. *)
Lemma create_access_token_run user_data expiry refresh session_id jti w :
  let w1 := match truthy jti with Some _ => tick w | None => draw (tick w) end in
  create_access_token E user_data expiry refresh session_id jti w
  = (Ok (jwt_encode E
           {| Claims.user := user_data;
              Claims.exp :=
                Some (Z.quot (clock E (clock_reads w)
                              + default (timedelta_minutes ACCESS_TOKEN_EXPIRY)
                                  expiry) 1000000);
              Claims.jti := Some (default (uuid4 E (uuid_calls w)) (truthy jti));
              Claims.refresh := refresh;
              Claims.session_id :=
                Some (default (uuid4 E (uuid_calls w1)) (truthy session_id)) |}),
     match truthy session_id with Some _ => w1 | None => draw w1 end).
Proof.
  unfold create_access_token, or_uuid4, mbind, IO_bind, datetime_now.
  destruct expiry, (truthy jti), (truthy session_id); reflexivity.
Qed.

Lemma quot_whole_seconds now n :
  0 ≤ now → 0 ≤ n →
  Z.quot (now + n * 1000000) 1000000 = Z.quot now 1000000 + n.
Proof.
  intros H0 Hn. rewrite !Z.quot_div_nonneg by lia.
  by rewrite Z.div_add by lia.
Qed.

Lemma verify_access_token_ok token p j w :
  jwt_payload E token = Some p →
  Claims.jti p = Some j →
  (∀ e, Claims.exp p = Some e → clock E (clock_reads w) < e * 1000000) →
  verify_access_token E token w = (Ok p, tick w).
Proof.
  intros Hp Hj Hexp. unfold verify_access_token, try_except, mbind, IO_bind.
  rewrite (jwt_decode_ok token p w Hp Hexp), Hj. done.
Qed.

Lemma truthy_uuid4 k :
  uuid4_nonempty E → truthy (Some (uuid4 E k)) = Some (uuid4 E k).
Proof. intros H. unfold truthy. by rewrite decide_False. Qed.

Lemma existsb_false {A : Type} (f : A → bool) (l : list A) :
  (∀ x, x ∈ l → f x = false) → existsb f l = false.
Proof.
  induction l as [|x l IH]; intros H; simpl; [done|].
  rewrite H by apply list_elem_of_here. simpl.
  apply IH. intros y Hy. apply H. by apply list_elem_of_further.
Qed.


Lemma login_run data u w :
  jwt_sound E →
  uuid4_nonempty E →
  user_service_user (LoginData.username data) (LoginData.username data) w
    = (Ok (Some u), w) →
  verify_password E (LoginData.password data) (User.hashed_password u)
    = true →
  (∀ r, r ∈ refreshtokens w →
        RefreshToken.jti r ≠ uuid4 E (S (uuid_calls w))
        ∧ RefreshToken.session_id r ≠ uuid4 E (uuid_calls w)) →
  let session_id := uuid4 E (uuid_calls w) in
  let jti := uuid4 E (S (uuid_calls w)) in
  let exp_a :=
    Z.quot (clock E (clock_reads w) + timedelta_minutes ACCESS_TOKEN_EXPIRY)
      1000000 in
  let exp_r :=
    Z.quot (clock E (S (clock_reads w)) + timedelta_days REFRESH_EXPIRY)
      1000000 in
  clock E (S (S (clock_reads w))) < exp_r * 1000000 →
  login E data w
  = (Ok (jwt_encode E (login_claims u false exp_a session_id jti),
         jwt_encode E (login_claims u true exp_r session_id jti)),
     set_refreshtokens
       (refreshtokens w
        ++ [ {| RefreshToken.jti := jti;
                RefreshToken.user_id := User.id u;
                RefreshToken.session_id := session_id;
                RefreshToken.expires_at := fromtimestamp exp_r;
                RefreshToken.revoked := false |} ])
       (tick (tick (tick (draw (draw w)))))).
Proof.
  intros Hsound Hne Huser Hpw Hfresh session_id jti exp_a exp_r Hclock.
  unfold login. unfold mbind at 1. unfold IO_bind at 1.
  rewrite Huser, Hpw.
  unfold mbind, IO_bind, str_uuid4.
  rewrite !create_access_token_run. cbn [uuid_calls draw clock_reads tick].
  rewrite !truthy_uuid4 by done. cbn [default].
  fold session_id jti exp_a exp_r.
  rewrite (jwt_decode_ok _ (login_claims u true exp_r session_id jti)).
  - cbn [Claims.exp login_claims]. unfold save_refresh_token, mbind, IO_bind.
    cbn [get_world]. rewrite existsb_false.
    + reflexivity.
    + intros r Hr. destruct (Hfresh r) as [H1 H2]; [exact Hr|].
      unfold refresh_conflict. cbn [RefreshToken.jti RefreshToken.session_id].
      rewrite !bool_decide_eq_false_2; done.
  - apply Hsound.
  - intros e [= <-]. exact Hclock.
Qed.

Lemma filter_none {A : Type} (P : A → Prop) `{∀ x, Decision (P x)}
    (l : list A) :
  (∀ x, x ∈ l → ¬ P x) → filter P l = [].
Proof.
  induction l as [|x l IH]; intros Hn; [done|].
  rewrite filter_cons_False by (apply Hn, list_elem_of_here).
  apply IH. intros y Hy. apply Hn. by apply list_elem_of_further.
Qed.

(** A query that pins a unique column returns at most the one row. *)
Lemma filter_unique {A B : Type} (f : A → B) (P : A → Prop)
    `{∀ x, Decision (P x)} (l : list A) (r : A) :
  NoDup (f <$> l) → r ∈ l → P r → (∀ x, P x → f x = f r) →
  filter P l = [r].
Proof.
  intros Hnd Hr HP Hkey. induction l as [|x l IH]; [by inversion Hr|].
  rewrite fmap_cons in Hnd. apply NoDup_cons in Hnd as [Hx Hnd].
  apply elem_of_cons in Hr as [<-|Hr].
  - rewrite filter_cons_True by done. f_equal.
    apply filter_none. intros y Hy HPy. apply Hx.
    rewrite <- (Hkey y HPy). apply list_elem_of_fmap. eauto.
  - rewrite filter_cons_False; [by apply IH|].
    intros HPx. apply Hx. rewrite (Hkey x HPx).
    apply list_elem_of_fmap. eauto.
Qed.

Lemma validate_refresh_token_jti_forbidden jti w :
  (∀ r, r ∈ refreshtokens w → Some (RefreshToken.jti r) = jti →
        RefreshToken.revoked r = true
        ∨ RefreshToken.expires_at r ≤ clock E (clock_reads w)) →
  validate_refresh_token_jti E jti w
  = (Raise (HTTPException 403 "Invalid of expired token"), tick w).
Proof.
  intros Hbad. unfold validate_refresh_token_jti, mbind, IO_bind.
  cbn [datetime_now get_world refreshtokens tick].
  rewrite filter_none; [done|].
  intros r Hr (Hj & Hrev & Hexp). destruct (Hbad r Hr Hj) as [Hrv|Hle].
  - congruence.
  - lia.
Qed.

Lemma validate_refresh_token_jti_ok jti r w :
  refresh_unique (refreshtokens w) →
  r ∈ refreshtokens w →
  refresh_valid jti (clock E (clock_reads w)) r →
  validate_refresh_token_jti E jti w = (Ok r, tick w).
Proof.
  intros [Hnd _] Hr Hvalid.
  unfold validate_refresh_token_jti, mbind, IO_bind.
  cbn [datetime_now get_world refreshtokens tick].
  rewrite (filter_unique RefreshToken.jti _ _ r); [done..|].
  intros x (Hx & _). destruct Hvalid as (Hj & _). congruence.
Qed.

Lemma revoke_refresh_token_run r w :
  refresh_unique (refreshtokens w) →
  r ∈ refreshtokens w →
  revoke_refresh_token (RefreshToken.session_id r) w
  = (Ok tt,
     set_refreshtokens
       ((λ x, if decide (RefreshToken.session_id x = RefreshToken.session_id r)
              then revoke x else x) <$> refreshtokens w) w).
Proof.
  intros [_ Hnd] Hr. unfold revoke_refresh_token, mbind, IO_bind.
  cbn [get_world].
  rewrite (filter_unique RefreshToken.session_id _ _ r); done.
Qed.

Lemma get_new_token_forbidden td e w :
  Claims.exp td = Some e →
  (∀ r, r ∈ refreshtokens w → Some (RefreshToken.jti r) = Claims.jti td →
        RefreshToken.revoked r = true
        ∨ RefreshToken.expires_at r ≤ clock E (clock_reads w)) →
  get_new_token E td w
  = (Raise (HTTPException 403 "Invalid of expired token"), tick w).
Proof.
  intros He Hbad. unfold get_new_token. rewrite He.
  unfold mbind at 1. unfold IO_bind at 1.
  by rewrite validate_refresh_token_jti_forbidden.
Qed.

Lemma get_new_token_run td e r w :
  Claims.exp td = Some e →
  refresh_unique (refreshtokens w) →
  r ∈ refreshtokens w →
  refresh_valid (Claims.jti td) (clock E (clock_reads w)) r →
  clock E (S (clock_reads w)) < e * 1000000 →
  get_new_token E td w
  = create_access_token E (Claims.user td) None false (Claims.session_id td)
      None (tick (tick w)).
Proof.
  intros He Huniq Hr Hvalid Hclock. unfold get_new_token. rewrite He.
  unfold mbind at 1. unfold IO_bind at 1.
  rewrite (validate_refresh_token_jti_ok _ r) by done.
  unfold mbind at 1. unfold IO_bind at 1.
  cbn [datetime_now clock_reads tick]. unfold fromtimestamp.
  rewrite decide_True by lia. done.
Qed.

Lemma existsb_false_inv {A : Type} (f : A → bool) (l : list A) x :
  existsb f l = false → x ∈ l → f x = false.
Proof.
  induction l as [|y l IH]; simpl; intros Hf Hx; [by inversion Hx|].
  apply orb_false_iff in Hf as [Hy Hl].
  apply elem_of_cons in Hx as [->|Hx]; [done|by apply IH].
Qed.

Lemma filter_unique_omap {A B : Type} `{EqDecision B} (f : A → option B)
    (l : list A) (r : A) k :
  NoDup (omap f l) → r ∈ l → f r = Some k →
  filter (λ x, f x = Some k) l = [r].
Proof.
  intros Hnd Hr Hk. induction l as [|x l IH]; [by inversion Hr|].
  cbn [omap list_omap] in Hnd.
  apply elem_of_cons in Hr as [<-|Hr].
  - rewrite Hk in Hnd. apply NoDup_cons in Hnd as [Hx Hnd].
    rewrite filter_cons_True by done. f_equal.
    apply filter_none. intros y Hy Hfy. apply Hx.
    apply list_elem_of_omap. eauto.
  - destruct (f x) as [k'|] eqn:Hfx.
    + apply NoDup_cons in Hnd as [Hx Hnd].
      rewrite filter_cons_False; [by apply IH|].
      rewrite Hfx. intros [= ->]. apply Hx. apply list_elem_of_omap. eauto.
    + rewrite filter_cons_False; [by apply IH|]. by rewrite Hfx.
Qed.

Lemma add_blacklistedtoken_run row w :
  add_blacklistedtoken row w
  = if existsb (blacklist_conflict row) (blacklistedtokens w)
    then (Raise IntegrityError, w)
    else (Ok tt, set_blacklistedtokens (blacklistedtokens w ++ [row]) w).
Proof.
  unfold add_blacklistedtoken, mbind, IO_bind. cbn [get_world].
  by destruct (existsb _ _).
Qed.

(** [create_token_blacklist], case by case. *)
Lemma create_token_blacklist_run token w :
  create_token_blacklist E token w
  = match jwt_payload E token with
    | Some p =>
        match Claims.exp p with
        | Some e =>
            if decide (e * 1000000 ≤ clock E (clock_reads w))
            then (Raise (ValueError "Invalid token"), tick w)
            else add_blacklistedtoken
                   {| BlacklistedToken.token := token;
                      BlacklistedToken.token_jti := Claims.jti p;
                      BlacklistedToken.expires_at := fromtimestamp e |}
                   (tick w)
        | None => (Raise (ValueError "Invalid token"), tick w)
        end
    | None => (Raise (ValueError "Invalid token"), w)
    end.
Proof.
  unfold create_token_blacklist, try_except, jwt_decode, mbind, IO_bind.
  destruct (jwt_payload E token) as [p|]; [|done].
  cbn [datetime_now].
  destruct (Claims.exp p) as [e|] eqn:He; [destruct (decide _)|];
    simpl; rewrite ?He; reflexivity.
Qed.

Lemma blacklist_unique_add row rows :
  blacklist_unique rows →
  existsb (blacklist_conflict row) rows = false →
  blacklist_unique (rows ++ [row]).
Proof.
  intros [Ht Hj] Hfree.
  assert (∀ r, r ∈ rows → blacklist_conflict row r = false) as Hno
    by (intros r; by apply existsb_false_inv).
  split.
  - rewrite fmap_app. apply NoDup_app. split; [done|].
    split; [|apply NoDup_singleton].
    intros t (r & -> & Hr)%list_elem_of_fmap Heq%list_elem_of_singleton.
    apply Hno in Hr. unfold blacklist_conflict in Hr.
    apply orb_false_iff in Hr as [Hr _].
    by apply bool_decide_eq_false in Hr.
  - rewrite omap_app. apply NoDup_app. split; [done|].
    cbn [omap list_omap].
    destruct (BlacklistedToken.token_jti row) as [j|] eqn:Hrow.
    + split; [|apply NoDup_singleton].
      intros j' (r & Hr & Hrj)%list_elem_of_omap Heq%list_elem_of_singleton.
      subst j'. apply Hno in Hr. unfold blacklist_conflict in Hr.
      rewrite Hrow in Hr. apply orb_false_iff in Hr as [_ Hr].
      by apply bool_decide_eq_false in Hr.
    + split; [|apply NoDup_nil_2]. intros j' _ Hn. by inversion Hn.
Qed.

Lemma get_blacklisted_token_run row w :
  blacklist_unique (blacklistedtokens w) →
  row ∈ blacklistedtokens w →
  get_blacklisted_token (BlacklistedToken.token row) w = (Ok (Some row), w).
Proof.
  intros [Ht _] Hr. unfold get_blacklisted_token, mbind, IO_bind.
  cbn [get_world].
  rewrite (filter_unique BlacklistedToken.token _ _ row); done.
Qed.

Lemma get_blacklisted_token_jti_run row j w :
  blacklist_unique (blacklistedtokens w) →
  row ∈ blacklistedtokens w →
  BlacklistedToken.token_jti row = Some j →
  get_blacklisted_token_jti j w = (Ok (Some row), w).
Proof.
  intros [_ Hj] Hr Hrow. unfold get_blacklisted_token_jti, mbind, IO_bind.
  cbn [get_world].
  rewrite (filter_unique_omap BlacklistedToken.token_jti _ row j); done.
Qed.


(** [websocket_endpoint], case by case. *)
Lemma websocket_endpoint_run websocket chatroom_id authorization w :
  websocket_endpoint E websocket chatroom_id authorization w
  = match truthy authorization with
    | None => (Ok (Closed WS_1008_POLICY_VIOLATION), w)
    | Some header =>
        if String.prefix "Bearer " header then
          match split " " header !! 1%nat with
          | None => (Raise IndexError, w)
          | Some token =>
              match jwt_payload E token with
              | None => (Ok (Closed WS_1008_POLICY_VIOLATION), w)
              | Some p =>
                  if match Claims.exp p with
                     | Some e =>
                         bool_decide (e * 1000000 ≤ clock E (clock_reads w))
                     | None => false
                     end
                  then (Ok (Closed WS_1008_POLICY_VIOLATION), tick w)
                  else
                    match Claims.user p with
                    | None => (Ok (Closed WS_1008_POLICY_VIOLATION), tick w)
                    | Some current_user =>
                        (Ok (Registered current_user),
                         set_manager
                           (ConnectionManager.connect (manager w) chatroom_id
                              websocket) (tick w))
                    end
              end
          end
        else (Ok (Closed WS_1008_POLICY_VIOLATION), w)
    end.
Proof.
  unfold websocket_endpoint.
  destruct (truthy authorization) as [header|]; [|done].
  destruct (String.prefix "Bearer " header); [|done]. cbn [negb].
  destruct (split " " header !! 1%nat) as [token|]; [|done].
  unfold try_except, jwt_decode, mbind, IO_bind, mret, IO_ret, raise,
    modify_world.
  destruct (jwt_payload E token) as [p|]; [|done].
  cbn [datetime_now].
  destruct (Claims.exp p) as [e|] eqn:He.
  - destruct (decide _) as [Hle|Hgt].
    + by rewrite bool_decide_eq_true_2.
    + rewrite bool_decide_eq_false_2 by done.
      by destruct (Claims.user p).
  - by destruct (Claims.user p).
Qed.

Lemma split_nonempty sep s : split sep s ≠ [].
Proof.
  destruct s as [|a s]; simpl; [done|].
  destruct (decide (a = sep)); [done|]. by destruct (split sep s).
Qed.

(** After the [startswith("Bearer ")] test, [token.split(" ")[1]] is in
    range. *)
Lemma bearer_split header :
  String.prefix "Bearer " header = true →
  ∃ token, split " " header !! 1%nat = Some token.
Proof.
  intros H.
  do 7 (destruct header as [|[[] [] [] [] [] [] [] []] header];
        try discriminate H).
  cbn. destruct (split " " header) as [|token pieces] eqn:Hs.
  - by apply split_nonempty in Hs.
  - by exists token.
Qed.

Lemma websocket_endpoint_accepts websocket chatroom_id header token p u w :
  String.prefix "Bearer " header = true →
  split " " header !! 1%nat = Some token →
  jwt_payload E token = Some p →
  (∀ e, Claims.exp p = Some e → clock E (clock_reads w) < e * 1000000) →
  Claims.user p = Some u →
  websocket_endpoint E websocket chatroom_id (Some header) w
  = (Ok (Registered u),
     set_manager (ConnectionManager.connect (manager w) chatroom_id websocket)
       (tick w)).
Proof.
  intros Hpre Hsplit Hp Hexp Hu. rewrite websocket_endpoint_run.
  unfold truthy. destruct (decide (header = EmptyString)) as [->|_]; [done|].
  rewrite Hpre, Hsplit, Hp, Hu.
  destruct (Claims.exp p) as [e|]; [|done].
  specialize (Hexp e eq_refl). by rewrite bool_decide_eq_false_2 by lia.
Qed.

(** The successful path of [logout]. *)
Lemma logout_run token p j e session_id r w :
  jwt_payload E token = Some p →
  Claims.jti p = Some j →
  Claims.exp p = Some e →
  clock E (clock_reads w) < e * 1000000 →
  clock E (S (clock_reads w)) < e * 1000000 →
  Claims.session_id p = Some session_id → session_id ≠ EmptyString →
  existsb
    (blacklist_conflict
       {| BlacklistedToken.token := token;
          BlacklistedToken.token_jti := Some j;
          BlacklistedToken.expires_at := fromtimestamp e |})
    (blacklistedtokens w) = false →
  refresh_unique (refreshtokens w) →
  r ∈ refreshtokens w →
  RefreshToken.session_id r = session_id →
  logout E token w
  = (Ok "Logged out successfully",
     set_refreshtokens
       ((λ x, if decide (RefreshToken.session_id x = session_id)
              then revoke x else x) <$> refreshtokens w)
       (set_blacklistedtokens
          (blacklistedtokens w
           ++ [ {| BlacklistedToken.token := token;
                   BlacklistedToken.token_jti := Some j;
                   BlacklistedToken.expires_at := fromtimestamp e |} ])
          (tick (tick w)))).
Proof.
  intros Hp Hj He Hc1 Hc2 Hs Hs0 Hfree Huniq Hr <-.
  unfold logout. unfold mbind at 1. unfold IO_bind at 1.
  unfold get_blacklisted_token, mbind at 1. unfold IO_bind at 1.
  cbn [get_world]. rewrite filter_none.
  2:{ intros x Hx Htok. apply (existsb_false_inv _ _ x) in Hfree; [|done].
      unfold blacklist_conflict in Hfree. cbn in Hfree.
      apply orb_false_iff in Hfree as [Hfree _].
      by apply bool_decide_eq_false in Hfree. }
  cbn [scalar_one_or_none mret IO_ret].
  unfold try_except, mbind, IO_bind.
  rewrite (verify_access_token_ok token p j w Hp Hj)
    by (intros e' He'; congruence).
  rewrite Hs. unfold truthy. rewrite decide_False by done.
  rewrite create_token_blacklist_run, Hp, He.
  cbn [clock_reads tick]. rewrite decide_False by lia.
  rewrite add_blacklistedtoken_run. cbn [blacklistedtokens tick].
  rewrite Hj, Hfree.
  rewrite revoke_refresh_token_run by done. reflexivity.
Qed.


Lemma scalar_one_or_none_world {A : Type} (rows : list A) w r w' :
  scalar_one_or_none rows w = (r, w') → w' = w.
Proof. destruct rows as [|? [|? ?]]; by intros [= _ <-]. Qed.

(** The account lookup only reads. *)
Lemma user_service_user_world username email w r w' :
  user_service_user username email w = (r, w') → w' = w.
Proof.
  unfold user_service_user, get_user_email, get_username, mbind, IO_bind.
  cbn [get_world].
  destruct (scalar_one_or_none (filter _ (users w)) w) as [[[u|]|e] w1] eqn:H1;
    apply scalar_one_or_none_world in H1 as ->.
  - by intros [= _ <-].
  - destruct (scalar_one_or_none _ w) as [[o|e] w2] eqn:H2;
      apply scalar_one_or_none_world in H2 as ->; by intros [= _ <-].
  - by intros [= _ <-].
Qed.

(** Every [login] that returns ran the successful path of [login_run]. *)
Lemma login_ok_inv data w access_token refresh_token w' :
  jwt_sound E →
  uuid4_nonempty E →
  login E data w = (Ok (access_token, refresh_token), w') →
  ∃ u,
    user_service_user (LoginData.username data) (LoginData.username data) w
      = (Ok (Some u), w)
    ∧ verify_password E (LoginData.password data) (User.hashed_password u)
      = true
    ∧ (∀ r, r ∈ refreshtokens w →
            RefreshToken.jti r ≠ uuid4 E (S (uuid_calls w))
            ∧ RefreshToken.session_id r ≠ uuid4 E (uuid_calls w))
    ∧ clock E (S (S (clock_reads w)))
      < Z.quot (clock E (S (clock_reads w)) + timedelta_days REFRESH_EXPIRY)
          1000000 * 1000000.
Proof.
  intros Hsound Hne. unfold login. unfold mbind at 1. unfold IO_bind at 1.
  destruct (user_service_user _ _ w) as [[[u|]|e] w0] eqn:Hu;
    [|discriminate..].
  pose proof (user_service_user_world _ _ _ _ _ Hu) as ->.
  destruct (verify_password E _ _) eqn:Hpw; [|discriminate].
  unfold mbind, IO_bind, str_uuid4.
  rewrite !create_access_token_run. cbn [uuid_calls draw clock_reads tick].
  rewrite !truthy_uuid4 by done. cbn [default].
  unfold jwt_decode. rewrite Hsound. unfold mbind, IO_bind.
  cbn [datetime_now Claims.exp clock_reads tick draw].
  destruct (decide _) as [|Hclock]; [discriminate|].
  cbn [mret IO_ret Claims.exp]. unfold save_refresh_token, mbind, IO_bind.
  cbn [get_world refreshtokens tick draw].
  destruct (existsb _ _) eqn:Hfree; [discriminate|]. intros _.
  exists u. split; [done|]. split; [done|].
  split; [|unfold id in Hclock; lia].
  intros r Hr. apply (existsb_false_inv _ _ r) in Hfree; [|done].
  unfold refresh_conflict in Hfree.
  cbn [RefreshToken.jti RefreshToken.session_id] in Hfree.
  apply orb_false_iff in Hfree as [H1 H2].
  apply bool_decide_eq_false in H1, H2. done.
Qed.

Lemma get_new_token_revoked td e r rows w1 :
  Claims.exp td = Some e →
  NoDup (RefreshToken.jti <$> rows) →
  r ∈ rows →
  Some (RefreshToken.jti r) = Claims.jti td →
  refreshtokens w1
  = (λ x, if decide (RefreshToken.session_id x = RefreshToken.session_id r)
          then revoke x else x) <$> rows →
  get_new_token E td w1
  = (Raise (HTTPException 403 "Invalid of expired token"), tick w1).
Proof.
  intros He Hnd Hr Hj Hrows. apply (get_new_token_forbidden td e); [done|].
  rewrite Hrows. intros r' (r0 & -> & Hr0)%list_elem_of_fmap Hj'. left.
  assert (r0 = r) as ->.
  { assert (RefreshToken.jti r0 = RefreshToken.jti r) as Heq.
    { destruct (decide _) in Hj'; simpl in Hj'; congruence. }
    clear Hj' Hrows. induction rows as [|x l IH]; [by inversion Hr|].
    rewrite fmap_cons in Hnd. apply NoDup_cons in Hnd as [Hx Hnd].
    apply elem_of_cons in Hr as [->|Hr], Hr0 as [->|Hr0];
      [done| | |by apply IH].
    - exfalso. apply Hx. rewrite <- Heq. apply list_elem_of_fmap. eauto.
    - exfalso. apply Hx. rewrite Heq. apply list_elem_of_fmap. eauto. }
  by rewrite decide_True.
Qed.

End TokenLemmas.


(** ** Token service: expiry and round trip *)

(** C1, as the code has it: a token issued with [refresh=False] and no
    explicit expiry carries [exp] = issuance time plus 120 minutes (7200
    seconds, [timedelta(minutes=ACCESS_TOKEN_EXPIRY)]), in whole seconds; the
    refresh token of every login that returns carries [exp] = its issuance
    time plus 3 days. *)
Theorem C1_token_expiry (E : env) :
  jwt_sound E →
  (∀ user_data session_id jti w,
     (0 ≤ clock E (clock_reads w))%Z →
     ∃ token w' p,
       create_access_token E user_data None false session_id jti w
         = (Ok token, w')
       ∧ jwt_payload E token = Some p
       ∧ Claims.exp p
         = Some (Z.quot (clock E (clock_reads w)) 1000000 + 120 * 60)%Z)
  ∧ (∀ data w access_token refresh_token w',
       uuid4_nonempty E →
       login E data w = (Ok (access_token, refresh_token), w') →
       (0 ≤ clock E (S (clock_reads w)))%Z →
       ∃ p,
         jwt_payload E refresh_token = Some p
         ∧ Claims.refresh p = true
         ∧ Claims.exp p
           = Some (Z.quot (clock E (S (clock_reads w))) 1000000 + 3 * 86400)%Z).
Proof.
  intros Hsound. split.
  - intros user_data session_id jti w H0.
    rewrite create_access_token_run. eexists _, _, _.
    split; [reflexivity|]. split; [apply Hsound|].
    cbn [Claims.exp default]. f_equal.
    unfold timedelta_minutes, ACCESS_TOKEN_EXPIRY.
    rewrite <- (quot_whole_seconds _ (120 * 60)) by lia. f_equal; lia.
  - intros data w access_token refresh_token w' Hne Hlogin H0.
    destruct (login_ok_inv E data w _ _ _ Hsound Hne Hlogin)
      as (u & Huser & Hpw & Hfresh & Hclock).
    rewrite (login_run E data u w Hsound Hne Huser Hpw Hfresh Hclock)
      in Hlogin.
    injection Hlogin as _ <- _. eexists. split; [apply Hsound|].
    split; [reflexivity|]. cbn [Claims.exp login_claims]. f_equal.
    unfold timedelta_days, REFRESH_EXPIRY.
    rewrite <- (quot_whole_seconds _ (3 * 86400)) by lia. f_equal; lia.
Qed.

Lemma C1_witness :
  let data :=
    {| LoginData.username := "alice"; LoginData.password := "secret" |} in
  jwt_sound Sample.E
  ∧ (∃ token w' p,
       create_access_token Sample.E (Some Sample.alice_data) None false None
         None Sample.w0 = (Ok token, w')
       ∧ jwt_payload Sample.E token = Some p
       ∧ Claims.exp p = Some (1700000000 + 120 * 60)%Z)
  ∧ (∃ access_token refresh_token w' p,
       login Sample.E data Sample.w0 = (Ok (access_token, refresh_token), w')
       ∧ jwt_payload Sample.E refresh_token = Some p
       ∧ Claims.refresh p = true
       ∧ Claims.exp p = Some (1700000000 + 3 * 86400)%Z).
Proof.
  intros data. split; [exact sample_sound|]. split.
  - apply (proj1 (C1_token_expiry Sample.E sample_sound)
             (Some Sample.alice_data) None None Sample.w0).
    vm_compute. discriminate.
  - assert (∃ access_token refresh_token w',
              login Sample.E data Sample.w0
              = (Ok (access_token, refresh_token), w'))
      as (access_token & refresh_token & w' & Hlogin).
    { rewrite (login_run Sample.E data Sample.alice Sample.w0);
        [by eexists _, _, _ | exact sample_sound | exact sample_uuid4_nonempty
        | vm_compute; reflexivity | vm_compute; reflexivity
        | intros r Hr; by apply not_elem_of_nil in Hr
        | vm_compute; reflexivity]. }
    exists access_token, refresh_token, w'.
    destruct (proj2 (C1_token_expiry Sample.E sample_sound) data Sample.w0
                access_token refresh_token w' sample_uuid4_nonempty Hlogin)
      as (p & Hp); [vm_compute; discriminate|].
    exists p. split; [exact Hlogin|exact Hp].
Defined.

(** C1 as stated fails: issued at 1700000000 s with the default expiry, the
    token expires at 1700007200 s, 7200 s later and not 120 s later. *)
Lemma C1_counterexample :
  ∃ token w' p,
    create_access_token Sample.E (Some Sample.alice_data) None false None None
      Sample.w0 = (Ok token, w')
    ∧ jwt_payload Sample.E token = Some p
    ∧ clock Sample.E (clock_reads Sample.w0) = (1700000000 * 1000000)%Z
    ∧ Claims.exp p = Some 1700007200%Z
    ∧ Claims.exp p ≠ Some (1700000000 + 120)%Z.
Proof.
  rewrite create_access_token_run. eexists _, _, _.
  split; [reflexivity|]. split; [apply sample_sound|].
  split; [reflexivity|]. split; [reflexivity|]. discriminate.
Qed.

(** C2: for every subject and every expiry, the token [create_access_token]
    returns lies within one second of issuance time plus expiry, and
    [verify_access_token], at any reading of the clock before that [exp],
    returns claims whose [user] is the subject issued and whose [exp] is
    that value. *)
Theorem C2_issue_verify_roundtrip (E : env) user_data expiry refresh
    session_id jti w :
  jwt_sound E →
  let issued := clock E (clock_reads w) in
  let ttl := default (timedelta_minutes ACCESS_TOKEN_EXPIRY) expiry in
  let exp := Z.quot (issued + ttl) 1000000 in
  ∃ token w1,
    create_access_token E user_data expiry refresh session_id jti w
      = (Ok token, w1)
    ∧ (Z.abs (exp * 1000000 - (issued + ttl)) < 1000000)%Z
    ∧ ∀ w2, (clock E (clock_reads w2) < exp * 1000000)%Z →
        ∃ p w3,
          verify_access_token E token w2 = (Ok p, w3)
          ∧ Claims.user p = user_data
          ∧ Claims.exp p = Some exp.
Proof.
  intros Hsound issued ttl exp. rewrite create_access_token_run.
  eexists _, _. split; [reflexivity|]. split.
  - unfold exp.
    pose proof (Z.quot_rem' (issued + ttl) 1000000) as Hqr.
    pose proof (Z.rem_bound_abs (issued + ttl) 1000000 ltac:(lia)) as Hr.
    lia.
  - intros w2 Hclock. eexists _, _. split.
    + eapply verify_access_token_ok; [apply Hsound|reflexivity|].
      intros e [= <-]. exact Hclock.
    + done.
Qed.

Lemma C2_witness :
  jwt_sound Sample.E
  ∧ ∃ token w1,
      create_access_token Sample.E (Some Sample.alice_data) (Some 30500000%Z)
        false None None Sample.w0 = (Ok token, w1)
      ∧ ∃ p w3,
          verify_access_token Sample.E token w1 = (Ok p, w3)
          ∧ Claims.user p = Some Sample.alice_data
          ∧ Claims.exp p = Some 1700000030%Z.
Proof.
  split; [exact sample_sound|].
  destruct (C2_issue_verify_roundtrip Sample.E (Some Sample.alice_data)
              (Some 30500000%Z) false None None Sample.w0 sample_sound)
    as (token & w1 & Hrun & _ & Hverify).
  exists token, w1. split; [exact Hrun|].
  apply Hverify.
  rewrite create_access_token_run in Hrun. injection Hrun as _ <-.
  vm_compute. reflexivity.
Defined.

(** ** Refresh exchange *)

(** C4: whatever the claims of the refresh token say, [get_new_token] fails
    with 403 when no Refresh Record with the token's [jti] is both
    unrevoked and unexpired (none at all, a revoked one, an expired one); in
    particular it fails after [revoke_refresh_token] ran for the session of
    the record that carries the token's [jti], and after a [logout] with an
    access token of that session. *)
Theorem C4_refresh_invalid (E : env) td e w :
  Claims.exp td = Some e →
  ((∀ r, r ∈ refreshtokens w → Some (RefreshToken.jti r) = Claims.jti td →
         RefreshToken.revoked r = true
         ∨ (RefreshToken.expires_at r ≤ clock E (clock_reads w))%Z) →
   get_new_token E td w
   = (Raise (HTTPException 403 "Invalid of expired token"), tick w))
  ∧ (∀ r, refresh_unique (refreshtokens w) →
          r ∈ refreshtokens w →
          Some (RefreshToken.jti r) = Claims.jti td →
          ∃ w1,
            revoke_refresh_token (RefreshToken.session_id r) w = (Ok tt, w1)
            ∧ get_new_token E td w1
              = (Raise (HTTPException 403 "Invalid of expired token"),
                 tick w1))
  ∧ (∀ r token p j e',
       refresh_unique (refreshtokens w) →
       r ∈ refreshtokens w →
       Some (RefreshToken.jti r) = Claims.jti td →
       jwt_payload E token = Some p →
       Claims.jti p = Some j →
       Claims.exp p = Some e' →
       (clock E (clock_reads w) < e' * 1000000)%Z →
       (clock E (S (clock_reads w)) < e' * 1000000)%Z →
       Claims.session_id p = Some (RefreshToken.session_id r) →
       RefreshToken.session_id r ≠ EmptyString →
       existsb
         (blacklist_conflict
            {| BlacklistedToken.token := token;
               BlacklistedToken.token_jti := Some j;
               BlacklistedToken.expires_at := fromtimestamp e' |})
         (blacklistedtokens w) = false →
       ∃ w1,
         logout E token w = (Ok "Logged out successfully", w1)
         ∧ get_new_token E td w1
           = (Raise (HTTPException 403 "Invalid of expired token"),
              tick w1)).
Proof.
  intros He. split; [by apply (get_new_token_forbidden E td e)|]. split.
  - intros r Huniq Hr Hj. rewrite revoke_refresh_token_run by done.
    eexists. split; [reflexivity|].
    by apply (get_new_token_revoked E td e r (refreshtokens w));
      [|apply Huniq|..].
  - intros r token p j e' Huniq Hr Hj Hp Hpj Hpe Hc1 Hc2 Hs Hs0 Hfree.
    rewrite (logout_run E token p j e' (RefreshToken.session_id r) r w)
      by done.
    eexists. split; [reflexivity|].
    by apply (get_new_token_revoked E td e r (refreshtokens w));
      [|apply Huniq|..].
Qed.

Lemma C4_witness :
  let row :=
    {| RefreshToken.jti := uuid4 Sample.E 1; RefreshToken.user_id := 1;
       RefreshToken.session_id := uuid4 Sample.E 0;
       RefreshToken.expires_at := 1700259200000000;
       RefreshToken.revoked := false |} in
  let w1 :=
    {| uuid_calls := 2; clock_reads := 3; users := [Sample.alice];
       blacklistedtokens := []; refreshtokens := [row]; manager := ∅ |} in
  let access_claims :=
    login_claims Sample.alice false 1700007200 (uuid4 Sample.E 0)
      (uuid4 Sample.E 1) in
  let td :=
    login_claims Sample.alice true 1700259200 (uuid4 Sample.E 0)
      (uuid4 Sample.E 1) in
  get_new_token Sample.E td Sample.w0
    = (Raise (HTTPException 403 "Invalid of expired token"), tick Sample.w0)
  ∧ (∃ w2,
       revoke_refresh_token (uuid4 Sample.E 0) w1 = (Ok tt, w2)
       ∧ get_new_token Sample.E td w2
         = (Raise (HTTPException 403 "Invalid of expired token"), tick w2))
  ∧ (∃ w2,
       logout Sample.E (jwt_encode Sample.E access_claims) w1
         = (Ok "Logged out successfully", w2)
       ∧ get_new_token Sample.E td w2
         = (Raise (HTTPException 403 "Invalid of expired token"), tick w2)).
Proof.
  intros row w1 access_claims td.
  assert (refresh_unique (refreshtokens w1)) as Huniq
    by (split; apply NoDup_singleton).
  assert (row ∈ refreshtokens w1) as Hrow by apply list_elem_of_here.
  split; [|split].
  - apply (proj1 (C4_refresh_invalid Sample.E td 1700259200 Sample.w0
                    eq_refl)).
    intros r' Hr'. by apply not_elem_of_nil in Hr'.
  - exact (proj1 (proj2 (C4_refresh_invalid Sample.E td 1700259200 w1
                           eq_refl)) row Huniq Hrow eq_refl).
  - apply (proj2 (proj2 (C4_refresh_invalid Sample.E td 1700259200 w1
                           eq_refl)) row
             (jwt_encode Sample.E access_claims) access_claims
             (uuid4 Sample.E 1) 1700007200%Z Huniq Hrow eq_refl).
    + apply sample_sound.
    + reflexivity.
    + reflexivity.
    + vm_compute. reflexivity.
    + vm_compute. reflexivity.
    + reflexivity.
    + discriminate.
    + reflexivity.
Defined.

(** C5: the two tokens of every login that returns carry the same
    [session_id] and the same [jti]; the access token of a successful refresh
    exchange carries the [session_id] of the refresh token presented and, as
    [jti], the UUID drawn at the exchange, which differs from the refresh
    token's. *)
Theorem C5_session_and_jti (E : env) :
  jwt_sound E → uuid4_nonempty E → uuid4_fresh E →
  (∀ data w access_token refresh_token w',
     login E data w = (Ok (access_token, refresh_token), w') →
     ∃ pa pr,
       jwt_payload E access_token = Some pa
       ∧ jwt_payload E refresh_token = Some pr
       ∧ Claims.refresh pa = false ∧ Claims.refresh pr = true
       ∧ Claims.session_id pa = Claims.session_id pr
       ∧ Claims.jti pa = Claims.jti pr
       ∧ Claims.session_id pa = Some (uuid4 E (uuid_calls w))
       ∧ Claims.jti pa = Some (uuid4 E (S (uuid_calls w))))
  ∧ (∀ td e s i r w,
       Claims.exp td = Some e →
       Claims.session_id td = Some s → s ≠ EmptyString →
       Claims.jti td = Some (uuid4 E i) → (i < uuid_calls w)%nat →
       refresh_unique (refreshtokens w) →
       r ∈ refreshtokens w →
       refresh_valid (Claims.jti td) (clock E (clock_reads w)) r →
       (clock E (S (clock_reads w)) < e * 1000000)%Z →
       ∃ access_token w' p,
         get_new_token E td w = (Ok access_token, w')
         ∧ jwt_payload E access_token = Some p
         ∧ Claims.refresh p = false
         ∧ Claims.user p = Claims.user td
         ∧ Claims.session_id p = Claims.session_id td
         ∧ Claims.jti p = Some (uuid4 E (uuid_calls w))
         ∧ Claims.jti p ≠ Claims.jti td).
Proof.
  intros Hsound Hne Hfresh. split.
  - intros data w access_token refresh_token w' Hlogin.
    destruct (login_ok_inv E data w _ _ _ Hsound Hne Hlogin)
      as (u & Huser & Hpw & Hnew & Hclock).
    rewrite (login_run E data u w Hsound Hne Huser Hpw Hnew Hclock)
      in Hlogin.
    injection Hlogin as <- <- _. eexists _, _.
    split; [apply Hsound|]. split; [apply Hsound|]. done.
  - intros td e s i r w He Hs Hs0 Hj Hi Huniq Hr Hvalid Hclock.
    rewrite (get_new_token_run E td e r w) by done.
    rewrite create_access_token_run. eexists _, _, _.
    split; [reflexivity|]. split; [apply Hsound|].
    cbn [Claims.refresh Claims.user Claims.session_id Claims.jti truthy
         default uuid_calls tick].
    rewrite Hs. cbn [truthy]. rewrite decide_False by done. cbn [default].
    repeat split. rewrite Hj. intros [= Heq].
    apply Hfresh in Heq. lia.
Qed.

Lemma C5_witness :
  let data :=
    {| LoginData.username := "alice"; LoginData.password := "secret" |} in
  let row :=
    {| RefreshToken.jti := uuid4 Sample.E 1; RefreshToken.user_id := 1;
       RefreshToken.session_id := uuid4 Sample.E 0;
       RefreshToken.expires_at := 1700259200000000;
       RefreshToken.revoked := false |} in
  let w1 :=
    {| uuid_calls := 2; clock_reads := 3; users := [Sample.alice];
       blacklistedtokens := []; refreshtokens := [row]; manager := ∅ |} in
  let td :=
    login_claims Sample.alice true 1700259200 (uuid4 Sample.E 0)
      (uuid4 Sample.E 1) in
  (∃ access_token refresh_token pa pr,
     login Sample.E data Sample.w0 = (Ok (access_token, refresh_token), w1)
     ∧ jwt_payload Sample.E access_token = Some pa
     ∧ jwt_payload Sample.E refresh_token = Some pr
     ∧ pr = td
     ∧ Claims.refresh pa = false ∧ Claims.refresh pr = true
     ∧ Claims.session_id pa = Claims.session_id pr
     ∧ Claims.jti pa = Claims.jti pr)
  ∧ (∃ access_token w' p,
       get_new_token Sample.E td w1 = (Ok access_token, w')
       ∧ jwt_payload Sample.E access_token = Some p
       ∧ Claims.refresh p = false
       ∧ Claims.user p = Claims.user td
       ∧ Claims.session_id p = Claims.session_id td
       ∧ Claims.jti p = Some (uuid4 Sample.E 2)
       ∧ Claims.jti p ≠ Claims.jti td).
Proof.
  intros data row w1 td.
  pose proof (C5_session_and_jti Sample.E sample_sound sample_uuid4_nonempty
                sample_uuid4_fresh) as [Hlogin Hexchange].
  split.
  - assert (login Sample.E data Sample.w0
            = (Ok (jwt_encode Sample.E
                     (login_claims Sample.alice false 1700007200
                        (uuid4 Sample.E 0) (uuid4 Sample.E 1)),
                   jwt_encode Sample.E td), w1)) as Hrun.
    { rewrite (login_run Sample.E data Sample.alice Sample.w0);
        [reflexivity | exact sample_sound | exact sample_uuid4_nonempty
        | vm_compute; reflexivity | vm_compute; reflexivity
        | intros r Hr; by apply not_elem_of_nil in Hr
        | vm_compute; reflexivity]. }
    destruct (Hlogin data Sample.w0 _ _ w1 Hrun)
      as (pa & pr & Hpa & Hpr & Hfa & Hfr & Hs & Hj & _).
    eexists _, _, pa, pr. split; [exact Hrun|].
    split; [exact Hpa|]. split; [exact Hpr|].
    split; [|exact (conj Hfa (conj Hfr (conj Hs Hj)))].
    rewrite sample_sound in Hpr. by injection Hpr.
  - apply (Hexchange td 1700259200%Z (uuid4 Sample.E 0) 1%nat row w1).
    + reflexivity.
    + reflexivity.
    + discriminate.
    + reflexivity.
    + simpl. lia.
    + split; apply NoDup_singleton.
    + apply list_elem_of_here.
    + split; [reflexivity|]. split; [reflexivity|]. vm_compute. reflexivity.
    + vm_compute. reflexivity.
Defined.

(** ** Blacklist *)

Lemma sample_login :
  login Sample.E
    {| LoginData.username := "alice"; LoginData.password := "secret" |}
    Sample.w0
  = (Ok (jwt_encode Sample.E
           (login_claims Sample.alice false 1700007200 (uuid4 Sample.E 0)
              (uuid4 Sample.E 1)),
         jwt_encode Sample.E
           (login_claims Sample.alice true 1700259200 (uuid4 Sample.E 0)
              (uuid4 Sample.E 1))),
     {| uuid_calls := 2; clock_reads := 3; users := [Sample.alice];
        blacklistedtokens := [];
        refreshtokens :=
          [ {| RefreshToken.jti := uuid4 Sample.E 1;
               RefreshToken.user_id := 1;
               RefreshToken.session_id := uuid4 Sample.E 0;
               RefreshToken.expires_at := 1700259200000000;
               RefreshToken.revoked := false |} ];
        manager := ∅ |}).
Proof.
  rewrite (login_run Sample.E _ Sample.alice Sample.w0);
    [reflexivity | exact sample_sound | exact sample_uuid4_nonempty
    | vm_compute; reflexivity | vm_compute; reflexivity
    | intros r Hr; by apply not_elem_of_nil in Hr
    | vm_compute; reflexivity].
Qed.




(** ** Streaming handshake *)

(** C7: when the [Authorization] header is missing or empty, or does not
    start with [Bearer ], or the token after it fails the structure and
    signature check, or carries an [exp] that is not in the future, or
    verifies but carries no subject, [websocket_endpoint] closes the
    connection with code 1008 and returns with the registry as it found it. *)
Theorem C7_failed_handshake (E : env) websocket chatroom_id authorization w :
  authorization = None ∨ authorization = Some EmptyString
  ∨ (∃ header, authorization = Some header
               ∧ String.prefix "Bearer " header = false)
  ∨ (∃ header token,
       authorization = Some header
       ∧ String.prefix "Bearer " header = true
       ∧ split " " header !! 1%nat = Some token
       ∧ (jwt_payload E token = None
          ∨ (∃ p e, jwt_payload E token = Some p
                    ∧ Claims.exp p = Some e
                    ∧ (e * 1000000 ≤ clock E (clock_reads w))%Z)
          ∨ (∃ p, jwt_payload E token = Some p ∧ Claims.user p = None))) →
  ∃ w',
    websocket_endpoint E websocket chatroom_id authorization w
      = (Ok (Closed WS_1008_POLICY_VIOLATION), w')
    ∧ manager w' = manager w
    ∧ WS_1008_POLICY_VIOLATION = 1008%Z.
Proof.
  intros Hfail. rewrite websocket_endpoint_run.
  destruct Hfail as [->|[->|[(header & -> & Hpre)|Htoken]]].
  - by exists w.
  - by exists w.
  - unfold truthy. destruct (decide (header = EmptyString)); [by exists w|].
    rewrite Hpre. by exists w.
  - destruct Htoken as (header & token & -> & Hpre & Hsplit & Hbad).
    unfold truthy. destruct (decide (header = EmptyString)) as [->|_]; [done|].
    rewrite Hpre, Hsplit.
    destruct Hbad as [->|[(p & e & -> & -> & Hle)|(p & -> & ->)]].
    + by exists w.
    + rewrite bool_decide_eq_true_2 by done. by exists (tick w).
    + destruct (match Claims.exp p with Some _ => _ | None => _ end);
        by exists (tick w).
Qed.

Lemma C7_witness :
  let p := login_claims Sample.alice false 1699999999 "s1" "j1" in
  let token := jwt_encode Sample.E p in
  let header := String.append "Bearer " token in
  clock Sample.E (clock_reads Sample.w0) = (1700000000 * 1000000)%Z
  ∧ ∃ w',
      websocket_endpoint Sample.E 5%nat 7 (Some header) Sample.w0
        = (Ok (Closed WS_1008_POLICY_VIOLATION), w')
      ∧ manager w' = manager Sample.w0
      ∧ WS_1008_POLICY_VIOLATION = 1008%Z.
Proof.
  intros p token header. split; [reflexivity|].
  apply (C7_failed_handshake Sample.E 5%nat 7%Z (Some header) Sample.w0).
  right. right. right. exists header, token.
  split; [reflexivity|]. split; [reflexivity|].
  split; [vm_compute; reflexivity|].
  right. left. exists p, 1699999999%Z.
  split; [apply sample_sound|]. split; [reflexivity|].
  vm_compute. discriminate.
Defined.

(* ===================================================================== *)
(** * Part 3: further properties of the code                              *)
(* ===================================================================== *)

(** ** Connection registry *)

Section RegistryMore.
Import ConnectionManager.
Implicit Types (ac : active_connections) (r : Z) (c d : WebSocket)
  (l : list WebSocket).

Lemma send_all_prefix {M : Type} (send_ok : WebSocket → bool) l1 d l2
    (m : M) :
  (∀ x, x ∈ l1 → send_ok x = true) →
  send_ok d = false →
  send_all send_ok (l1 ++ d :: l2) m
  = ((λ x, (x, m)) <$> l1, Some (SendFailure d)).
Proof.
  intros Hok Hd. induction l1 as [|x l1 IH]; simpl.
  - by rewrite Hd.
  - rewrite Hok by apply list_elem_of_here.
    rewrite IH; [done|]. intros y Hy. apply Hok. by apply list_elem_of_further.
Qed.

(** X1: a broadcast serves the room's channels in registration order and
    stops at the first channel whose send raises: the channels registered
    before it have received the message, that channel and every channel
    registered after it have not, and the exception leaves [broadcast]. *)
Theorem X1_broadcast_stops_at_first_failure {M : Type}
    (send_ok : WebSocket → bool) ac r l1 d l2 (m : M) :
  ac !! r = Some (l1 ++ d :: l2) →
  (∀ x, x ∈ l1 → send_ok x = true) →
  send_ok d = false →
  broadcast send_ok ac r m
  = ((λ x, (x, m)) <$> l1, Some (SendFailure d))
  ∧ (∀ c, c ∉ l1 → received c (broadcast send_ok ac r m).1 = []).
Proof.
  intros Hr Hok Hd. unfold broadcast. rewrite Hr.
  rewrite send_all_prefix by done. split; [done|].
  intros c Hc. simpl. apply received_nil. intros m' Hin.
  apply list_elem_of_fmap in Hin as (x & Heq & Hx).
  injection Heq as Hcx _. by subst x.
Qed.

Lemma X1_witness :
  let ac := connect (connect (connect init 7 1) 7 2) 7 3 in
  let send_ok := λ c : WebSocket, bool_decide (c ≠ 2%nat) in
  broadcast send_ok ac 7 "hi" = ([(1%nat, "hi")], Some (SendFailure 2))
  ∧ received 3 (broadcast send_ok ac 7 "hi").1 = [].
Proof.
  intros ac send_ok.
  destruct (X1_broadcast_stops_at_first_failure send_ok ac 7 [1%nat] 2%nat
              [3%nat] "hi") as [H1 H2].
  - vm_compute. reflexivity.
  - intros x ->%list_elem_of_singleton. reflexivity.
  - reflexivity.
  - split; [exact H1|]. apply H2.
    intros H%list_elem_of_singleton. discriminate.
Defined.

Lemma list_remove_app_fresh c l :
  c ∉ l → list_remove c (l ++ [c]) = Some l.
Proof.
  induction l as [|y l IH]; intros Hc; simpl.
  - by rewrite decide_True.
  - rewrite decide_False by (intros ->; apply Hc, list_elem_of_here).
    rewrite IH; [done|]. intros H. apply Hc. by apply list_elem_of_further.
Qed.

(** X2: in a registry without empty rooms, connecting a channel that is not
    registered in the room and then disconnecting it gives the registry
    back as it was, and the disconnect returns normally. *)
Theorem X2_connect_disconnect_roundtrip ac r c :
  no_empty_room ac →
  registrations ac r c = 0%nat →
  disconnect (connect ac r c) r c = (ac, None).
Proof.
  intros Hinv Hfresh. unfold disconnect. rewrite connect_lookup.
  assert (c ∉ default [] (ac !! r)) as Hc by (by apply filter_length_0).
  rewrite list_remove_app_fresh by done.
  destruct (ac !! r) as [l|] eqn:E; simpl.
  - destruct l as [|x l]; [by apply Hinv in E|].
    f_equal. apply map_eq. intros i.
    destruct (decide (r = i)) as [<-|Hne].
    + by rewrite lookup_insert_eq.
    + by rewrite lookup_insert_ne, connect_lookup_ne.
  - f_equal. apply map_eq. intros i.
    destruct (decide (r = i)) as [<-|Hne].
    + by rewrite lookup_delete_eq.
    + by rewrite lookup_delete_ne, lookup_insert_ne, connect_lookup_ne.
Qed.

Lemma X2_witness :
  disconnect (connect (connect init 7 1) 7 2) 7 2 = (connect init 7 1, None)
  ∧ disconnect (connect (connect init 7 1) 8 2) 8 2
    = (connect init 7 1, None).
Proof.
  assert (no_empty_room (connect init 7 1)) as Hinv.
  { apply no_empty_room_connect. intros r l. unfold init.
    by rewrite lookup_empty. }
  split.
  - apply (X2_connect_disconnect_roundtrip (connect init 7 1) 7 2 Hinv).
    vm_compute. reflexivity.
  - apply (X2_connect_disconnect_roundtrip (connect init 7 1) 8 2 Hinv).
    vm_compute. reflexivity.
Defined.

Lemma disconnect_lookup_ne ac r r' c :
  r ≠ r' → (disconnect ac r c).1 !! r' = ac !! r'.
Proof.
  intros Hne. unfold disconnect. destruct (ac !! r) as [l|]; [|done].
  destruct (list_remove c l) as [[|x l']|]; simpl; [| |done].
  - by rewrite lookup_delete_ne, lookup_insert_ne.
  - by rewrite lookup_insert_ne.
Qed.

(** X3: rooms do not interfere: a connect or a disconnect in one room leaves
    the list of every other room, hence every broadcast to another room,
    as it was. *)
Theorem X3_room_isolation {M : Type} (send_ok : WebSocket → bool)
    ac r r' c (m : M) :
  r ≠ r' →
  connect ac r c !! r' = ac !! r'
  ∧ (disconnect ac r c).1 !! r' = ac !! r'
  ∧ broadcast send_ok (connect ac r c) r' m = broadcast send_ok ac r' m
  ∧ broadcast send_ok (disconnect ac r c).1 r' m = broadcast send_ok ac r' m.
Proof.
  intros Hne. unfold broadcast.
  rewrite connect_lookup_ne, disconnect_lookup_ne by done. done.
Qed.

Lemma X3_witness :
  let ac := connect (connect init 7 1) 8 2 in
  connect ac 7 1 !! 8%Z = ac !! 8%Z
  ∧ (disconnect ac 7 1).1 !! 8%Z = ac !! 8%Z
  ∧ broadcast (λ _, true) (connect ac 7 1) 8 "hi"
    = broadcast (λ _, true) ac 8 "hi"
  ∧ broadcast (λ _, true) (disconnect ac 7 1).1 8 "hi"
    = broadcast (λ _, true) ac 8 "hi".
Proof.
  intros ac.
  apply (X3_room_isolation (λ _, true) ac 7 8 1%nat "hi"). discriminate.
Defined.

Lemma list_remove_Some_other c d l l' :
  d ≠ c →
  list_remove c l = Some l' →
  length (filter (λ x, x = d) l) = length (filter (λ x, x = d) l').
Proof.
  intros Hne. revert l'. induction l as [|y l IH]; intros l'; simpl; [done|].
  destruct (decide (y = c)) as [->|Hy].
  - intros [= ->]. by rewrite filter_cons_False.
  - destruct (list_remove c l) as [l0|]; simpl; [|done].
    intros [= <-]. destruct (decide (y = d)) as [->|Hyd].
    + rewrite !filter_cons_True by done. simpl. f_equal. by apply IH.
    + rewrite !filter_cons_False by done. by apply IH.
Qed.

(** X4: a disconnect of a channel that is registered in the room returns
    normally, removes exactly one registration of that channel and leaves
    the registrations of every other channel of the room as they were. *)
Theorem X4_disconnect_removes_one ac r c :
  (0 < registrations ac r c)%nat →
  (disconnect ac r c).2 = None
  ∧ S (registrations (disconnect ac r c).1 r c) = registrations ac r c
  ∧ ∀ d, d ≠ c →
      registrations (disconnect ac r c).1 r d = registrations ac r d.
Proof.
  intros Hpos. split; [|split].
  - unfold disconnect, registrations in *.
    destruct (ac !! r) as [l|]; [|done].
    destruct (list_remove c l) as [[|x l']|] eqn:R; [done..|].
    apply list_remove_None in R. simpl in Hpos. lia.
  - rewrite registrations_disconnect. lia.
  - intros d Hd. unfold disconnect, registrations in *.
    destruct (ac !! r) as [l|] eqn:E; simpl; [|by rewrite E].
    destruct (list_remove c l) as [l'|] eqn:R; simpl.
    + rewrite (list_remove_Some_other c d l l') by done.
      destruct l'; simpl.
      * by rewrite lookup_delete_eq.
      * by rewrite lookup_insert_eq.
    + by rewrite E.
Qed.

Lemma X4_witness :
  let ac := connect (connect (connect init 7 1) 7 2) 7 1 in
  (disconnect ac 7 1).2 = None
  ∧ S (registrations (disconnect ac 7 1).1 7 1) = registrations ac 7 1
  ∧ ∀ d, d ≠ 1%nat →
      registrations (disconnect ac 7 1).1 7 d = registrations ac 7 d.
Proof.
  intros ac. apply (X4_disconnect_removes_one ac 7 1). vm_compute. lia.
Defined.

End RegistryMore.

(** ** Token service, revocation store and session endpoints *)

Section TokenMore.
Context (E : env).
Implicit Types (w : world) (token : string) (p td : Claims.t).
Local Open Scope Z_scope.

Lemma same_tables_refl w : same_tables w w.
Proof. by repeat split. Qed.

Lemma same_tables_trans w1 w2 w3 :
  same_tables w1 w2 → same_tables w2 w3 → same_tables w1 w3.
Proof.
  intros (A1 & A2 & A3 & A4) (B1 & B2 & B3 & B4).
  repeat split; congruence.
Qed.

Lemma same_tables_tick w : same_tables w (tick w).
Proof. by repeat split. Qed.

Lemma same_tables_draw w : same_tables w (draw w).
Proof. by repeat split. Qed.

Lemma same_tables_bind {A B : Type} (m : IO A) (f : A → IO B) w :
  same_tables w (m w).2 →
  (∀ a w1, same_tables w1 (f a w1).2) →
  same_tables w ((m ≫= f) w).2.
Proof.
  intros Hm Hf. unfold mbind, IO_bind.
  destruct (m w) as [[a|e] w1]; simpl in *; [|done].
  eapply same_tables_trans; [exact Hm|apply Hf].
Qed.

Lemma jwt_decode_frame token w : same_tables w (jwt_decode E token w).2.
Proof.
  unfold jwt_decode. destruct (jwt_payload E token) as [p|];
    [|apply same_tables_refl].
  unfold mbind, IO_bind. cbn [datetime_now].
  destruct (Claims.exp p) as [e|]; [destruct (decide _)|];
    apply same_tables_tick.
Qed.

Lemma verify_access_token_run token w :
  verify_access_token E token w
  = match jwt_payload E token with
    | None => (Raise (Exception_ "Invalid token"), w)
    | Some p =>
        if match Claims.exp p with
           | Some e => bool_decide (e * 1000000 ≤ clock E (clock_reads w))
           | None => false
           end
        then (Raise (Exception_ "Token has expired."), tick w)
        else match Claims.jti p with
             | None =>
                 (Raise (KeyError "Token does not contain 'jti' field!"),
                  tick w)
             | Some _ => (Ok p, tick w)
             end
    end.
Proof.
  unfold verify_access_token, try_except, jwt_decode, mbind, IO_bind, mret,
    IO_ret, raise.
  destruct (jwt_payload E token) as [p|]; [|done]. cbn [datetime_now].
  destruct (Claims.exp p) as [e|].
  - destruct (decide _).
    + by rewrite bool_decide_eq_true_2.
    + rewrite bool_decide_eq_false_2 by done. by destruct (Claims.jti p).
  - by destruct (Claims.jti p).
Qed.

(** X5: [verify_access_token] fails in three ways, in this order of
    precedence: a token that does not pass the structure and signature check
    raises [Exception("Invalid token..")]; one that passes it with an [exp]
    that is not in the future raises [Exception("Token has expired.")],
    whether or not it carries a [jti]; one that is current but carries no
    [jti] raises [KeyError].  In every outcome the tables and the registry
    are left as they were. *)
Theorem X5_verify_access_token_errors token w :
  same_tables w (verify_access_token E token w).2
  ∧ (jwt_payload E token = None →
     verify_access_token E token w = (Raise (Exception_ "Invalid token"), w))
  ∧ (∀ p e,
       jwt_payload E token = Some p → Claims.exp p = Some e →
       e * 1000000 ≤ clock E (clock_reads w) →
       verify_access_token E token w
       = (Raise (Exception_ "Token has expired."), tick w))
  ∧ (∀ p,
       jwt_payload E token = Some p →
       (∀ e, Claims.exp p = Some e → clock E (clock_reads w) < e * 1000000) →
       Claims.jti p = None →
       verify_access_token E token w
       = (Raise (KeyError "Token does not contain 'jti' field!"), tick w)).
Proof.
  rewrite verify_access_token_run. split; [|split; [|split]].
  - destruct (jwt_payload E token) as [p|]; [|apply same_tables_refl].
    destruct (match Claims.exp p with Some _ => _ | None => _ end);
      [apply same_tables_tick|].
    destruct (Claims.jti p); apply same_tables_tick.
  - by intros ->.
  - intros p e -> -> Hle. by rewrite bool_decide_eq_true_2.
  - intros p -> Hexp ->. destruct (Claims.exp p) as [e|]; [|done].
    specialize (Hexp e eq_refl). by rewrite bool_decide_eq_false_2 by lia.
Qed.

End TokenMore.

Lemma X5_witness :
  let expired :=
    {| Claims.user := None; Claims.exp := Some 1699999999%Z;
       Claims.jti := None; Claims.refresh := false;
       Claims.session_id := None |} in
  let current :=
    {| Claims.user := None; Claims.exp := Some 1700000100%Z;
       Claims.jti := None; Claims.refresh := false;
       Claims.session_id := None |} in
  verify_access_token Sample.E "not a token" Sample.w0
    = (Raise (Exception_ "Invalid token"), Sample.w0)
  ∧ verify_access_token Sample.E (jwt_encode Sample.E expired) Sample.w0
    = (Raise (Exception_ "Token has expired."), tick Sample.w0)
  ∧ verify_access_token Sample.E (jwt_encode Sample.E current) Sample.w0
    = (Raise (KeyError "Token does not contain 'jti' field!"),
       tick Sample.w0).
Proof.
  intros expired current. split; [|split].
  - apply (proj1 (proj2 (X5_verify_access_token_errors Sample.E
                           "not a token" Sample.w0))).
    vm_compute. reflexivity.
  - apply (proj1 (proj2 (proj2 (X5_verify_access_token_errors Sample.E
                                  (jwt_encode Sample.E expired) Sample.w0)))
             expired 1699999999%Z).
    + apply sample_sound.
    + reflexivity.
    + vm_compute. discriminate.
  - apply (proj2 (proj2 (proj2 (X5_verify_access_token_errors Sample.E
                                  (jwt_encode Sample.E current) Sample.w0)))
             current).
    + apply sample_sound.
    + intros e [= <-]. vm_compute. reflexivity.
    + reflexivity.
Defined.

(** ** The sweep of the blacklist *)

Section Sweep.
Context (E : env).
Implicit Types (w : world) (token : string).
Local Open Scope Z_scope.

Lemma NoDup_fmap_filter {A B : Type} (f : A → B) (P : A → Prop)
    `{∀ x, Decision (P x)} (l : list A) :
  NoDup (f <$> l) → NoDup (f <$> filter P l).
Proof.
  intros Hnd. eapply sublist_NoDup; [exact Hnd|].
  apply fmap_sublist, sublist_filter.
Qed.

Lemma NoDup_omap_filter {A B : Type} (f : A → option B) (P : A → Prop)
    `{∀ x, Decision (P x)} (l : list A) :
  NoDup (omap f l) → NoDup (omap f (filter P l)).
Proof.
  induction l as [|x l IH]; [done|]. cbn [omap list_omap].
  destruct (decide (P x)) as [HP|HP].
  - rewrite filter_cons_True by done. cbn [omap list_omap].
    destruct (f x) as [y|]; [|exact IH].
    intros [Hy Hnd]%NoDup_cons. apply NoDup_cons. split; [|by apply IH].
    intros (z & Hz & Hfz)%list_elem_of_omap. apply Hy.
    apply list_elem_of_omap. exists z. split; [|done].
    by apply list_elem_of_filter in Hz as [_ Hz].
  - rewrite filter_cons_False by done.
    destruct (f x) as [y|]; [|exact IH].
    intros [_ Hnd]%NoDup_cons. by apply IH.
Qed.

Lemma delete_blacklisted_token_run w :
  delete_blacklisted_token E w
  = (Ok tt,
     set_blacklistedtokens
       (filter (λ r, ¬ BlacklistedToken.expires_at r
                       < clock E (clock_reads w))
          (blacklistedtokens w)) (tick w)).
Proof. reflexivity. Qed.

Lemma sweep_elem w row :
  row ∈ blacklistedtokens (delete_blacklisted_token E w).2
  ↔ row ∈ blacklistedtokens w
    ∧ clock E (clock_reads w) ≤ BlacklistedToken.expires_at row.
Proof.
  rewrite delete_blacklisted_token_run.
  cbn [snd blacklistedtokens set_blacklistedtokens].
  rewrite list_elem_of_filter. split.
  - intros [H1 H2]. split; [done|lia].
  - intros [H1 H2]. split; [lia|done].
Qed.

Lemma sweep_unique w :
  blacklist_unique (blacklistedtokens w) →
  blacklist_unique (blacklistedtokens (delete_blacklisted_token E w).2).
Proof.
  rewrite delete_blacklisted_token_run.
  cbn [snd blacklistedtokens set_blacklistedtokens]. intros [Ht Hj]. split.
  - by apply NoDup_fmap_filter.
  - by apply NoDup_omap_filter.
Qed.

(** X6: the sweep [delete_blacklisted_token] always returns; it keeps exactly
    the entries whose [expires_at] is not before the clock reading of the
    sweep, keeps their order, keeps the unique constraints, and leaves the
    users, the refresh records and the registry as they were. *)
Theorem X6_sweep_keeps_unexpired w :
  let now := clock E (clock_reads w) in
  let w' := (delete_blacklisted_token E w).2 in
  (delete_blacklisted_token E w).1 = Ok tt
  ∧ (∀ row, row ∈ blacklistedtokens w'
            ↔ row ∈ blacklistedtokens w
              ∧ now ≤ BlacklistedToken.expires_at row)
  ∧ blacklistedtokens w' `sublist_of` blacklistedtokens w
  ∧ (blacklist_unique (blacklistedtokens w) →
     blacklist_unique (blacklistedtokens w'))
  ∧ users w' = users w ∧ refreshtokens w' = refreshtokens w
  ∧ manager w' = manager w.
Proof.
  intros now w'. unfold w'.
  split; [done|]. split; [apply sweep_elem|]. split; [|split].
  - rewrite delete_blacklisted_token_run. apply sublist_filter.
  - apply sweep_unique.
  - done.
Qed.

End Sweep.

Lemma X6_witness :
  let old :=
    {| BlacklistedToken.token := "t1"; BlacklistedToken.token_jti := Some "j1";
       BlacklistedToken.expires_at := 1699999999000000 |} in
  let live :=
    {| BlacklistedToken.token := "t2"; BlacklistedToken.token_jti := Some "j2";
       BlacklistedToken.expires_at := 1700000100000000 |} in
  let w := set_blacklistedtokens [old; live] Sample.w0 in
  blacklistedtokens (delete_blacklisted_token Sample.E w).2 = [live]
  ∧ blacklist_unique (blacklistedtokens (delete_blacklisted_token Sample.E w).2).
Proof.
  intros old live w. split; [vm_compute; reflexivity|].
  pose proof (X6_sweep_keeps_unexpired Sample.E w) as (_ & _ & _ & H & _).
  apply H.
  split; cbn; (apply NoDup_cons; split; [|apply NoDup_singleton]);
    intros Hin%list_elem_of_singleton; discriminate.
Defined.

(** ** Refresh records *)

Section RefreshRecords.
Context (E : env).
Implicit Types (w : world) (td : Claims.t) (r : RefreshToken.t).
Local Open Scope Z_scope.

Lemma save_refresh_token_run jti user_id session_id expires_at w :
  save_refresh_token jti user_id session_id expires_at w
  = let row :=
      {| RefreshToken.jti := jti; RefreshToken.user_id := user_id;
         RefreshToken.session_id := session_id;
         RefreshToken.expires_at := expires_at;
         RefreshToken.revoked := false |} in
    if existsb (refresh_conflict row) (refreshtokens w)
    then (Raise IntegrityError, w)
    else (Ok tt, set_refreshtokens (refreshtokens w ++ [row]) w).
Proof.
  unfold save_refresh_token, mbind, IO_bind. cbn [get_world].
  by destruct (existsb _ _).
Qed.

Lemma refresh_unique_add row rows :
  refresh_unique rows →
  existsb (refresh_conflict row) rows = false →
  refresh_unique (rows ++ [row]).
Proof.
  intros [Hj Hs] Hfree.
  assert (∀ r, r ∈ rows → refresh_conflict row r = false) as Hno
    by (intros r; by apply existsb_false_inv).
  split; rewrite fmap_app; apply NoDup_app; (split; [done|]);
    (split; [|apply NoDup_singleton]);
    intros k (r & -> & Hr)%list_elem_of_fmap Heq%list_elem_of_singleton;
    apply Hno in Hr; unfold refresh_conflict in Hr;
    apply orb_false_iff in Hr as [H1 H2];
    apply bool_decide_eq_false in H1, H2; done.
Qed.


Lemma filter_key_cases {A B : Type} `{EqDecision B} (f : A → B) (k : B)
    (l : list A) :
  NoDup (f <$> l) →
  filter (λ x, f x = k) l = []
  ∨ ∃ a, a ∈ l ∧ f a = k ∧ filter (λ x, f x = k) l = [a].
Proof.
  intros Hnd.
  destruct (filter (λ x, f x = k) l) as [|a rest] eqn:Hf; [by left|].
  right. assert (a ∈ filter (λ x, f x = k) l) as Ha
    by (rewrite Hf; apply list_elem_of_here).
  apply list_elem_of_filter in Ha as [Hk Ha].
  exists a. split; [done|]. split; [done|].
  rewrite <- Hf. subst k. by apply (filter_unique f).
Qed.

Lemma revoke_fmap_id session_id (rows : list RefreshToken.t) :
  (∀ r, r ∈ rows → RefreshToken.session_id r ≠ session_id) →
  (λ x, if decide (RefreshToken.session_id x = session_id)
        then revoke x else x) <$> rows = rows.
Proof.
  induction rows as [|x rows IH]; intros Hno; [done|].
  rewrite fmap_cons.
  rewrite decide_False by (apply Hno, list_elem_of_here).
  f_equal. apply IH. intros r Hr. apply Hno. by apply list_elem_of_further.
Qed.

Lemma revoke_fmap_keys session_id (rows : list RefreshToken.t) :
  RefreshToken.jti
    <$> ((λ x, if decide (RefreshToken.session_id x = session_id)
               then revoke x else x) <$> rows)
  = RefreshToken.jti <$> rows
  ∧ RefreshToken.session_id
      <$> ((λ x, if decide (RefreshToken.session_id x = session_id)
                 then revoke x else x) <$> rows)
    = RefreshToken.session_id <$> rows.
Proof.
  rewrite <- !list_fmap_compose.
  split; apply list_fmap_ext; intros i x _; simpl; by destruct (decide _).
Qed.

Lemma revoke_fmap_idemp session_id (rows : list RefreshToken.t) :
  let g := λ x, if decide (RefreshToken.session_id x = session_id)
                then revoke x else x in
  g <$> (g <$> rows) = g <$> rows.
Proof.
  intros g. rewrite <- list_fmap_compose. apply list_fmap_ext.
  intros i x _. unfold g. simpl.
  destruct (decide (RefreshToken.session_id x = session_id)) as [Hx|Hx].
  - cbn [RefreshToken.session_id revoke]. by rewrite decide_True.
  - by rewrite decide_False.
Qed.

(** What [revoke_refresh_token] does under the unique constraints. *)
Lemma revoke_refresh_token_total session_id w :
  refresh_unique (refreshtokens w) →
  revoke_refresh_token session_id w
  = (Ok tt,
     set_refreshtokens
       ((λ x, if decide (RefreshToken.session_id x = session_id)
              then revoke x else x) <$> refreshtokens w) w).
Proof.
  intros [_ Hs]. unfold revoke_refresh_token, mbind, IO_bind.
  cbn [get_world].
  destruct (filter_key_cases RefreshToken.session_id session_id
              (refreshtokens w) Hs) as [Hnone|(r & Hr & Hk & Hone)].
  - rewrite Hnone. cbn. rewrite revoke_fmap_id; [by destruct w|].
    intros r Hr Hk.
    assert (r ∈ filter (λ x, RefreshToken.session_id x = session_id)
                  (refreshtokens w)) as Hin by (by apply list_elem_of_filter).
    rewrite Hnone in Hin. by apply not_elem_of_nil in Hin.
  - by rewrite Hone.
Qed.

(** X9: under the unique constraints [revoke_refresh_token] always returns
    and keeps the constraints; afterwards every record of the session is
    revoked; a session without a record leaves the world unchanged; and
    revoking twice is revoking once. *)
Theorem X9_revoke_refresh_token session_id w :
  refresh_unique (refreshtokens w) →
  ∃ w1,
    revoke_refresh_token session_id w = (Ok tt, w1)
    ∧ refresh_unique (refreshtokens w1)
    ∧ (∀ r, r ∈ refreshtokens w1 →
            RefreshToken.session_id r = session_id →
            RefreshToken.revoked r = true)
    ∧ ((∀ r, r ∈ refreshtokens w →
             RefreshToken.session_id r ≠ session_id) → w1 = w)
    ∧ revoke_refresh_token session_id w1 = (Ok tt, w1).
Proof.
  intros Huniq. rewrite revoke_refresh_token_total by done.
  eexists. split; [reflexivity|].
  cbn [refreshtokens set_refreshtokens].
  assert (refresh_unique
            ((λ x, if decide (RefreshToken.session_id x = session_id)
                   then revoke x else x) <$> refreshtokens w)) as Huniq1.
  { destruct Huniq as [Hj Hs].
    destruct (revoke_fmap_keys session_id (refreshtokens w)) as [Ej Es].
    split; [by rewrite Ej|by rewrite Es]. }
  split; [done|]. split; [|split].
  - intros r (x & -> & Hx)%list_elem_of_fmap.
    destruct (decide (RefreshToken.session_id x = session_id)); [done|].
    by intros ?.
  - intros Hno. rewrite revoke_fmap_id by done. by destruct w.
  - rewrite revoke_refresh_token_total by done.
    cbn [refreshtokens set_refreshtokens].
    by rewrite (revoke_fmap_idemp session_id (refreshtokens w)).
Qed.

(** X10: revoking one session leaves the other sessions usable: a record of
    another session that [validate_refresh_token_jti] accepted before the
    revocation is returned by it unchanged after the revocation. *)
Theorem X10_revoke_spares_other_sessions session_id jti r w :
  refresh_unique (refreshtokens w) →
  r ∈ refreshtokens w →
  RefreshToken.session_id r ≠ session_id →
  ∃ w1,
    revoke_refresh_token session_id w = (Ok tt, w1)
    ∧ ∀ w2, refreshtokens w2 = refreshtokens w1 →
        refresh_valid jti (clock E (clock_reads w2)) r →
        validate_refresh_token_jti E jti w2 = (Ok r, tick w2).
Proof.
  intros Huniq Hr Hne. rewrite revoke_refresh_token_total by done.
  eexists. split; [reflexivity|]. cbn [refreshtokens set_refreshtokens].
  intros w2 Hw2 Hvalid. apply validate_refresh_token_jti_ok; [| |done].
  - rewrite Hw2. destruct Huniq as [Hj Hs].
    destruct (revoke_fmap_keys session_id (refreshtokens w)) as [Ej Es].
    split; [by rewrite Ej|by rewrite Es].
  - rewrite Hw2. apply list_elem_of_fmap. exists r. split; [|done].
    by rewrite decide_False.
Qed.

End RefreshRecords.


Lemma X9_witness :
  let row :=
    {| RefreshToken.jti := "j1"; RefreshToken.user_id := 1;
       RefreshToken.session_id := "s1";
       RefreshToken.expires_at := 1700259200000000;
       RefreshToken.revoked := false |} in
  let w := set_refreshtokens [row] Sample.w0 in
  ∃ w1,
    revoke_refresh_token "s1" w = (Ok tt, w1)
    ∧ refreshtokens w1 = [revoke row]
    ∧ revoke_refresh_token "s1" w1 = (Ok tt, w1).
Proof.
  intros row w.
  destruct (X9_revoke_refresh_token "s1" w
              (conj (NoDup_singleton _) (NoDup_singleton _)))
    as (w1 & Hrun & _ & _ & _ & Hagain).
  exists w1. split; [exact Hrun|]. split; [|exact Hagain].
  rewrite revoke_refresh_token_total in Hrun
    by (split; apply NoDup_singleton).
  by injection Hrun as <-.
Defined.

Lemma X10_witness :
  let r1 :=
    {| RefreshToken.jti := "j1"; RefreshToken.user_id := 1;
       RefreshToken.session_id := "s1";
       RefreshToken.expires_at := 1700259200000000;
       RefreshToken.revoked := false |} in
  let r2 :=
    {| RefreshToken.jti := "j2"; RefreshToken.user_id := 1;
       RefreshToken.session_id := "s2";
       RefreshToken.expires_at := 1700259200000000;
       RefreshToken.revoked := false |} in
  let w := set_refreshtokens [r1; r2] Sample.w0 in
  ∃ w1,
    revoke_refresh_token "s1" w = (Ok tt, w1)
    ∧ validate_refresh_token_jti Sample.E (Some "j2") w1 = (Ok r2, tick w1).
Proof.
  intros r1 r2 w.
  assert (refresh_unique (refreshtokens w)) as Huniq.
  { split; cbn; (apply NoDup_cons; split; [|apply NoDup_singleton]);
      intros Hin%list_elem_of_singleton; discriminate. }
  destruct (X10_revoke_spares_other_sessions Sample.E "s1" (Some "j2") r2 w
              Huniq) as (w1 & Hrun & Hkeep).
  - apply list_elem_of_further, list_elem_of_here.
  - discriminate.
  - exists w1. split; [exact Hrun|]. apply Hkeep; [reflexivity|].
    rewrite revoke_refresh_token_total in Hrun by done.
    injection Hrun as <-.
    split; [reflexivity|]. split; [reflexivity|]. vm_compute. reflexivity.
Defined.

(** ** Session endpoints *)

Section Sessions.
Context (E : env).
Implicit Types (w : world) (token : string) (p td : Claims.t).
Local Open Scope Z_scope.

Lemma validate_refresh_token_jti_world jti w :
  (validate_refresh_token_jti E jti w).2 = tick w.
Proof.
  unfold validate_refresh_token_jti, mbind, IO_bind.
  cbn [datetime_now get_world].
  by destruct (filter _ _) as [|r [|r' rest]].
Qed.

Lemma create_access_token_frame user_data expiry refresh session_id jti w :
  same_tables w
    (create_access_token E user_data expiry refresh session_id jti w).2.
Proof.
  rewrite create_access_token_run. cbn [snd].
  destruct (truthy jti), (truthy session_id); by repeat split.
Qed.

Lemma get_new_token_frame td w : same_tables w (get_new_token E td w).2.
Proof.
  unfold get_new_token. destruct (Claims.exp td) as [e|];
    [|apply same_tables_refl].
  apply same_tables_bind.
  - rewrite validate_refresh_token_jti_world. apply same_tables_tick.
  - intros _ w1. apply same_tables_bind; [apply same_tables_tick|].
    intros now w2. destruct (decide _); [|apply same_tables_refl].
    apply create_access_token_frame.
Qed.

(** X11: [get_new_token] never writes a table or the registry.  Handed claims
    without [exp] it raises [KeyError]; handed claims whose own [exp] is not
    in the future it answers 403 (invalid or expired refresh token) although
    the Refresh Record is valid. *)
Theorem X11_get_new_token_own_expiry td w :
  same_tables w (get_new_token E td w).2
  ∧ (Claims.exp td = None →
     get_new_token E td w = (Raise (KeyError "exp"), w))
  ∧ (∀ e r,
       Claims.exp td = Some e →
       refresh_unique (refreshtokens w) →
       r ∈ refreshtokens w →
       refresh_valid (Claims.jti td) (clock E (clock_reads w)) r →
       e * 1000000 ≤ clock E (S (clock_reads w)) →
       get_new_token E td w
       = (Raise (HTTPException 403 "Invalid or expired refresh token"),
          tick (tick w))).
Proof.
  split; [apply get_new_token_frame|]. split.
  - intros He. unfold get_new_token. by rewrite He.
  - intros e r He Huniq Hr Hvalid Hle. unfold get_new_token. rewrite He.
    unfold mbind at 1. unfold IO_bind at 1.
    rewrite (validate_refresh_token_jti_ok E _ r) by done.
    unfold mbind at 1. unfold IO_bind at 1.
    cbn [datetime_now clock_reads tick]. unfold fromtimestamp.
    rewrite decide_False by lia. done.
Qed.

Lemma same_tables_tick2 w : same_tables w (tick (tick w)).
Proof. by repeat split. Qed.

Local Ltac logout_fails frame :=
  match goal with
  | Hrun : _ = (_, _) |- _ =>
      injection Hrun as <- <-; left; eexists _, _;
      split; [reflexivity|apply frame]
  end.

(** Every run of [logout], under the unique constraint of the refresh
    records: it raises with the tables as they were, or it takes the path of
    [logout_run]. *)
Lemma logout_cases token w :
  refresh_unique (refreshtokens w) →
  (∃ e w', logout E token w = (Raise e, w') ∧ same_tables w w')
  ∨ (∃ p j e session_id,
       jwt_payload E token = Some p
       ∧ Claims.jti p = Some j
       ∧ Claims.exp p = Some e
       ∧ truthy (Claims.session_id p) = Some session_id
       ∧ clock E (S (clock_reads w)) < e * 1000000
       ∧ existsb
           (blacklist_conflict
              {| BlacklistedToken.token := token;
                 BlacklistedToken.token_jti := Some j;
                 BlacklistedToken.expires_at := fromtimestamp e |})
           (blacklistedtokens w) = false
       ∧ logout E token w
         = (Ok "Logged out successfully",
            set_refreshtokens
              ((λ x, if decide (RefreshToken.session_id x = session_id)
                     then revoke x else x) <$> refreshtokens w)
              (set_blacklistedtokens
                 (blacklistedtokens w
                  ++ [ {| BlacklistedToken.token := token;
                          BlacklistedToken.token_jti := Some j;
                          BlacklistedToken.expires_at := fromtimestamp e |} ])
                 (tick (tick w))))).
Proof.
  intros Huniq. destruct (logout E token w) as [res w'] eqn:Hrun.
  unfold logout in Hrun. unfold mbind at 1 in Hrun.
  unfold IO_bind at 1 in Hrun.
  unfold get_blacklisted_token, mbind at 1 in Hrun.
  unfold IO_bind at 1 in Hrun. cbn [get_world] in Hrun.
  destruct (filter _ (blacklistedtokens w)) as [|r0 [|r1 rest]];
    cbn [scalar_one_or_none mret IO_ret raise] in Hrun;
    [|logout_fails same_tables_refl..].
  unfold try_except, mbind, IO_bind in Hrun.
  rewrite verify_access_token_run in Hrun.
  destruct (jwt_payload E token) as [p|] eqn:Hp;
    [|logout_fails same_tables_refl].
  destruct (match Claims.exp p with Some _ => _ | None => _ end) eqn:Hexp1;
    [logout_fails same_tables_tick|].
  destruct (Claims.jti p) as [j|] eqn:Hj; [|logout_fails same_tables_tick].
  destruct (truthy (Claims.session_id p)) as [session_id|] eqn:Hs;
    [|logout_fails same_tables_tick].
  rewrite create_token_blacklist_run, Hp in Hrun.
  destruct (Claims.exp p) as [e|] eqn:He;
    [|logout_fails same_tables_tick2].
  cbn [clock_reads tick] in Hrun.
  destruct (decide (e * 1000000 ≤ clock E (S (clock_reads w))));
    [logout_fails same_tables_tick2|].
  rewrite add_blacklistedtoken_run in Hrun.
  cbn [blacklistedtokens tick] in Hrun. rewrite Hj in Hrun.
  destruct (existsb _ (blacklistedtokens w)) eqn:Hfree;
    [logout_fails same_tables_tick2|].
  rewrite revoke_refresh_token_total in Hrun by done.
  injection Hrun as <- <-.
  right. exists p, j, e, session_id.
  repeat (split; [done || lia|]). reflexivity.
Qed.

(** X12: under the unique constraint of the refresh records, [logout] is
    all or nothing: when it raises, whatever the exception, the users, the
    blacklist, the refresh records and the registry are as they were. *)
Theorem X12_logout_raises_without_writing token w e w' :
  refresh_unique (refreshtokens w) →
  logout E token w = (Raise e, w') →
  same_tables w w'.
Proof.
  intros Huniq Hrun.
  destruct (logout_cases token w Huniq)
    as [(e0 & w0 & Hfail & Hframe)|(p & j & e1 & sid & _ & _ & _ & _ & _ & _ & Hok)].
  - rewrite Hfail in Hrun. by injection Hrun as _ <-.
  - rewrite Hok in Hrun. discriminate.
Qed.

(** X13: under the unique constraints, when [logout] returns, the token is
    in the blacklist and found by its raw string, every Refresh Record of the
    token's session is revoked, both unique constraints still hold, and the
    users and the registry are as they were. *)
Theorem X13_logout_returns_revoked token w msg w' :
  blacklist_unique (blacklistedtokens w) →
  refresh_unique (refreshtokens w) →
  logout E token w = (Ok msg, w') →
  ∃ p session_id row,
    jwt_payload E token = Some p
    ∧ truthy (Claims.session_id p) = Some session_id
    ∧ get_blacklisted_token token w' = (Ok (Some row), w')
    ∧ BlacklistedToken.token_jti row = Claims.jti p
    ∧ (∀ r, r ∈ refreshtokens w' →
            RefreshToken.session_id r = session_id →
            RefreshToken.revoked r = true)
    ∧ blacklist_unique (blacklistedtokens w')
    ∧ refresh_unique (refreshtokens w')
    ∧ users w' = users w ∧ manager w' = manager w.
Proof.
  intros Hbl Huniq Hrun.
  destruct (logout_cases token w Huniq)
    as [(e0 & w0 & Hfail & _)
       |(p & j & e & sid & Hp & Hj & He & Hs & Hclock & Hfree & Hok)].
  { rewrite Hfail in Hrun. discriminate. }
  rewrite Hok in Hrun. injection Hrun as _ <-.
  set (row := {| BlacklistedToken.token := token;
                 BlacklistedToken.token_jti := Some j;
                 BlacklistedToken.expires_at := fromtimestamp e |}) in *.
  assert (blacklist_unique (blacklistedtokens w ++ [row])) as Hbl1
    by (by apply blacklist_unique_add).
  exists p, sid, row. split; [done|]. split; [done|]. split.
  { apply (get_blacklisted_token_run row); cbn; [done|].
    apply elem_of_app. right. apply list_elem_of_here. }
  split; [by rewrite Hj|]. cbn [refreshtokens set_refreshtokens
    blacklistedtokens set_blacklistedtokens users manager tick].
  split; [|split; [done|split; [|done]]].
  - intros r (x & -> & Hx)%list_elem_of_fmap.
    destruct (decide (RefreshToken.session_id x = sid)); [done|].
    by intros ?.
  - destruct Huniq as [Hj' Hs'].
    destruct (revoke_fmap_keys sid (refreshtokens w)) as [Ej Es].
    split; [by rewrite Ej|by rewrite Es].
Qed.

(** The run of [logout] for a token that is not in the blacklist and does
    not get as far as the insert. *)
Lemma logout_early token w :
  (∀ r, r ∈ blacklistedtokens w → BlacklistedToken.token r ≠ token) →
  logout E token w
  = match jwt_payload E token with
    | None => (Raise (Exception_ "Invalid token"), w)
    | Some p =>
        if match Claims.exp p with
           | Some e => bool_decide (e * 1000000 ≤ clock E (clock_reads w))
           | None => false
           end
        then (Raise (Exception_ "Token has expired."), tick w)
        else
          match Claims.jti p with
          | None =>
              (Raise (KeyError "Token does not contain 'jti' field!"),
               tick w)
          | Some _ =>
              match truthy (Claims.session_id p) with
              | None =>
                  (Raise (HTTPException 400 "Token is missing session_id"),
                   tick w)
              | Some session_id =>
                  match Claims.exp p with
                  | Some e =>
                      if decide (e * 1000000 ≤ clock E (S (clock_reads w)))
                      then (Raise (HTTPException 400 "Invalid token"),
                            tick (tick w))
                      else logout E token w
                  | None =>
                      (Raise (HTTPException 400 "Invalid token"),
                       tick (tick w))
                  end
              end
          end
    end.
Proof.
  intros Hnew.
  destruct (jwt_payload E token) as [p|] eqn:Hp.
  2:{ unfold logout. unfold mbind at 1. unfold IO_bind at 1.
      unfold get_blacklisted_token, mbind at 1. unfold IO_bind at 1.
      cbn [get_world]. rewrite filter_none by (intros x Hx; by apply Hnew).
      cbn [scalar_one_or_none mret IO_ret].
      unfold try_except, mbind, IO_bind.
      by rewrite verify_access_token_run, Hp. }
  destruct (match Claims.exp p with Some _ => _ | None => _ end) eqn:Hexp.
  { unfold logout. unfold mbind at 1. unfold IO_bind at 1.
    unfold get_blacklisted_token, mbind at 1. unfold IO_bind at 1.
    cbn [get_world]. rewrite filter_none by (intros x Hx; by apply Hnew).
    cbn [scalar_one_or_none mret IO_ret].
    unfold try_except, mbind, IO_bind.
    by rewrite verify_access_token_run, Hp, Hexp. }
  destruct (Claims.jti p) as [j|] eqn:Hj.
  2:{ unfold logout. unfold mbind at 1. unfold IO_bind at 1.
      unfold get_blacklisted_token, mbind at 1. unfold IO_bind at 1.
      cbn [get_world]. rewrite filter_none by (intros x Hx; by apply Hnew).
      cbn [scalar_one_or_none mret IO_ret].
      unfold try_except, mbind, IO_bind.
      by rewrite verify_access_token_run, Hp, Hexp, Hj. }
  destruct (truthy (Claims.session_id p)) as [sid|] eqn:Hs.
  2:{ unfold logout. unfold mbind at 1. unfold IO_bind at 1.
      unfold get_blacklisted_token, mbind at 1. unfold IO_bind at 1.
      cbn [get_world]. rewrite filter_none by (intros x Hx; by apply Hnew).
      cbn [scalar_one_or_none mret IO_ret].
      unfold try_except, mbind, IO_bind.
      by rewrite verify_access_token_run, Hp, Hexp, Hj, Hs. }
  destruct (Claims.exp p) as [e|] eqn:He.
  2:{ unfold logout. unfold mbind at 1. unfold IO_bind at 1.
      unfold get_blacklisted_token, mbind at 1. unfold IO_bind at 1.
      cbn [get_world]. rewrite filter_none by (intros x Hx; by apply Hnew).
      cbn [scalar_one_or_none mret IO_ret].
      unfold try_except, mbind, IO_bind.
      rewrite verify_access_token_run, Hp, He, Hj, Hs.
      by rewrite create_token_blacklist_run, Hp, He. }
  destruct (decide _) as [Hle|]; [|done].
  unfold logout. unfold mbind at 1. unfold IO_bind at 1.
  unfold get_blacklisted_token, mbind at 1. unfold IO_bind at 1.
  cbn [get_world]. rewrite filter_none by (intros x Hx; by apply Hnew).
  cbn [scalar_one_or_none mret IO_ret].
  unfold try_except, mbind, IO_bind.
  rewrite verify_access_token_run, Hp, He, Hexp, Hj, Hs.
  rewrite create_token_blacklist_run, Hp, He. cbn [clock_reads tick].
  by rewrite decide_True.
Qed.

(** X14: how [logout] refuses a token that is not in the blacklist.  An
    expired token raises the plain [Exception("Token has expired.")] of
    [verify_access_token], not an [HTTPException]; a current token without
    [session_id] is answered 400 (missing session_id); and the 400 (invalid
    token) of the [except ValueError] clause is the answer when the token
    expires between the two decodings of the handler. *)
Theorem X14_logout_refusals token p w :
  (∀ r, r ∈ blacklistedtokens w → BlacklistedToken.token r ≠ token) →
  jwt_payload E token = Some p →
  (∀ e, Claims.exp p = Some e →
        e * 1000000 ≤ clock E (clock_reads w) →
        logout E token w
        = (Raise (Exception_ "Token has expired."), tick w))
  ∧ (∀ j, (∀ e, Claims.exp p = Some e →
                clock E (clock_reads w) < e * 1000000) →
          Claims.jti p = Some j →
          truthy (Claims.session_id p) = None →
          logout E token w
          = (Raise (HTTPException 400 "Token is missing session_id"),
             tick w))
  ∧ (∀ j e session_id,
       Claims.exp p = Some e →
       clock E (clock_reads w) < e * 1000000 →
       e * 1000000 ≤ clock E (S (clock_reads w)) →
       Claims.jti p = Some j →
       truthy (Claims.session_id p) = Some session_id →
       logout E token w
       = (Raise (HTTPException 400 "Invalid token"), tick (tick w))).
Proof.
  intros Hnew Hp. rewrite (logout_early token w Hnew), Hp.
  split; [|split].
  - intros e -> Hle. by rewrite bool_decide_eq_true_2.
  - intros j Hexp -> ->. destruct (Claims.exp p) as [e|]; [|done].
    specialize (Hexp e eq_refl). by rewrite bool_decide_eq_false_2 by lia.
  - intros j e sid -> H1 H2 -> ->.
    rewrite bool_decide_eq_false_2 by lia. by rewrite decide_True.
Qed.

End Sessions.

Lemma X11_witness :
  let row :=
    {| RefreshToken.jti := "j1"; RefreshToken.user_id := 1;
       RefreshToken.session_id := "s1";
       RefreshToken.expires_at := 1700259200000000;
       RefreshToken.revoked := false |} in
  let w := set_refreshtokens [row] Sample.w0 in
  let td := login_claims Sample.alice true 1699999999 "s1" "j1" in
  get_new_token Sample.E td w
  = (Raise (HTTPException 403 "Invalid or expired refresh token"),
     tick (tick w)).
Proof.
  intros row w td.
  apply (proj2 (proj2 (X11_get_new_token_own_expiry Sample.E td w))
           1699999999%Z row).
  - reflexivity.
  - split; apply NoDup_singleton.
  - apply list_elem_of_here.
  - split; [reflexivity|]. split; [reflexivity|]. vm_compute. reflexivity.
  - vm_compute. discriminate.
Defined.

Lemma X12_witness :
  logout Sample.E "not a token" Sample.w0
    = (Raise (Exception_ "Invalid token"), Sample.w0)
  ∧ same_tables Sample.w0 Sample.w0.
Proof.
  assert (logout Sample.E "not a token" Sample.w0
          = (Raise (Exception_ "Invalid token"), Sample.w0)) as Hrun
    by (vm_compute; reflexivity).
  split; [exact Hrun|].
  exact (X12_logout_raises_without_writing Sample.E "not a token" Sample.w0
           _ _ (conj NoDup_nil_2 NoDup_nil_2) Hrun).
Defined.

Lemma X13_witness :
  let row :=
    {| RefreshToken.jti := uuid4 Sample.E 1; RefreshToken.user_id := 1;
       RefreshToken.session_id := uuid4 Sample.E 0;
       RefreshToken.expires_at := 1700259200000000;
       RefreshToken.revoked := false |} in
  let w1 :=
    {| uuid_calls := 2; clock_reads := 3; users := [Sample.alice];
       blacklistedtokens := []; refreshtokens := [row]; manager := ∅ |} in
  let access_claims :=
    login_claims Sample.alice false 1700007200 (uuid4 Sample.E 0)
      (uuid4 Sample.E 1) in
  let token := jwt_encode Sample.E access_claims in
  ∃ w2 entry,
    logout Sample.E token w1 = (Ok "Logged out successfully", w2)
    ∧ get_blacklisted_token token w2 = (Ok (Some entry), w2)
    ∧ (∀ r, r ∈ refreshtokens w2 →
            RefreshToken.session_id r = uuid4 Sample.E 0 →
            RefreshToken.revoked r = true).
Proof.
  intros row w1 access_claims token.
  assert (refresh_unique (refreshtokens w1)) as Huniq
    by (split; apply NoDup_singleton).
  pose proof (logout_run Sample.E token access_claims (uuid4 Sample.E 1)
                1700007200%Z (uuid4 Sample.E 0) row w1 (sample_sound _)
                eq_refl eq_refl) as Hrun.
  rewrite Hrun; [|vm_compute; reflexivity|vm_compute; reflexivity|reflexivity
                 |discriminate|reflexivity|exact Huniq
                 |apply list_elem_of_here|reflexivity].
  eexists.
  destruct (X13_logout_returns_revoked Sample.E token w1 _ _
              (conj NoDup_nil_2 NoDup_nil_2) Huniq
              (Hrun ltac:(vm_compute; reflexivity)
                    ltac:(vm_compute; reflexivity) eq_refl
                    ltac:(discriminate) eq_refl Huniq
                    ltac:(apply list_elem_of_here) eq_refl))
    as (p & sid & entry & Hp & Hs & Hget & _ & Hrev & _).
  exists entry. split; [reflexivity|]. split; [exact Hget|].
  intros r Hr Hsess. apply (Hrev r Hr).
  unfold token in Hp. rewrite sample_sound in Hp. injection Hp as <-.
  cbn in Hs. injection Hs as <-. exact Hsess.
Defined.

Lemma X14_witness :
  let p := login_claims Sample.alice false 1699999999 "s1" "j1" in
  logout Sample.E (jwt_encode Sample.E p) Sample.w0
  = (Raise (Exception_ "Token has expired."), tick Sample.w0).
Proof.
  intros p.
  apply (proj1 (X14_logout_refusals Sample.E (jwt_encode Sample.E p) p
                  Sample.w0
                  ltac:(intros r Hr; by apply not_elem_of_nil in Hr)
                  (sample_sound p)) 1699999999%Z).
  - reflexivity.
  - vm_compute. discriminate.
Defined.

(** ** Login and what follows it *)

Section LoginMore.
Context (E : env).
Implicit Types (w : world) (token : string) (p td : Claims.t).
Local Open Scope Z_scope.

Lemma login_raises_frame data w e w' :
  login E data w = (Raise e, w') → same_tables w w'.
Proof.
  unfold login. unfold mbind at 1. unfold IO_bind at 1.
  destruct (user_service_user _ _ w) as [[[u|]|e0] w0] eqn:Hu;
    pose proof (user_service_user_world _ _ _ _ _ Hu) as ->;
    [|intros [= _ <-]; apply same_tables_refl..].
  destruct (verify_password E _ _);
    [|intros [= _ <-]; apply same_tables_refl].
  unfold mbind, IO_bind, str_uuid4.
  set (w2 := draw (draw w)).
  assert (same_tables w w2) as H2 by (by repeat split).
  destruct (create_access_token E _ None false _ _ w2) as [[at_|e1] w3] eqn:H3.
  2:{ rewrite create_access_token_run in H3. discriminate. }
  match type of H3 with
  | create_access_token _ ?a ?b ?c ?d ?f ?x = _ =>
      pose proof (create_access_token_frame E a b c d f x) as F3
  end.
  rewrite H3 in F3. cbn [snd] in F3.
  destruct (create_access_token E _ (Some _) true _ _ w3)
    as [[rt|e1] w4] eqn:H4.
  2:{ rewrite create_access_token_run in H4. discriminate. }
  match type of H4 with
  | create_access_token _ ?a ?b ?c ?d ?f ?x = _ =>
      pose proof (create_access_token_frame E a b c d f x) as F4
  end.
  rewrite H4 in F4. cbn [snd] in F4.
  pose proof (jwt_decode_frame E rt w4) as F5.
  assert (same_tables w w4) as H04
    by (eapply same_tables_trans; [|exact F4];
        eapply same_tables_trans; [exact H2|exact F3]).
  destruct (jwt_decode E rt w4) as [[q|e1] w5]; cbn [snd] in F5.
  2:{ intros [= _ <-]. by eapply same_tables_trans. }
  destruct (Claims.exp q) as [x|].
  2:{ intros [= _ <-]. by eapply same_tables_trans. }
  rewrite save_refresh_token_run. cbv zeta.
  destruct (existsb _ _); [|discriminate].
  intros [= _ <-]. by eapply same_tables_trans.
Qed.

(** X15: [login] writes nothing unless it returns tokens: whenever it raises
    the tables and the registry are as they were; and for a name that
    matches no account, or a password that passlib rejects, it answers 400
    without reading the clock or drawing a UUID. *)
Theorem X15_login_refusals data w :
  (∀ e w', login E data w = (Raise e, w') → same_tables w w')
  ∧ (user_service_user (LoginData.username data) (LoginData.username data) w
       = (Ok None, w) →
     login E data w = (Raise (HTTPException 400 "Invalid login details!"), w))
  ∧ (∀ u,
       user_service_user (LoginData.username data) (LoginData.username data)
         w = (Ok (Some u), w) →
       verify_password E (LoginData.password data) (User.hashed_password u)
         = false →
       login E data w
       = (Raise (HTTPException 400 "Invalid login details!"), w)).
Proof.
  split; [intros e w'; apply login_raises_frame|]. split.
  - intros Hu. unfold login. unfold mbind at 1. unfold IO_bind at 1.
    by rewrite Hu.
  - intros u Hu Hpw. unfold login. unfold mbind at 1. unfold IO_bind at 1.
    by rewrite Hu, Hpw.
Qed.

Lemma split_no_sep sep s : contains sep s = false → split sep s = [s].
Proof.
  induction s as [|a s IH]; simpl; [done|].
  intros [Ha Hs]%orb_false_iff. apply bool_decide_eq_false in Ha.
  rewrite decide_False by done. by rewrite IH.
Qed.

Lemma split_app_sep sep s t :
  contains sep s = false →
  split sep (String.append s (String sep t)) = s :: split sep t.
Proof.
  induction s as [|a s IH]; simpl.
  - intros _. by rewrite decide_True.
  - intros [Ha Hs]%orb_false_iff. apply bool_decide_eq_false in Ha.
    rewrite decide_False by done. by rewrite IH.
Qed.

Lemma bearer_prefix s :
  String.prefix "Bearer " (String.append "Bearer " s) = true.
Proof. simpl. unfold String.append. by destruct s. Qed.

Lemma bearer_token s :
  contains " " s = false →
  split " " (String.append "Bearer " s) !! 1%nat = Some s.
Proof.
  intros Hs.
  change (String.append "Bearer " s)
    with (String.append "Bearer" (String " " s)).
  rewrite split_app_sep by reflexivity. by rewrite split_no_sep.
Qed.

(** What a returning [login] leaves behind, in the terms of [login_run]. *)
Lemma login_ok_run data w access_token refresh_token w1 :
  jwt_sound E → uuid4_nonempty E →
  login E data w = (Ok (access_token, refresh_token), w1) →
  ∃ u exp_a exp_r,
    user_service_user (LoginData.username data) (LoginData.username data) w
      = (Ok (Some u), w)
    ∧ exp_a = Z.quot (clock E (clock_reads w)
                      + timedelta_minutes ACCESS_TOKEN_EXPIRY) 1000000
    ∧ exp_r = Z.quot (clock E (S (clock_reads w))
                      + timedelta_days REFRESH_EXPIRY) 1000000
    ∧ access_token
      = jwt_encode E (login_claims u false exp_a (uuid4 E (uuid_calls w))
                        (uuid4 E (S (uuid_calls w))))
    ∧ refresh_token
      = jwt_encode E (login_claims u true exp_r (uuid4 E (uuid_calls w))
                        (uuid4 E (S (uuid_calls w))))
    ∧ existsb
        (refresh_conflict
           {| RefreshToken.jti := uuid4 E (S (uuid_calls w));
              RefreshToken.user_id := User.id u;
              RefreshToken.session_id := uuid4 E (uuid_calls w);
              RefreshToken.expires_at := fromtimestamp exp_r;
              RefreshToken.revoked := false |}) (refreshtokens w) = false
    ∧ refreshtokens w1
      = refreshtokens w
        ++ [ {| RefreshToken.jti := uuid4 E (S (uuid_calls w));
                RefreshToken.user_id := User.id u;
                RefreshToken.session_id := uuid4 E (uuid_calls w);
                RefreshToken.expires_at := fromtimestamp exp_r;
                RefreshToken.revoked := false |} ]
    ∧ users w1 = users w ∧ blacklistedtokens w1 = blacklistedtokens w
    ∧ manager w1 = manager w.
Proof.
  intros Hsound Hne Hlogin.
  destruct (login_ok_inv E data w _ _ _ Hsound Hne Hlogin)
    as (u & Huser & Hpw & Hfresh & Hclock).
  rewrite (login_run E data u w Hsound Hne Huser Hpw Hfresh Hclock) in Hlogin.
  injection Hlogin as <- <- <-.
  eexists u, _, _. split; [done|]. split; [reflexivity|].
  split; [reflexivity|]. split; [reflexivity|]. split; [reflexivity|].
  split; [|done].
  apply existsb_false. intros r Hr. destruct (Hfresh r Hr) as [H1 H2].
  unfold refresh_conflict. cbn. by rewrite !bool_decide_eq_false_2.
Qed.

(** X17: a [logout] with the access token of a login ends the session of
    that login: once it has returned, [get_new_token] on the claims of the
    login's refresh token answers 403, for as long as the refresh table is
    as the [logout] left it. *)
Theorem X17_logout_ends_the_session data w access_token refresh_token w1
    w1' msg w2 :
  jwt_sound E → uuid4_nonempty E →
  refresh_unique (refreshtokens w) →
  login E data w = (Ok (access_token, refresh_token), w1) →
  refreshtokens w1' = refreshtokens w1 →
  logout E access_token w1' = (Ok msg, w2) →
  ∃ td,
    jwt_payload E refresh_token = Some td
    ∧ ∀ w3, refreshtokens w3 = refreshtokens w2 →
        get_new_token E td w3
        = (Raise (HTTPException 403 "Invalid of expired token"), tick w3).
Proof.
  intros Hsound Hne Huniq Hlogin Hsame Hlogout.
  destruct (login_ok_run data w _ _ _ Hsound Hne Hlogin)
    as (u & exp_a & exp_r & _ & _ & _ & -> & -> & Hfree & Hrows & _).
  assert (refresh_unique (refreshtokens w1')) as Huniq1
    by (rewrite Hsame, Hrows; by apply refresh_unique_add).
  match type of Hlogout with
  | logout _ ?t _ = _ =>
      destruct (logout_cases E t w1' Huniq1)
        as [(e0 & w0 & Hfail & _)
           |(p & j & e & sid & Hp & _ & _ & Hs & _ & _ & Hok)]
  end.
  { rewrite Hfail in Hlogout. discriminate. }
  rewrite Hok in Hlogout. injection Hlogout as _ <-.
  rewrite Hsound in Hp. injection Hp as <-.
  cbn [Claims.session_id login_claims] in Hs.
  rewrite truthy_uuid4 in Hs by done. injection Hs as <-.
  eexists. split; [apply Hsound|]. intros w3 Hw3.
  eapply (get_new_token_revoked E _ exp_r
            {| RefreshToken.jti := uuid4 E (S (uuid_calls w));
               RefreshToken.user_id := User.id u;
               RefreshToken.session_id := uuid4 E (uuid_calls w);
               RefreshToken.expires_at := fromtimestamp exp_r;
               RefreshToken.revoked := false |} (refreshtokens w1')).
  - reflexivity.
  - apply Huniq1.
  - rewrite Hsame, Hrows. apply elem_of_app. right. apply list_elem_of_here.
  - reflexivity.
  - exact Hw3.
Qed.

(** X18: the access token of a returning [login] opens the stream: presented
    as [Bearer <token>] at a moment before its [exp], it passes the
    handshake of [websocket_endpoint], which registers the channel in the
    room and enters the loop with the identity of the account that logged
    in. *)
Theorem X18_login_then_connect data w access_token refresh_token w1
    websocket chatroom_id :
  jwt_sound E → uuid4_nonempty E →
  login E data w = (Ok (access_token, refresh_token), w1) →
  contains " " access_token = false →
  ∃ u,
    user_service_user (LoginData.username data) (LoginData.username data) w
      = (Ok (Some u), w)
    ∧ ∀ w2,
        clock E (clock_reads w2)
        < Z.quot (clock E (clock_reads w)
                  + timedelta_minutes ACCESS_TOKEN_EXPIRY) 1000000 * 1000000 →
        websocket_endpoint E websocket chatroom_id
          (Some (String.append "Bearer " access_token)) w2
        = (Ok (Registered
                 {| UserData.user_id := User.id u;
                    UserData.username := User.username u;
                    UserData.email := User.email u |}),
           set_manager
             (ConnectionManager.connect (manager w2) chatroom_id websocket)
             (tick w2)).
Proof.
  intros Hsound Hne Hlogin Hspace.
  destruct (login_ok_run data w _ _ _ Hsound Hne Hlogin)
    as (u & exp_a & exp_r & Hu & -> & _ & Hat & _).
  exists u. split; [done|]. intros w2 Hclock.
  eapply (websocket_endpoint_accepts E _ _ _ access_token).
  - apply bearer_prefix.
  - by apply bearer_token.
  - rewrite Hat. apply Hsound.
  - intros e [= <-]. exact Hclock.
  - reflexivity.
Qed.

End LoginMore.

Lemma X15_witness :
  login Sample.E
    {| LoginData.username := "alice"; LoginData.password := "guess" |}
    Sample.w0
  = (Raise (HTTPException 400 "Invalid login details!"), Sample.w0)
  ∧ login Sample.E
      {| LoginData.username := "bob"; LoginData.password := "secret" |}
      Sample.w0
    = (Raise (HTTPException 400 "Invalid login details!"), Sample.w0).
Proof.
  split.
  - apply (proj2 (proj2 (X15_login_refusals Sample.E
                           {| LoginData.username := "alice";
                              LoginData.password := "guess" |} Sample.w0))
             Sample.alice); vm_compute; reflexivity.
  - apply (proj1 (proj2 (X15_login_refusals Sample.E
                           {| LoginData.username := "bob";
                              LoginData.password := "secret" |} Sample.w0))).
    vm_compute. reflexivity.
Defined.

(** A login and a logout in the concrete world, for the examples below. *)
Lemma sample_logout :
  let row :=
    {| RefreshToken.jti := uuid4 Sample.E 1; RefreshToken.user_id := 1;
       RefreshToken.session_id := uuid4 Sample.E 0;
       RefreshToken.expires_at := 1700259200000000;
       RefreshToken.revoked := false |} in
  let w1 :=
    {| uuid_calls := 2; clock_reads := 3; users := [Sample.alice];
       blacklistedtokens := []; refreshtokens := [row]; manager := ∅ |} in
  let token :=
    jwt_encode Sample.E
      (login_claims Sample.alice false 1700007200 (uuid4 Sample.E 0)
         (uuid4 Sample.E 1)) in
  ∃ w2, logout Sample.E token w1 = (Ok "Logged out successfully", w2).
Proof.
  intros row w1 token. eexists.
  apply (logout_run Sample.E token _ (uuid4 Sample.E 1) 1700007200%Z
           (uuid4 Sample.E 0) row w1 (sample_sound _) eq_refl eq_refl).
  - vm_compute. reflexivity.
  - vm_compute. reflexivity.
  - reflexivity.
  - discriminate.
  - reflexivity.
  - split; apply NoDup_singleton.
  - apply list_elem_of_here.
  - reflexivity.
Qed.

Lemma X17_witness :
  ∃ access_token refresh_token w1 w2 td,
    login Sample.E
      {| LoginData.username := "alice"; LoginData.password := "secret" |}
      Sample.w0 = (Ok (access_token, refresh_token), w1)
    ∧ logout Sample.E access_token w1 = (Ok "Logged out successfully", w2)
    ∧ jwt_payload Sample.E refresh_token = Some td
    ∧ get_new_token Sample.E td w2
      = (Raise (HTTPException 403 "Invalid of expired token"), tick w2).
Proof.
  destruct sample_logout as (w2 & Hlogout).
  destruct (X17_logout_ends_the_session Sample.E _ Sample.w0 _ _ _ _ _ w2
              sample_sound sample_uuid4_nonempty
              (conj NoDup_nil_2 NoDup_nil_2) sample_login eq_refl Hlogout)
    as (td & Htd & Hrefused).
  eexists _, _, _, w2, td.
  split; [exact sample_login|]. split; [exact Hlogout|].
  split; [exact Htd|]. by apply Hrefused.
Defined.

Lemma X18_witness :
  ∃ access_token refresh_token w1,
    login Sample.E
      {| LoginData.username := "alice"; LoginData.password := "secret" |}
      Sample.w0 = (Ok (access_token, refresh_token), w1)
    ∧ websocket_endpoint Sample.E 5%nat 7
        (Some (String.append "Bearer " access_token)) w1
      = (Ok (Registered Sample.alice_data),
         set_manager (ConnectionManager.connect (manager w1) 7 5%nat)
           (tick w1)).
Proof.
  destruct (X18_login_then_connect Sample.E _ Sample.w0 _ _ _ 5%nat 7%Z
              sample_sound sample_uuid4_nonempty sample_login)
    as (u & Hu & Hconnect).
  { vm_compute. reflexivity. }
  assert (u = Sample.alice) as ->.
  { assert (user_service_user "alice" "alice" Sample.w0
            = (Ok (Some Sample.alice), Sample.w0)) as H
      by (vm_compute; reflexivity).
    cbn [LoginData.username] in Hu. rewrite H in Hu. by injection Hu. }
  eexists _, _, _. split; [exact sample_login|].
  apply Hconnect. vm_compute. reflexivity.
Defined.

(** ** The streaming handshake *)

Section Handshake.
Context (E : env).
Implicit Types (w : world) (token : string).
Local Open Scope Z_scope.

(** X19: the handshake of [websocket_endpoint] never raises.  Whatever the
    header, it ends either with [close(1008)] and the registry untouched, or
    with the channel appended to its room and the loop entered; the
    [IndexError] of [token.split(" ")[1]] cannot happen.  The three tables
    are never written. *)
Theorem X19_handshake_outcomes websocket chatroom_id authorization w :
  ∃ w',
    (websocket_endpoint E websocket chatroom_id authorization w
       = (Ok (Closed WS_1008_POLICY_VIOLATION), w')
     ∧ manager w' = manager w
     ∨ ∃ current_user,
         websocket_endpoint E websocket chatroom_id authorization w
           = (Ok (Registered current_user), w')
         ∧ manager w'
           = ConnectionManager.connect (manager w) chatroom_id websocket)
    ∧ users w' = users w
    ∧ blacklistedtokens w' = blacklistedtokens w
    ∧ refreshtokens w' = refreshtokens w.
Proof.
  rewrite websocket_endpoint_run.
  destruct (truthy authorization) as [header|]; [|exists w; auto].
  destruct (String.prefix "Bearer " header) eqn:Hpre; [|exists w; auto].
  destruct (bearer_split header Hpre) as (token & ->).
  destruct (jwt_payload E token) as [p|]; [|exists w; auto].
  destruct (match Claims.exp p with Some _ => _ | None => _ end);
    [exists (tick w); auto|].
  destruct (Claims.user p) as [u|]; [|exists (tick w); auto].
  eexists. split; [right; exists u; split; reflexivity|done].
Qed.

(** X20: the verdict of the handshake depends on the header, the clock and
    the registry only: two worlds that agree on the clock and on the registry
    get the same outcome and the same registry afterwards, whatever their
    blacklists and refresh records hold.  In particular a token that has
    been blacklisted by a logout still opens a stream until it expires. *)
Theorem X20_handshake_ignores_revocation websocket chatroom_id authorization
    w1 w2 :
  clock_reads w1 = clock_reads w2 →
  manager w1 = manager w2 →
  (websocket_endpoint E websocket chatroom_id authorization w1).1
  = (websocket_endpoint E websocket chatroom_id authorization w2).1
  ∧ manager (websocket_endpoint E websocket chatroom_id authorization w1).2
    = manager (websocket_endpoint E websocket chatroom_id authorization w2).2.
Proof.
  intros Hclock Hreg. rewrite !websocket_endpoint_run, Hclock, Hreg.
  destruct (truthy authorization) as [header|]; [|done].
  destruct (String.prefix "Bearer " header); [|done].
  destruct (split " " header !! 1%nat) as [token|]; [|done].
  destruct (jwt_payload E token) as [p|]; [|done].
  destruct (match Claims.exp p with Some _ => _ | None => _ end); [done|].
  by destruct (Claims.user p).
Qed.

(** X21: what follows the token in the header is ignored: for a token
    without a space, [Bearer <token> <anything>] is handled exactly as
    [Bearer <token>]. *)
Theorem X21_handshake_ignores_trailing_text websocket chatroom_id token rest
    w :
  contains " " token = false →
  websocket_endpoint E websocket chatroom_id
    (Some (String.append "Bearer "
             (String.append token (String " " rest)))) w
  = websocket_endpoint E websocket chatroom_id
      (Some (String.append "Bearer " token)) w.
Proof.
  intros Hspace. rewrite !websocket_endpoint_run. cbn [truthy].
  rewrite !decide_False by done. rewrite !bearer_prefix.
  rewrite (bearer_token token Hspace).
  change (String.append "Bearer " (String.append token (String " " rest)))
    with (String.append "Bearer"
            (String " " (String.append token (String " " rest)))).
  rewrite split_app_sep by reflexivity.
  by rewrite (split_app_sep " " token rest Hspace).
Qed.

End Handshake.

Lemma X20_witness :
  let p := login_claims Sample.alice false 1700007200 "s1" "j1" in
  let token := jwt_encode Sample.E p in
  let row :=
    {| BlacklistedToken.token := token; BlacklistedToken.token_jti := Some "j1";
       BlacklistedToken.expires_at := fromtimestamp 1700007200 |} in
  let w := set_blacklistedtokens [row] Sample.w0 in
  get_blacklisted_token token w = (Ok (Some row), w)
  ∧ (websocket_endpoint Sample.E 5%nat 7
       (Some (String.append "Bearer " token)) w).1
    = Ok (Registered Sample.alice_data).
Proof.
  intros p token row w. split.
  - apply (get_blacklisted_token_run row w).
    + split; apply NoDup_singleton.
    + apply list_elem_of_here.
  - rewrite (proj1 (X20_handshake_ignores_revocation Sample.E 5%nat 7%Z
                      (Some (String.append "Bearer " token)) w Sample.w0
                      eq_refl eq_refl)).
    rewrite (websocket_endpoint_accepts Sample.E 5%nat 7%Z
               (String.append "Bearer " token) token p Sample.alice_data
               Sample.w0); [reflexivity|apply bearer_prefix| |apply sample_sound
                            | |reflexivity].
    + apply bearer_token. vm_compute. reflexivity.
    + intros e [= <-]. vm_compute. reflexivity.
Defined.

Lemma X21_witness :
  websocket_endpoint Sample.E 5%nat 7 (Some "Bearer abc and more") Sample.w0
  = websocket_endpoint Sample.E 5%nat 7 (Some "Bearer abc") Sample.w0.
Proof.
  apply (X21_handshake_ignores_trailing_text Sample.E 5%nat 7%Z "abc"
           "and more" Sample.w0).
  reflexivity.
Defined.

(** ** Sign-up *)

Section SignUpProps.
Context (E : env) (hash_password : string → string → string).
Implicit Types (w : world) (u a b : User.t).
Local Open Scope Z_scope.

Lemma get_user_email_found a w :
  users_unique (users w) → a ∈ users w →
  get_user_email (User.email a) w = (Ok (Some a), w).
Proof.
  intros [_ He] Ha. unfold get_user_email, mbind, IO_bind. cbn [get_world].
  by rewrite (filter_unique User.email _ _ a).
Qed.

Lemma get_user_email_none s w :
  (∀ u, u ∈ users w → User.email u ≠ s) →
  get_user_email s w = (Ok None, w).
Proof.
  intros Hno. unfold get_user_email, mbind, IO_bind. cbn [get_world].
  by rewrite filter_none.
Qed.

Lemma get_username_found a w :
  users_unique (users w) → a ∈ users w →
  get_username (User.username a) w = (Ok (Some a), w).
Proof.
  intros [Hn _] Ha. unfold get_username, mbind, IO_bind. cbn [get_world].
  by rewrite (filter_unique User.username _ _ a).
Qed.

Lemma get_username_none s w :
  (∀ u, u ∈ users w → User.username u ≠ s) →
  get_username s w = (Ok None, w).
Proof.
  intros Hno. unfold get_username, mbind, IO_bind. cbn [get_world].
  by rewrite filter_none.
Qed.

(** X22: the account lookup of [login] tries the e-mail column first: a
    string that is the e-mail of an account selects that account even when
    it is also the username of another one; the username column is
    consulted only when no e-mail matches. *)
Theorem X22_lookup_prefers_email s w :
  users_unique (users w) →
  (∀ a, a ∈ users w → User.email a = s →
        user_service_user s s w = (Ok (Some a), w))
  ∧ (∀ b, (∀ u, u ∈ users w → User.email u ≠ s) →
          b ∈ users w → User.username b = s →
          user_service_user s s w = (Ok (Some b), w))
  ∧ ((∀ u, u ∈ users w → User.email u ≠ s ∧ User.username u ≠ s) →
     user_service_user s s w = (Ok None, w)).
Proof.
  intros Huniq. split; [|split].
  - intros a Ha <-. unfold user_service_user, mbind, IO_bind.
    by rewrite get_user_email_found.
  - intros b Hno Hb <-. unfold user_service_user, mbind, IO_bind.
    rewrite get_user_email_none by done. by apply get_username_found.
  - intros Hno. unfold user_service_user, mbind, IO_bind.
    rewrite get_user_email_none by (intros u Hu; by apply Hno).
    apply get_username_none. intros u Hu. by apply Hno.
Qed.

Lemma users_unique_add row rows :
  users_unique rows →
  existsb (user_conflict row) rows = false →
  users_unique (rows ++ [row]).
Proof.
  intros [Hn He] Hfree.
  assert (∀ r, r ∈ rows → user_conflict row r = false) as Hno
    by (intros r; by apply existsb_false_inv).
  split; rewrite fmap_app; apply NoDup_app; (split; [done|]);
    (split; [|apply NoDup_singleton]);
    intros k (r & -> & Hr)%list_elem_of_fmap Heq%list_elem_of_singleton;
    apply Hno in Hr; unfold user_conflict in Hr;
    apply orb_false_iff in Hr as [H1 H2];
    apply bool_decide_eq_false in H1, H2; done.
Qed.

(** The user row [create_user] builds. *)
Lemma create_account_run salt new_id user_data w :
  users_unique (users w) →
  create_account hash_password E salt new_id user_data w
  = let new_user :=
      {| User.id := new_id;
         User.username := UserCreate.username user_data;
         User.email := UserCreate.email user_data;
         User.hashed_password :=
           hash_password salt (UserCreate.password user_data);
         User.is_active := true;
         User.created_at := clock E (clock_reads w) |} in
    if bool_decide (Exists (λ u, User.email u = UserCreate.email user_data)
                      (users w))
    then (Raise (HTTPException 400 "Email already exists"), w)
    else if bool_decide
              (Exists (λ u, User.username u = UserCreate.username user_data)
                 (users w))
    then (Raise (HTTPException 400 "Username already exists"), w)
    else (Ok (new_user, String.append "/users/" (pretty new_id)),
          {| uuid_calls := uuid_calls w; clock_reads := S (clock_reads w);
             users := users w ++ [new_user];
             blacklistedtokens := blacklistedtokens w;
             refreshtokens := refreshtokens w; manager := manager w |}).
Proof.
  intros Huniq. cbv zeta. unfold create_account.
  unfold mbind at 1. unfold IO_bind at 1.
  destruct (decide (Exists (λ u, User.email u = UserCreate.email user_data)
                      (users w))) as [Hem|Hem].
  { rewrite bool_decide_eq_true_2 by done.
    apply Exists_exists in Hem as (a & Ha & <-).
    by rewrite get_user_email_found. }
  rewrite bool_decide_eq_false_2 by done.
  rewrite get_user_email_none.
  2:{ intros u Hu Heq. apply Hem, Exists_exists. eauto. }
  unfold mbind at 1. unfold IO_bind at 1.
  destruct (decide (Exists
                      (λ u, User.username u = UserCreate.username user_data)
                      (users w))) as [Hun|Hun].
  { rewrite bool_decide_eq_true_2 by done.
    apply Exists_exists in Hun as (a & Ha & <-).
    by rewrite get_username_found. }
  rewrite bool_decide_eq_false_2 by done.
  rewrite get_username_none.
  2:{ intros u Hu Heq. apply Hun, Exists_exists. eauto. }
  unfold create_user, mbind, IO_bind.
  cbn [datetime_now get_world users tick].
  rewrite existsb_false; [reflexivity|].
  intros u Hu. unfold user_conflict. cbn.
  rewrite !bool_decide_eq_false_2; [done| |].
  - intros Heq. apply Hem, Exists_exists. eauto.
  - intros Heq. apply Hun, Exists_exists. eauto.
Qed.

Lemma create_account_unique salt new_id user_data w :
  users_unique (users w) →
  users_unique (users (create_account hash_password E salt new_id user_data
                         w).2).
Proof.
  intros Huniq. rewrite create_account_run by done. cbv zeta.
  destruct (bool_decide _) eqn:Hem; [done|].
  destruct (bool_decide (Exists (λ u, User.username u = _) _)) eqn:Hun;
    [done|].
  cbn [snd users]. apply users_unique_add; [done|].
  apply bool_decide_eq_false in Hem, Hun.
  apply existsb_false. intros u Hu. unfold user_conflict. cbn.
  rewrite !bool_decide_eq_false_2; [done| |].
  - intros Heq. apply Hem, Exists_exists. eauto.
  - intros Heq. apply Hun, Exists_exists. eauto.
Qed.

(** X23: with unique usernames and e-mails in the table, [create_account]
    answers 400 (email already exists) when the e-mail is taken, else 400
    (username already exists) when the username is taken, in both cases
    writing nothing; otherwise it appends one active user whose stored
    password is the hash of the one given, and usernames and e-mails are
    still unique.  The [IntegrityError] of the insert cannot happen. *)
Theorem X23_create_account salt new_id user_data w :
  users_unique (users w) →
  users_unique (users (create_account hash_password E salt new_id user_data
                         w).2)
  ∧ (∀ a, a ∈ users w → User.email a = UserCreate.email user_data →
          create_account hash_password E salt new_id user_data w
          = (Raise (HTTPException 400 "Email already exists"), w))
  ∧ (∀ a, (∀ u, u ∈ users w → User.email u ≠ UserCreate.email user_data) →
          a ∈ users w → User.username a = UserCreate.username user_data →
          create_account hash_password E salt new_id user_data w
          = (Raise (HTTPException 400 "Username already exists"), w))
  ∧ ((∀ u, u ∈ users w →
           User.email u ≠ UserCreate.email user_data
           ∧ User.username u ≠ UserCreate.username user_data) →
     ∃ new_user w1,
       create_account hash_password E salt new_id user_data w
       = (Ok (new_user, String.append "/users/" (pretty new_id)), w1)
       ∧ users w1 = users w ++ [new_user]
       ∧ User.id new_user = new_id
       ∧ User.username new_user = UserCreate.username user_data
       ∧ User.email new_user = UserCreate.email user_data
       ∧ User.hashed_password new_user
         = hash_password salt (UserCreate.password user_data)
       ∧ User.is_active new_user = true
       ∧ blacklistedtokens w1 = blacklistedtokens w
       ∧ refreshtokens w1 = refreshtokens w
       ∧ manager w1 = manager w).
Proof.
  intros Huniq. split; [by apply create_account_unique|].
  rewrite create_account_run by done. cbv zeta. split; [|split].
  - intros a Ha Heq. rewrite bool_decide_eq_true_2; [done|].
    apply Exists_exists. eauto.
  - intros a Hno Ha Heq. rewrite bool_decide_eq_false_2.
    + rewrite bool_decide_eq_true_2; [done|]. apply Exists_exists. eauto.
    + intros (u & Hu & Hue)%Exists_exists. by apply (Hno u).
  - intros Hno. rewrite bool_decide_eq_false_2.
    + rewrite bool_decide_eq_false_2.
      * eexists _, _. split; [reflexivity|]. done.
      * intros (u & Hu & Hue)%Exists_exists.
        by destruct (Hno u Hu) as [_ H2].
    + intros (u & Hu & Hue)%Exists_exists.
      by destruct (Hno u Hu) as [H1 _].
Qed.

(** X24: an account that has just been created can log in with its e-mail
    and the password it signed up with, provided passlib accepts a password
    against its own hash: [login] returns tokens whose [user] claim is the
    new account. *)
Theorem X24_sign_up_then_login salt new_id user_data w new_user location w1 :
  jwt_sound E → uuid4_nonempty E →
  (∀ s password, verify_password E password (hash_password s password)
                 = true) →
  users_unique (users w) →
  create_account hash_password E salt new_id user_data w
    = (Ok (new_user, location), w1) →
  (∀ r, r ∈ refreshtokens w1 →
        RefreshToken.jti r ≠ uuid4 E (S (uuid_calls w1))
        ∧ RefreshToken.session_id r ≠ uuid4 E (uuid_calls w1)) →
  clock E (S (S (clock_reads w1)))
  < Z.quot (clock E (S (clock_reads w1)) + timedelta_days REFRESH_EXPIRY)
      1000000 * 1000000 →
  ∃ access_token refresh_token w2 p,
    login E
      {| LoginData.username := UserCreate.email user_data;
         LoginData.password := UserCreate.password user_data |} w1
    = (Ok (access_token, refresh_token), w2)
    ∧ jwt_payload E access_token = Some p
    ∧ Claims.user p
      = Some {| UserData.user_id := new_id;
                UserData.username := UserCreate.username user_data;
                UserData.email := UserCreate.email user_data |}.
Proof.
  intros Hsound Hne Hhash Huniq Hrun Hfresh Hclock.
  pose proof (create_account_unique salt new_id user_data w Huniq) as Huniq1.
  rewrite create_account_run in Hrun, Huniq1 by done. cbv zeta in Hrun, Huniq1.
  destruct (bool_decide _); [discriminate|].
  destruct (bool_decide _); [discriminate|].
  injection Hrun as <- _ <-. cbn [snd users] in Huniq1.
  set (new_user := {| User.id := new_id |}) in *.
  match goal with
  | |- context [login E _ ?x] => set (w1 := x) in *
  end.
  assert (user_service_user (UserCreate.email user_data)
            (UserCreate.email user_data) w1
          = (Ok (Some new_user), w1)) as Hlookup.
  { unfold user_service_user, mbind, IO_bind.
    rewrite (get_user_email_found new_user); [done|done|].
    apply elem_of_app. right. apply list_elem_of_here. }
  erewrite (login_run E _ new_user w1); [|done|done|exact Hlookup|
                                         |exact Hfresh|exact Hclock].
  - eexists _, _, _, _. split; [reflexivity|]. split; [apply Hsound|done].
  - apply Hhash.
Qed.

End SignUpProps.

Lemma sample_users_unique : users_unique (users Sample.w0).
Proof. split; apply NoDup_singleton. Qed.

Lemma X22_witness :
  let mallory :=
    {| User.id := 2; User.username := "alice@example.org";
       User.email := "mallory@example.org"; User.hashed_password := "other";
       User.is_active := true; User.created_at := 0 |} in
  let w :=
    {| uuid_calls := 0; clock_reads := 0; users := [Sample.alice; mallory];
       blacklistedtokens := []; refreshtokens := []; manager := ∅ |} in
  user_service_user "alice@example.org" "alice@example.org" w
    = (Ok (Some Sample.alice), w)
  ∧ user_service_user "alice" "alice" w = (Ok (Some Sample.alice), w).
Proof.
  intros mallory w.
  assert (users_unique (users w)) as Huniq.
  { split; cbn; (apply NoDup_cons; split; [|apply NoDup_singleton]);
      intros Hin%list_elem_of_singleton; discriminate. }
  split.
  - apply (proj1 (X22_lookup_prefers_email "alice@example.org" w Huniq)
             Sample.alice); [apply list_elem_of_here|reflexivity].
  - apply (proj1 (proj2 (X22_lookup_prefers_email "alice" w Huniq))
             Sample.alice); [|apply list_elem_of_here|reflexivity].
    intros u [->|[->|Hu]%elem_of_cons]%elem_of_cons; [discriminate..|].
    by apply not_elem_of_nil in Hu.
Defined.

Lemma X23_witness :
  let hash := λ _ password : string, password in
  let bob :=
    {| UserCreate.username := "bob"; UserCreate.email := "bob@example.org";
       UserCreate.password := "Passw0rd!" |} in
  let again :=
    {| UserCreate.username := "alice2";
       UserCreate.email := "alice@example.org";
       UserCreate.password := "Passw0rd!" |} in
  (∃ new_user w1,
     create_account hash Sample.E "salt" 2 bob Sample.w0
       = (Ok (new_user, "/users/2"), w1)
     ∧ users w1 = [Sample.alice; new_user]
     ∧ User.hashed_password new_user = "Passw0rd!")
  ∧ create_account hash Sample.E "salt" 2 again Sample.w0
    = (Raise (HTTPException 400 "Email already exists"), Sample.w0).
Proof.
  intros hash bob again. split.
  - destruct (proj2 (proj2 (proj2 (X23_create_account Sample.E hash "salt" 2
                                     bob Sample.w0 sample_users_unique))))
      as (new_user & w1 & Hrun & Husers & _ & _ & _ & Hpw & _).
    { intros u ->%list_elem_of_singleton. split; discriminate. }
    exists new_user, w1. split; [exact Hrun|]. split; [exact Husers|exact Hpw].
  - apply (proj1 (proj2 (X23_create_account Sample.E hash "salt" 2 again
                           Sample.w0 sample_users_unique)) Sample.alice);
      [apply list_elem_of_here|reflexivity].
Defined.

Lemma X24_witness :
  let hash := λ _ password : string, password in
  let bob :=
    {| UserCreate.username := "bob"; UserCreate.email := "bob@example.org";
       UserCreate.password := "Passw0rd!" |} in
  ∃ new_user location w1 access_token refresh_token w2 p,
    create_account hash Sample.E "salt" 2 bob Sample.w0
      = (Ok (new_user, location), w1)
    ∧ login Sample.E
        {| LoginData.username := "bob@example.org";
           LoginData.password := "Passw0rd!" |} w1
      = (Ok (access_token, refresh_token), w2)
    ∧ jwt_payload Sample.E access_token = Some p
    ∧ Claims.user p
      = Some {| UserData.user_id := 2; UserData.username := "bob";
                UserData.email := "bob@example.org" |}.
Proof.
  intros hash bob.
  destruct (create_account hash Sample.E "salt" 2 bob Sample.w0)
    as [res w1] eqn:Hrun.
  pose proof Hrun as Hrun'.
  rewrite create_account_run in Hrun' by exact sample_users_unique.
  cbv zeta in Hrun'.
  rewrite bool_decide_eq_false_2 in Hrun'.
  2:{ intros (u & ->%list_elem_of_singleton & Hu)%Exists_exists.
      discriminate. }
  rewrite bool_decide_eq_false_2 in Hrun'.
  2:{ intros (u & ->%list_elem_of_singleton & Hu)%Exists_exists.
      discriminate. }
  injection Hrun' as Hres Hw1. subst res.
  match type of Hrun with
  | _ = (Ok (?u, _), _) => set (new_user := u) in *
  end.
  destruct (X24_sign_up_then_login Sample.E hash "salt" 2 bob Sample.w0
              new_user (String.append "/users/" (pretty 2%Z)) w1
              sample_sound sample_uuid4_nonempty)
    as (access_token & refresh_token & w2 & p & Hlogin & Hp & Hu).
  - intros s password. cbn. by apply bool_decide_eq_true_2.
  - exact sample_users_unique.
  - exact Hrun.
  - rewrite <- Hw1. intros r Hr. by apply not_elem_of_nil in Hr.
  - rewrite <- Hw1. vm_compute. reflexivity.
  - eexists new_user, _, w1, access_token, refresh_token, w2, p.
    split; [reflexivity|]. split; [exact Hlogin|].
    split; [exact Hp|exact Hu].
Defined.

(** ** Runs of the service *)

Section Runs.
Context (E : env) (hash_password : string → string → string).
Implicit Types (w : world).

(** What [login] can do to the tables, whatever its outcome. *)
Lemma login_tables data w :
  let w' := (login E data w).2 in
  users w' = users w
  ∧ blacklistedtokens w' = blacklistedtokens w
  ∧ manager w' = manager w
  ∧ (refreshtokens w' = refreshtokens w
     ∨ ∃ row, existsb (refresh_conflict row) (refreshtokens w) = false
              ∧ refreshtokens w' = refreshtokens w ++ [row]).
Proof.
  assert (∀ w1, same_tables w w1 →
            users w1 = users w ∧ blacklistedtokens w1 = blacklistedtokens w
            ∧ manager w1 = manager w
            ∧ (refreshtokens w1 = refreshtokens w
               ∨ ∃ row, existsb (refresh_conflict row) (refreshtokens w)
                        = false
                        ∧ refreshtokens w1 = refreshtokens w ++ [row]))
    as Hsame by (intros w1 (H1 & H2 & H3 & H4); auto).
  cbv zeta. destruct (login E data w) as [[[a r]|e] w'] eqn:Hrun; cbn [snd].
  2:{ apply Hsame. by apply (login_raises_frame E data w e). }
  revert Hrun. unfold login. unfold mbind at 1. unfold IO_bind at 1.
  destruct (user_service_user _ _ w) as [[[u|]|e0] w0] eqn:Hu;
    pose proof (user_service_user_world _ _ _ _ _ Hu) as ->;
    [|discriminate..].
  destruct (verify_password E _ _); [|discriminate].
  unfold mbind, IO_bind, str_uuid4.
  set (w2 := draw (draw w)).
  assert (same_tables w w2) as H2 by (by repeat split).
  destruct (create_access_token E _ None false _ _ w2) as [[at_|e1] w3] eqn:H3;
    [|discriminate].
  match type of H3 with
  | create_access_token _ ?a ?b ?c ?d ?f ?x = _ =>
      pose proof (create_access_token_frame E a b c d f x) as F3
  end.
  rewrite H3 in F3. cbn [snd] in F3.
  destruct (create_access_token E _ (Some _) true _ _ w3)
    as [[rt|e1] w4] eqn:H4; [|discriminate].
  match type of H4 with
  | create_access_token _ ?a ?b ?c ?d ?f ?x = _ =>
      pose proof (create_access_token_frame E a b c d f x) as F4
  end.
  rewrite H4 in F4. cbn [snd] in F4.
  pose proof (jwt_decode_frame E rt w4) as F5.
  destruct (jwt_decode E rt w4) as [[q|e1] w5]; cbn [snd] in F5;
    [|discriminate].
  assert (same_tables w w5) as (A1 & A2 & A3 & A4)
    by (eapply same_tables_trans; [|exact F5];
        eapply same_tables_trans; [|exact F4];
        eapply same_tables_trans; [exact H2|exact F3]).
  destruct (Claims.exp q) as [x|]; [|discriminate].
  rewrite save_refresh_token_run. cbv zeta.
  destruct (existsb _ (refreshtokens w5)) eqn:Hfree; [discriminate|].
  intros [= _ _ <-]. cbn. rewrite A3 in Hfree. rewrite A1, A2, A3, A4.
  split; [done|]. split; [done|]. split; [done|]. right. eauto.
Qed.

Lemma consistent_same_tables w w' :
  same_tables w w' → consistent w → consistent w'.
Proof.
  intros (H1 & H2 & H3 & H4) (C1 & C2 & C3 & C4).
  unfold consistent. by rewrite H1, H2, H3, H4.
Qed.

Lemma api_step_consistent w w' :
  api_step E hash_password w w' → consistent w → consistent w'.
Proof.
  intros Hstep (Cu & Cb & Cr & Cm). destruct Hstep.
  - (* create_account *)
    split; [by apply create_account_unique|].
    rewrite create_account_run by done. cbv zeta.
    destruct (bool_decide _); [done|]. by destruct (bool_decide _).
  - (* login *)
    destruct (login_tables data w) as (H1 & H2 & H3 & H4).
    unfold consistent. rewrite H1, H2, H3.
    split; [done|]. split; [done|]. split; [|done].
    destruct H4 as [->|(row & Hfree & ->)]; [done|].
    by apply refresh_unique_add.
  - (* logout *)
    destruct (logout_cases E token w Cr)
      as [(e0 & w0 & -> & Hframe)
         |(p & j & e & sid & _ & _ & _ & _ & _ & Hfree & ->)].
    + by apply (consistent_same_tables w).
    + cbn [snd]. split; [done|]. split; [by apply blacklist_unique_add|].
      split; [|done]. cbn. destruct Cr as [Hj Hs].
      destruct (revoke_fmap_keys sid (refreshtokens w)) as [Ej Es].
      split; [by rewrite Ej|by rewrite Es].
  - (* sweep *)
    split; [done|]. split; [by apply sweep_unique|]. done.
  - (* get_new_token *)
    apply (consistent_same_tables w); [apply get_new_token_frame|done].
  - (* handshake *)
    rewrite websocket_endpoint_run.
    destruct (truthy authorization) as [header|]; [|done].
    destruct (String.prefix "Bearer " header); [|done].
    destruct (split " " header !! 1%nat) as [token|]; [|done].
    destruct (jwt_payload E token) as [p|]; [|done].
    destruct (match Claims.exp p with Some _ => _ | None => _ end); [done|].
    destruct (Claims.user p); [|done].
    split; [done|]. split; [done|]. split; [done|].
    by apply no_empty_room_connect.
  - (* disconnect *)
    split; [done|]. split; [done|]. split; [done|].
    by apply no_empty_room_disconnect.
Qed.

(** X25: every world a deployment can reach by sign-ups, logins, logouts,
    sweeps, refresh exchanges, handshakes and disconnects, whatever their
    arguments and whether they returned or raised, has unique usernames and
    e-mails, at most one blacklist entry per token and per [jti], at most one
    Refresh Record per [jti] and per [session_id], and no empty room in the
    registry. *)
Theorem X25_reachable_worlds_are_consistent w :
  api_reachable E hash_password w → consistent w.
Proof.
  induction 1 as [w Hu Hb Hr Hm|w w' _ IH Hstep].
  - unfold consistent, users_unique, blacklist_unique, refresh_unique.
    rewrite Hu, Hb, Hr, Hm. repeat split; try apply NoDup_nil_2.
    intros r l. by rewrite lookup_empty.
  - by apply (api_step_consistent w).
Qed.

End Runs.

Lemma X25_witness :
  let hash := λ _ password : string, password in
  let start :=
    {| uuid_calls := 0; clock_reads := 0; users := [];
       blacklistedtokens := []; refreshtokens := []; manager := ∅ |} in
  let bob :=
    {| UserCreate.username := "bob"; UserCreate.email := "bob@example.org";
       UserCreate.password := "Passw0rd!" |} in
  let w1 := (create_account hash Sample.E "salt" 1 bob start).2 in
  let w2 :=
    (login Sample.E
       {| LoginData.username := "bob"; LoginData.password := "Passw0rd!" |}
       w1).2 in
  let w3 :=
    (websocket_endpoint Sample.E 5%nat 7 (Some "Bearer abc") w2).2 in
  api_reachable Sample.E hash w3 ∧ consistent w3.
Proof.
  intros hash start bob w1 w2 w3.
  assert (api_reachable Sample.E hash w3) as Hreach.
  { eapply api_next; [|apply api_handshake].
    eapply api_next; [|apply api_login].
    eapply api_next; [|apply api_create_account].
    by apply api_start. }
  split; [exact Hreach|].
  exact (X25_reachable_worlds_are_consistent Sample.E hash w3 Hreach).
Defined.

(** ** Rooms, memberships and messages: the REST routes and the stream *)

Section ChatProps.
Context (E : env) (primary_key : nat → Z) (foreign_keys : bool).
Context (send_ok send_disconnects : ConnectionManager.WebSocket → bool).
Implicit Types (c : chat).

Lemma set_base_base c : set_base (base c) c = c.
Proof. by destruct c. Qed.

Lemma lift_scalar_one_or_none {A : Type} (rows : list A) c :
  lift (scalar_one_or_none rows) c
  = match rows with
    | [] => (Ok None, c)
    | [row] => (Ok (Some row), c)
    | _ :: _ :: _ => (Raise MultipleResultsFound, c)
    end.
Proof.
  unfold lift, scalar_one_or_none.
  destruct rows as [|row [|row' rows]]; cbn; by rewrite set_base_base.
Qed.

Lemma get_single_chatroom_none chatroom_id c :
  (∀ r, r ∈ chatrooms c → ChatRoom.id r ≠ chatroom_id) →
  get_single_chatroom chatroom_id c = (Ok None, c).
Proof.
  intros Hno. unfold get_single_chatroom, mbind, Chat_bind, get_chat.
  rewrite lift_scalar_one_or_none, filter_none; done.
Qed.

Lemma get_single_chatroom_found chatroom_id room c :
  chatrooms_unique c → room ∈ chatrooms c → ChatRoom.id room = chatroom_id →
  get_single_chatroom chatroom_id c = (Ok (Some room), c).
Proof.
  intros Hu Hr Hid. unfold get_single_chatroom, mbind, Chat_bind, get_chat.
  rewrite lift_scalar_one_or_none.
  rewrite (filter_unique ChatRoom.id _ _ room); [done..|].
  intros x Hx. congruence.
Qed.


Lemma participant_check_none user_id chatroom_id c :
  (∀ p, p ∈ chatroomparticipants c →
        ¬ (ChatRoomParticipant.user_id p = user_id
           ∧ ChatRoomParticipant.chatroom_id p = chatroom_id)) →
  participant_check user_id chatroom_id c = (Ok None, c).
Proof.
  intros Hno. unfold participant_check, mbind, Chat_bind, get_chat.
  rewrite lift_scalar_one_or_none, filter_none; done.
Qed.

Lemma participant_check_found user_id chatroom_id p c :
  members_unique c → p ∈ chatroomparticipants c →
  ChatRoomParticipant.user_id p = user_id →
  ChatRoomParticipant.chatroom_id p = chatroom_id →
  participant_check user_id chatroom_id c = (Ok (Some p), c).
Proof.
  intros [_ Hu] Hp Huid Hcid.
  unfold participant_check, mbind, Chat_bind, get_chat.
  rewrite lift_scalar_one_or_none.
  rewrite (filter_unique
             (λ p, (ChatRoomParticipant.user_id p,
                    ChatRoomParticipant.chatroom_id p)) _ _ p); [done..|].
  intros x [Hx1 Hx2]. congruence.
Qed.

Lemma commit_references_ok user_id chatroom_id c :
  references_ok foreign_keys user_id chatroom_id c →
  commit_references foreign_keys
    (λ c, references_user user_id c && references_chatroom chatroom_id c) c
  = (Ok tt, c).
Proof.
  intros Hok. unfold commit_references.
  destruct foreign_keys; [|done].
  destruct Hok as [Hu Hr]; [done|].
  unfold references_user, references_chatroom.
  by rewrite !bool_decide_eq_true_2.
Qed.

Lemma add_message_run content timestamp sender_id chatroom_id c :
  references_ok foreign_keys sender_id chatroom_id c →
  add_message primary_key foreign_keys content timestamp sender_id
    chatroom_id c
  = let row :=
      {| Message.id := primary_key (key_calls c);
         Message.content := content;
         Message.timestamp := timestamp;
         Message.is_edited := false;
         Message.sender_id := sender_id;
         Message.chatroom_id := chatroom_id |} in
    (Ok row,
     {| base := base c; key_calls := S (key_calls c);
        chatrooms := chatrooms c;
        chatroomparticipants := chatroomparticipants c;
        messages := messages c ++ [row]; sent := sent c |}).
Proof.
  intros Hok. unfold add_message, mbind, Chat_bind.
  by rewrite commit_references_ok.
Qed.

Lemma references_ok_tick user_id chatroom_id c :
  references_ok foreign_keys user_id chatroom_id c →
  references_ok foreign_keys user_id chatroom_id (set_base (tick (base c)) c).
Proof. done. Qed.

(** X26: the REST route [send_message].  A room that does not exist is
    answered 404 and a sender who is no participant 403, and then nothing
    is stored, no clock is read and no frame is sent.  For a participant
    the message is stored first and broadcast afterwards: the row is in
    the table whether or not a send of the broadcast raises, and the
    route returns the row exactly when no send raised. *)
Theorem X26_send_message payload chatroom_id current_user c :
  chatrooms_unique c → members_unique c →
  ((∀ r, r ∈ chatrooms c → ChatRoom.id r ≠ chatroom_id) →
   send_message E primary_key foreign_keys send_ok payload chatroom_id
     current_user c
   = (Raise (HTTPException 404 "Chatroom does not exist"), c))
  ∧ (∀ room, room ∈ chatrooms c → ChatRoom.id room = chatroom_id →
     (∀ p, p ∈ chatroomparticipants c →
           ¬ (ChatRoomParticipant.user_id p = User.id current_user
              ∧ ChatRoomParticipant.chatroom_id p = chatroom_id)) →
     send_message E primary_key foreign_keys send_ok payload chatroom_id
       current_user c
     = (Raise
          (HTTPException 403
             ("You are not a participant of " +:+ ChatRoom.name room
              +:+ ". Please join " +:+ ChatRoom.name room
              +:+ " to send message!")), c))
  ∧ (∀ room p, room ∈ chatrooms c → ChatRoom.id room = chatroom_id →
     p ∈ chatroomparticipants c →
     ChatRoomParticipant.user_id p = User.id current_user →
     ChatRoomParticipant.chatroom_id p = chatroom_id →
     references_ok foreign_keys (User.id current_user) chatroom_id c →
     let new_message :=
       {| Message.id := primary_key (key_calls c);
          Message.content := MessageCreate.content payload;
          Message.timestamp := clock E (clock_reads (base c));
          Message.is_edited := false;
          Message.sender_id := User.id current_user;
          Message.chatroom_id := chatroom_id |} in
     let delivery :=
       ConnectionManager.broadcast send_ok (manager (base c)) chatroom_id
         {| Frame.type := Some "message";
            Frame.sender := User.username current_user;
            Frame.content := MessageCreate.content payload;
            Frame.timestamp := (Str, clock E (clock_reads (base c))) |} in
     ∃ c',
       send_message E primary_key foreign_keys send_ok payload chatroom_id
         current_user c
       = (match delivery.2 with
          | None =>
              Ok (new_message,
                  "/messages/" +:+ pretty (primary_key (key_calls c)))
          | Some e => Raise e
          end, c')
       ∧ messages c' = messages c ++ [new_message]
       ∧ sent c' = sent c ++ delivery.1
       ∧ chatrooms c' = chatrooms c
       ∧ chatroomparticipants c' = chatroomparticipants c
       ∧ same_tables (base c) (base c')).
Proof.
  intros Hrooms Hmembers. split; [|split].
  - intros Hno. unfold send_message, mbind at 1, Chat_bind at 1.
    by rewrite get_single_chatroom_none.
  - intros room Hroom Hid Hno. unfold send_message.
    unfold mbind at 1, Chat_bind at 1.
    rewrite (get_single_chatroom_found _ room) by done.
    unfold mbind at 1, Chat_bind at 1.
    by rewrite participant_check_none.
  - intros room p Hroom Hid Hp Hpu Hpr Hrefs new_message delivery.
    unfold send_message.
    unfold mbind at 1, Chat_bind at 1.
    rewrite (get_single_chatroom_found _ room) by done.
    unfold mbind at 1, Chat_bind at 1.
    rewrite (participant_check_found _ _ p) by done.
    unfold mbind at 1, Chat_bind at 1.
    unfold send_message_service, mbind at 1, Chat_bind at 1.
    unfold lift at 1, datetime_now at 1. rewrite Hid.
    rewrite add_message_run by by apply references_ok_tick.
    cbv zeta. unfold mbind, Chat_bind, manager_broadcast.
    cbn [base set_base manager tick sent Message.content Message.timestamp
         Message.id].
    fold delivery. destruct delivery as [log [e|]]; cbn.
    + eexists. split; [reflexivity|]. cbn. repeat split; done.
    + eexists. split; [reflexivity|]. cbn. repeat split; done.
Qed.


Lemma get_message_none message_id c :
  (∀ m, m ∈ messages c → Message.id m ≠ message_id) →
  get_message message_id c = (Ok None, c).
Proof.
  intros Hno. unfold get_message, mbind, Chat_bind, get_chat.
  rewrite lift_scalar_one_or_none, filter_none; done.
Qed.

Lemma get_message_found message_id m c :
  messages_unique c → m ∈ messages c → Message.id m = message_id →
  get_message message_id c = (Ok (Some m), c).
Proof.
  intros Hu Hm Hid. unfold get_message, mbind, Chat_bind, get_chat.
  rewrite lift_scalar_one_or_none.
  rewrite (filter_unique Message.id _ _ m); [done..|].
  intros x Hx. congruence.
Qed.

(** A row of a table with a unique key, and the rows around it. *)
Lemma NoDup_fmap_split {A B : Type} (f : A → B) (l1 l2 : list A) (a : A) :
  NoDup (f <$> l1 ++ a :: l2) →
  (∀ x, x ∈ l1 → f x ≠ f a) ∧ (∀ x, x ∈ l2 → f x ≠ f a).
Proof.
  rewrite fmap_app, fmap_cons. intros Hnd.
  apply NoDup_app in Hnd as (_ & Hl1 & Hnd).
  apply NoDup_cons in Hnd as [Hl2 _]. split.
  - intros x Hx Heq. apply (Hl1 (f x)).
    + apply list_elem_of_fmap. eauto.
    + rewrite Heq. apply list_elem_of_here.
  - intros x Hx Heq. apply Hl2. rewrite <- Heq.
    apply list_elem_of_fmap. eauto.
Qed.

Lemma filter_all {A : Type} (P : A → Prop) `{∀ x, Decision (P x)}
    (l : list A) :
  (∀ x, x ∈ l → P x) → filter P l = l.
Proof.
  induction l as [|x l IH]; intros Hall; [done|].
  rewrite filter_cons_True by apply Hall, list_elem_of_here.
  f_equal. apply IH. intros y Hy. by apply Hall, list_elem_of_further.
Qed.

Lemma fmap_update_other {A B : Type} `{EqDecision B} (f : A → B) (k : B)
    (a' : A) (l : list A) :
  (∀ x, x ∈ l → f x ≠ k) →
  (λ x, if decide (f x = k) then a' else x) <$> l = l.
Proof.
  induction l as [|x l IH]; intros Hall; [done|].
  rewrite fmap_cons, decide_False by apply Hall, list_elem_of_here.
  f_equal. apply IH. intros y Hy. by apply Hall, list_elem_of_further.
Qed.

Lemma set_messages_id c : set_messages (messages c) c = c.
Proof. by destruct c. Qed.

(** X27: [edit_message] and [delete_message].  An unknown id is answered
    404 and anyone but the sender 403, with the state unchanged.  For the
    sender, the edit replaces the content of that one row and marks it
    edited, keeping its id, time, sender, room and place in the table, and
    the deletion removes that one row; every other row stays as it is, and
    neither route sends a frame to any listener. *)
Theorem X27_edit_delete_by_sender message_id payload current_user c :
  messages_unique c →
  ((∀ m, m ∈ messages c → Message.id m ≠ message_id) →
   edit_message message_id payload current_user c
   = (Raise (HTTPException 404 "Message does not exist"), c)
   ∧ delete_message message_id current_user c
     = (Raise (HTTPException 404 "Message does not exist"), c))
  ∧ (∀ l1 m l2,
     messages c = l1 ++ m :: l2 → Message.id m = message_id →
     (User.id current_user ≠ Message.sender_id m →
      edit_message message_id payload current_user c
      = (Raise (HTTPException 403 "You can only edit message you sent!"), c)
      ∧ delete_message message_id current_user c
        = (Raise (HTTPException 403 "You can only delete message you sent!"),
           c))
     ∧ (User.id current_user = Message.sender_id m →
        let m' :=
          {| Message.id := Message.id m;
             Message.content := MessageCreate.content payload;
             Message.timestamp := Message.timestamp m;
             Message.is_edited := true;
             Message.sender_id := Message.sender_id m;
             Message.chatroom_id := Message.chatroom_id m |} in
        edit_message message_id payload current_user c
        = (Ok (Some m'), set_messages (l1 ++ m' :: l2) c)
        ∧ delete_message message_id current_user c
          = (Ok tt, set_messages (l1 ++ l2) c))).
Proof.
  intros Hu. split.
  - intros Hno. unfold edit_message, delete_message, mbind, Chat_bind.
    by rewrite get_message_none.
  - intros l1 m l2 Hsplit Hid.
    assert (m ∈ messages c) as Hm.
    { rewrite Hsplit. apply elem_of_app. right. apply list_elem_of_here. }
    pose proof Hu as Hnd. unfold messages_unique in Hnd. rewrite Hsplit in Hnd.
    apply NoDup_fmap_split in Hnd as [Hl1 Hl2]. rewrite Hid in Hl1, Hl2.
    split.
    + intros Hne. unfold edit_message, delete_message, mbind, Chat_bind.
      rewrite (get_message_found _ m) by done.
      by destruct (decide (User.id current_user ≠ Message.sender_id m)).
    + intros Heq m'. split.
      * unfold edit_message, mbind at 1, Chat_bind at 1.
        rewrite (get_message_found _ m) by done.
        destruct (decide (User.id current_user ≠ Message.sender_id m));
          [done|].
        unfold edit_message_service, mbind at 1, Chat_bind at 1.
        rewrite (get_message_found _ m) by done.
        unfold mbind, Chat_bind, modify_chat, mret, Chat_ret. f_equal.
        fold m'. f_equal. rewrite Hsplit, fmap_app, fmap_cons.
        rewrite Hid, decide_True by done.
        by rewrite !fmap_update_other.
      * unfold delete_message, mbind at 1, Chat_bind at 1.
        rewrite (get_message_found _ m) by done.
        destruct (decide (User.id current_user ≠ Message.sender_id m));
          [done|].
        unfold delete_message_service, mbind, Chat_bind, get_chat.
        rewrite (filter_unique Message.id _ _ m); [|done..|].
        2:{ intros x Hx. congruence. }
        cbn [head]. unfold modify_chat. f_equal. f_equal.
        rewrite Hsplit, filter_app, filter_cons_False by (rewrite Hid; tauto).
        rewrite Hid. f_equal; apply filter_all; done.
Qed.


Lemma get_member_eq user_id chatroom_id :
  get_member user_id chatroom_id = participant_check user_id chatroom_id.
Proof. reflexivity. Qed.

Lemma add_participant_run user_id chatroom_id joined_at c :
  references_ok foreign_keys user_id chatroom_id c →
  add_participant primary_key foreign_keys user_id chatroom_id joined_at c
  = let row :=
      {| ChatRoomParticipant.id := primary_key (key_calls c);
         ChatRoomParticipant.user_id := user_id;
         ChatRoomParticipant.chatroom_id := chatroom_id;
         ChatRoomParticipant.joined_at := joined_at |} in
    (Ok row,
     {| base := base c; key_calls := S (key_calls c);
        chatrooms := chatrooms c;
        chatroomparticipants := chatroomparticipants c ++ [row];
        messages := messages c; sent := sent c |}).
Proof.
  intros Hok. unfold add_participant, mbind, Chat_bind.
  by rewrite commit_references_ok.
Qed.

Lemma leave_room_member chatroom_id current_user room l1 p l2 c :
  chatrooms_unique c → members_unique c →
  room ∈ chatrooms c → ChatRoom.id room = chatroom_id →
  chatroomparticipants c = l1 ++ p :: l2 →
  ChatRoomParticipant.user_id p = User.id current_user →
  ChatRoomParticipant.chatroom_id p = chatroom_id →
  leave_room chatroom_id current_user c
  = (Ok ("You've successfully exited " +:+ ChatRoom.name room),
     set_chatroomparticipants (l1 ++ l2) c).
Proof.
  intros Hrooms Hmembers Hroom Hid Hsplit Hpu Hpr.
  assert (p ∈ chatroomparticipants c) as Hp.
  { rewrite Hsplit. apply elem_of_app. right. apply list_elem_of_here. }
  pose proof Hmembers as [Hnd _]. rewrite Hsplit in Hnd.
  apply NoDup_fmap_split in Hnd as [Hl1 Hl2].
  unfold leave_room, mbind at 1, Chat_bind at 1.
  rewrite (get_single_chatroom_found _ room) by done.
  unfold mbind at 1, Chat_bind at 1.
  rewrite get_member_eq, (participant_check_found _ _ p) by done.
  unfold leave_room_service, mbind, Chat_bind.
  rewrite get_member_eq, (participant_check_found _ _ p) by done.
  unfold modify_chat, mret, Chat_ret. f_equal. f_equal.
  rewrite Hsplit, filter_app, filter_cons_False by tauto.
  f_equal; apply filter_all; done.
Qed.

(** X28: [join_chatroom] and [leave_room].  For a room that does not exist
    both answer 404 and change nothing.  A member who joins again is
    answered 400, and leaving removes that one membership and no other
    row.  Who is no member cannot leave (404), and joining appends one
    membership, keeps memberships and their keys unique, touches no other
    table and sends nothing; a leave right after it succeeds and gives
    back the table of memberships as it was before the join. *)
Theorem X28_join_leave chatroom_id current_user c :
  chatrooms_unique c → members_unique c →
  ((∀ r, r ∈ chatrooms c → ChatRoom.id r ≠ chatroom_id) →
   join_chatroom E primary_key foreign_keys chatroom_id current_user c
   = (Raise (HTTPException 404 "Chatroom does not exist!"), c)
   ∧ leave_room chatroom_id current_user c
     = (Raise (HTTPException 404 "Chatrooom does not exist!"), c))
  ∧ (∀ room, room ∈ chatrooms c → ChatRoom.id room = chatroom_id →
     (∀ l1 p l2,
      chatroomparticipants c = l1 ++ p :: l2 →
      ChatRoomParticipant.user_id p = User.id current_user →
      ChatRoomParticipant.chatroom_id p = chatroom_id →
      join_chatroom E primary_key foreign_keys chatroom_id current_user c
      = (Raise
           (HTTPException 400
              ("You are already a member of '" +:+ ChatRoom.name room
               +:+ "' room")), c)
      ∧ leave_room chatroom_id current_user c
        = (Ok ("You've successfully exited " +:+ ChatRoom.name room),
           set_chatroomparticipants (l1 ++ l2) c))
     ∧ ((∀ p, p ∈ chatroomparticipants c →
              ¬ (ChatRoomParticipant.user_id p = User.id current_user
                 ∧ ChatRoomParticipant.chatroom_id p = chatroom_id)) →
        leave_room chatroom_id current_user c
        = (Raise (HTTPException 404 "Member does not exist in this room!"),
           c)
        ∧ (references_ok foreign_keys (User.id current_user) chatroom_id c →
           primary_key (key_calls c)
             ∉ ChatRoomParticipant.id <$> chatroomparticipants c →
           let row :=
             {| ChatRoomParticipant.id := primary_key (key_calls c);
                ChatRoomParticipant.user_id := User.id current_user;
                ChatRoomParticipant.chatroom_id := chatroom_id;
                ChatRoomParticipant.joined_at :=
                  clock E (clock_reads (base c)) |} in
           ∃ c1 c2,
             join_chatroom E primary_key foreign_keys chatroom_id
               current_user c
             = (Ok ("/chatrooms/" +:+ pretty chatroom_id +:+ "/members",
                    "You have successfully joined '" +:+ ChatRoom.name room
                    +:+ "' room."), c1)
             ∧ chatroomparticipants c1 = chatroomparticipants c ++ [row]
             ∧ members_unique c1
             ∧ chatrooms c1 = chatrooms c
             ∧ messages c1 = messages c
             ∧ sent c1 = sent c
             ∧ same_tables (base c) (base c1)
             ∧ leave_room chatroom_id current_user c1
               = (Ok ("You've successfully exited " +:+ ChatRoom.name room),
                  c2)
             ∧ chatroomparticipants c2 = chatroomparticipants c))).
Proof.
  intros Hrooms Hmembers. split.
  - intros Hno. unfold join_chatroom, leave_room, mbind, Chat_bind.
    by rewrite get_single_chatroom_none.
  - intros room Hroom Hid. split.
    + intros l1 p l2 Hsplit Hpu Hpr. split.
      * assert (p ∈ chatroomparticipants c) as Hp.
        { rewrite Hsplit. apply elem_of_app. right. apply list_elem_of_here. }
        unfold join_chatroom, mbind at 1, Chat_bind at 1.
        rewrite (get_single_chatroom_found _ room) by done.
        unfold mbind, Chat_bind.
        rewrite (participant_check_found _ _ p); [done..|congruence].
      * by apply (leave_room_member _ _ room l1 p l2).
    + intros Hno. split.
      * unfold leave_room, mbind at 1, Chat_bind at 1.
        rewrite (get_single_chatroom_found _ room) by done.
        unfold mbind, Chat_bind.
        by rewrite get_member_eq, participant_check_none.
      * intros Hrefs Hfresh row.
        set (c1 :=
          {| base := tick (base c); key_calls := S (key_calls c);
             chatrooms := chatrooms c;
             chatroomparticipants := chatroomparticipants c ++ [row];
             messages := messages c; sent := sent c |}).
        assert (members_unique c1) as Hmembers1.
        { destruct Hmembers as [Hids Hpairs]. split; cbn.
          - rewrite fmap_app. apply NoDup_app. split; [done|].
            split; [|apply NoDup_singleton].
            intros k Hk ->%list_elem_of_singleton. by apply Hfresh.
          - rewrite fmap_app. apply NoDup_app. split; [done|].
            split; [|apply NoDup_singleton].
            intros k (q & -> & Hq)%list_elem_of_fmap Hin.
            apply list_elem_of_singleton in Hin. cbn in Hin.
            injection Hin as Hqu Hqr. by apply (Hno q). }
        exists c1, (set_chatroomparticipants (chatroomparticipants c) c1).
        split.
        { unfold join_chatroom, mbind at 1, Chat_bind at 1.
          rewrite (get_single_chatroom_found _ room) by done.
          unfold mbind at 1, Chat_bind at 1. rewrite Hid.
          rewrite participant_check_none by done.
          unfold mbind, Chat_bind, join_room.
          unfold mbind, Chat_bind, lift at 1, datetime_now at 1.
          by rewrite add_participant_run by by apply references_ok_tick. }
        do 6 (split; [done|]). split; [|done].
        rewrite (leave_room_member chatroom_id current_user room
                   (chatroomparticipants c) row []); try done.
        by rewrite app_nil_r.
Qed.


(** One turn of the loop when every listener of the room is served. *)
Lemma receive_loop_step websocket chatroom_id current_user data content
    events l c :
  manager (base c) !! chatroom_id = Some l →
  (∀ x, x ∈ l → send_ok x = true) →
  references_ok foreign_keys (UserData.user_id current_user) chatroom_id c →
  data !! "content" = Some content →
  receive_loop E primary_key foreign_keys send_ok send_disconnects websocket
    chatroom_id current_user (Receive data :: events) c
  = receive_loop E primary_key foreign_keys send_ok send_disconnects websocket
      chatroom_id current_user events
      {| base := tick (base c); key_calls := S (key_calls c);
         chatrooms := chatrooms c;
         chatroomparticipants := chatroomparticipants c;
         messages :=
           messages c
           ++ [stream_row E primary_key c chatroom_id current_user 0 content];
         sent :=
           sent c
           ++ ((λ x, (x, stream_frame E c current_user 0 content)) <$> l) |}.
Proof.
  intros Hl Hok Hrefs Hdata. cbn [receive_loop]. rewrite Hdata.
  unfold mbind at 1, Chat_bind at 1, lift at 1, datetime_now at 1.
  unfold mbind at 1, Chat_bind at 1.
  rewrite add_message_run by by apply references_ok_tick.
  cbv zeta. unfold manager_broadcast, ConnectionManager.broadcast.
  cbn [base set_base manager tick sent Message.content Message.timestamp
       key_calls messages chatrooms chatroomparticipants].
  rewrite Hl, send_all_ok by done.
  unfold stream_row, stream_frame, set_sent. cbn. by rewrite !Nat.add_0_r.
Qed.

(** The frames of a run of the loop in which every frame has a content and
    every listener is served: the state when they have been handled. *)
Lemma receive_loop_frames websocket chatroom_id current_user datas contents
    l c :
  manager (base c) !! chatroom_id = Some l →
  (∀ x, x ∈ l → send_ok x = true) →
  references_ok foreign_keys (UserData.user_id current_user) chatroom_id c →
  Forall2 (λ data content, data !! "content" = Some content) datas contents →
  ∃ c',
    (∀ rest,
     receive_loop E primary_key foreign_keys send_ok send_disconnects
       websocket chatroom_id current_user ((Receive <$> datas) ++ rest) c
     = receive_loop E primary_key foreign_keys send_ok send_disconnects
         websocket chatroom_id current_user rest c')
    ∧ messages c'
      = messages c
        ++ imap (stream_row E primary_key c chatroom_id current_user) contents
    ∧ sent c'
      = sent c
        ++ mjoin (imap (λ i content,
                          (λ x, (x, stream_frame E c current_user i content))
                            <$> l) contents)
    ∧ same_tables (base c) (base c')
    ∧ chatrooms c' = chatrooms c
    ∧ chatroomparticipants c' = chatroomparticipants c.
Proof.
  intros Hl Hok Hrefs Hdatas. revert c Hl Hrefs.
  induction Hdatas as [|data content datas contents Hdata _ IH];
    intros c Hl Hrefs.
  - exists c. cbn. rewrite !app_nil_r. by repeat split.
  - destruct (IH {| base := tick (base c); key_calls := S (key_calls c);
                    chatrooms := chatrooms c;
                    chatroomparticipants := chatroomparticipants c;
                    messages :=
                      messages c
                      ++ [stream_row E primary_key c chatroom_id current_user
                            0 content];
                    sent :=
                      sent c
                      ++ ((λ x, (x, stream_frame E c current_user 0 content))
                            <$> l) |})
      as (c' & Hrun & Hm & Hs & Ht & Hr & Hp); [done|done|].
    exists c'. split.
    { intros rest. rewrite fmap_cons. cbn [app].
      rewrite (receive_loop_step _ _ _ data content _ l) by done.
      apply Hrun. }
    cbn [base messages sent chatrooms chatroomparticipants] in *.
    split; [|split; [|split; [|done]]].
    + rewrite Hm, <- app_assoc. f_equal. cbn [app]. rewrite imap_cons.
      f_equal. apply imap_ext. intros i s _. unfold stream_row. cbn.
      by rewrite !Nat.add_succ_r.
    + rewrite Hs, <- app_assoc. f_equal. rewrite imap_cons.
      change (mjoin (?x :: ?xs)) with (x ++ mjoin xs). f_equal. f_equal.
      apply imap_ext. intros i s _. unfold stream_frame. cbn.
      by rewrite !Nat.add_succ_r.
    + by destruct Ht as (? & ? & ? & ?).
Qed.

Lemma disconnect_registered ac chatroom_id websocket l :
  ac !! chatroom_id = Some l → websocket ∈ l →
  (ConnectionManager.disconnect ac chatroom_id websocket).2 = None.
Proof.
  intros Hl Hin. unfold ConnectionManager.disconnect. rewrite Hl.
  destruct (ConnectionManager.list_remove websocket l) as [l'|] eqn:Hrem.
  - by destruct l'.
  - apply list_remove_None in Hrem.
    assert (websocket ∈ filter (λ x, x = websocket) l) as Hf
      by by apply list_elem_of_filter.
    destruct (filter (λ x, x = websocket) l); [|done].
    by apply not_elem_of_nil in Hf.
Qed.

(** X29: the receive loop of the stream.  While every frame received has a
    ["content"] and every listener of the room is served, each frame is
    stored as one message of the token's user in the room of the path and
    then sent to every channel of the room, the sender's own included, in
    the order of arrival; the tables of rooms and memberships are neither
    read nor written, so the sender need not be a participant.  The loop
    then awaits the next frame.  When the client goes, the channel is
    deregistered and the handler returns; when a frame has no ["content"],
    [KeyError] leaves the handler and the channel stays registered. *)
Theorem X29_receive_loop websocket chatroom_id current_user datas contents
    l c :
  manager (base c) !! chatroom_id = Some l →
  websocket ∈ l →
  (∀ x, x ∈ l → send_ok x = true) →
  references_ok foreign_keys (UserData.user_id current_user) chatroom_id c →
  Forall2 (λ data content, data !! "content" = Some content) datas contents →
  ∃ c',
    messages c'
    = messages c
      ++ imap (stream_row E primary_key c chatroom_id current_user) contents
    ∧ sent c'
      = sent c
        ++ mjoin (imap (λ i content,
                          (λ x, (x, stream_frame E c current_user i content))
                            <$> l) contents)
    ∧ same_tables (base c) (base c')
    ∧ chatrooms c' = chatrooms c
    ∧ chatroomparticipants c' = chatroomparticipants c
    ∧ receive_loop E primary_key foreign_keys send_ok send_disconnects
        websocket chatroom_id current_user (Receive <$> datas) c
      = (Ok Waiting, c')
    ∧ (∀ rest,
       receive_loop E primary_key foreign_keys send_ok send_disconnects
         websocket chatroom_id current_user
         ((Receive <$> datas) ++ WebSocketDisconnect :: rest) c
       = (Ok Left,
          set_base
            (set_manager
               (ConnectionManager.disconnect (manager (base c)) chatroom_id
                  websocket).1 (base c')) c'))
    ∧ (∀ bad rest, bad !! "content" = None →
       receive_loop E primary_key foreign_keys send_ok send_disconnects
         websocket chatroom_id current_user
         ((Receive <$> datas) ++ Receive bad :: rest) c
       = (Raise (KeyError "content"), c')).
Proof.
  intros Hl Hin Hok Hrefs Hdatas.
  destruct (receive_loop_frames websocket chatroom_id current_user datas
              contents l c) as (c' & Hrest & Hm & Hs & Ht & Hr & Hp);
    [done..|].
  exists c'. do 5 (split; [done|]).
  split; [by rewrite <- (app_nil_r (Receive <$> datas)), Hrest|].
  split.
  - intros rest. rewrite Hrest. cbn [receive_loop]. unfold on_disconnect.
    destruct Ht as (_ & _ & _ & Hman). rewrite Hman.
    pose proof (disconnect_registered _ _ _ _ Hl Hin) as Hnone.
    destruct (ConnectionManager.disconnect (manager (base c)) chatroom_id
                websocket) as [ac e].
    cbn in Hnone. by subst e.
  - intros bad rest Hbad. rewrite Hrest. cbn [receive_loop]. by rewrite Hbad.
Qed.


Lemma registrations_disconnect_other ac chatroom_id websocket d :
  d ≠ websocket →
  ConnectionManager.registrations
    (ConnectionManager.disconnect ac chatroom_id websocket).1 chatroom_id d
  = ConnectionManager.registrations ac chatroom_id d.
Proof.
  intros Hd.
  unfold ConnectionManager.disconnect, ConnectionManager.registrations.
  destruct (ac !! chatroom_id) as [l|] eqn:Hl; simpl; [|by rewrite Hl].
  destruct (ConnectionManager.list_remove websocket l) as [l'|] eqn:Hrem;
    simpl; [|by rewrite Hl].
  rewrite (list_remove_Some_other websocket d l l') by done.
  destruct l'; simpl.
  - by rewrite lookup_delete_eq.
  - by rewrite lookup_insert_eq.
Qed.

Lemma registrations_registered ac chatroom_id l d :
  ac !! chatroom_id = Some l → d ∈ l →
  (0 < ConnectionManager.registrations ac chatroom_id d)%nat.
Proof.
  intros Hl Hd. unfold ConnectionManager.registrations. rewrite Hl. simpl.
  assert (d ∈ filter (λ x, x = d) l) as Hf by by apply list_elem_of_filter.
  destruct (filter (λ x, x = d) l); simpl; [|lia].
  by apply not_elem_of_nil in Hf.
Qed.

(** X30: one dead listener breaks the stream of every sender of its room.
    When a frame arrives on a channel and the send to listener [d] of the
    room raises, the message is already stored and the listeners
    registered before [d] have been served; those after it get nothing and
    the rest of the sender's frames is never read.  If the exception is no
    [WebSocketDisconnect] it leaves the handler and the registry stays as
    it is; if it is one, the clause of the handler deregisters the
    sender's own channel.  Either way [d] is still registered, so the next
    frame in the room fails in the same way. *)
Theorem X30_dead_listener websocket chatroom_id current_user data content
    rest l1 d l2 c :
  manager (base c) !! chatroom_id = Some (l1 ++ d :: l2) →
  websocket ∈ l1 ++ d :: l2 →
  d ≠ websocket →
  (∀ x, x ∈ l1 → send_ok x = true) →
  send_ok d = false →
  references_ok foreign_keys (UserData.user_id current_user) chatroom_id c →
  data !! "content" = Some content →
  ∃ res c',
    receive_loop E primary_key foreign_keys send_ok send_disconnects
      websocket chatroom_id current_user (Receive data :: rest) c
    = (res, c')
    ∧ messages c'
      = messages c
        ++ [stream_row E primary_key c chatroom_id current_user 0 content]
    ∧ sent c'
      = sent c ++ ((λ x, (x, stream_frame E c current_user 0 content)) <$> l1)
    ∧ (send_disconnects d = false →
       res = Raise (SendFailure d) ∧ manager (base c') = manager (base c))
    ∧ (send_disconnects d = true →
       res = Ok Left
       ∧ manager (base c')
         = (ConnectionManager.disconnect (manager (base c)) chatroom_id
              websocket).1)
    ∧ (0 < ConnectionManager.registrations (manager (base c')) chatroom_id d)%nat.
Proof.
  intros Hl Hin Hd Hok Hdead Hrefs Hdata.
  pose proof (registrations_registered _ _ _ d Hl) as Hreg.
  cbn [receive_loop]. rewrite Hdata.
  unfold mbind at 1, Chat_bind at 1, lift at 1, datetime_now at 1.
  unfold mbind at 1, Chat_bind at 1.
  rewrite add_message_run by by apply references_ok_tick.
  cbv zeta. unfold manager_broadcast, ConnectionManager.broadcast.
  cbn [base set_base manager tick sent Message.content Message.timestamp
       key_calls messages chatrooms chatroomparticipants].
  rewrite Hl, send_all_prefix by done.
  destruct (send_disconnects d) eqn:Hdisc.
  - unfold on_disconnect.
    cbn [base set_base set_sent manager tick].
    pose proof (disconnect_registered _ _ _ _ Hl Hin) as Hnone.
    pose proof (registrations_disconnect_other (manager (base c)) chatroom_id
                  websocket d Hd) as Hother.
    destruct (ConnectionManager.disconnect (manager (base c)) chatroom_id
                websocket) as [ac e].
    cbn in Hnone, Hother. subst e.
    eexists _, _. split; [reflexivity|].
    cbn [messages sent base set_base set_manager manager].
    unfold stream_row, stream_frame. rewrite !Nat.add_0_r.
    do 2 (split; [done|]). split; [done|]. split; [done|].
    rewrite Hother. apply Hreg, elem_of_app. right. apply list_elem_of_here.
  - eexists _, _. split; [reflexivity|].
    cbn [messages sent base set_base set_sent set_manager manager tick].
    unfold stream_row, stream_frame. rewrite !Nat.add_0_r.
    do 2 (split; [done|]). split; [done|]. split; [done|].
    apply Hreg, elem_of_app. right. apply list_elem_of_here.
Qed.

End ChatProps.

Lemma sample_chat_unique :
  chatrooms_unique SampleChat.c0 ∧ members_unique SampleChat.c0
  ∧ messages_unique SampleChat.c0.
Proof.
  split; [|split; [split|]]; apply NoDup_singleton.
Qed.

Lemma sample_chat_references foreign_keys :
  references_ok foreign_keys 1 7 SampleChat.c0.
Proof.
  intros _. split; apply Exists_cons_hd; reflexivity.
Qed.

Lemma X26_witness :
  (∃ c',
     send_message Sample.E SampleChat.primary_key true (λ _, true)
       {| MessageCreate.content := "hi" |} 7 Sample.alice SampleChat.c0
     = (Ok ({| Message.id := 100; Message.content := "hi";
               Message.timestamp := 1700000000000000;
               Message.is_edited := false; Message.sender_id := 1;
               Message.chatroom_id := 7 |}, "/messages/100"), c')
     ∧ length (messages c') = 2%nat
     ∧ fst <$> sent c' = [1%nat; 2%nat])
  ∧ send_message Sample.E SampleChat.primary_key true (λ _, true)
      {| MessageCreate.content := "hi" |} 7 SampleChat.stranger SampleChat.c0
    = (Raise
         (HTTPException 403
            "You are not a participant of lobby. Please join lobby to send message!"),
       SampleChat.c0).
Proof.
  destruct sample_chat_unique as (Hrooms & Hmembers & _).
  pose proof (X26_send_message Sample.E SampleChat.primary_key true
                (λ _, true) {| MessageCreate.content := "hi" |} 7) as H.
  split.
  - destruct (proj2 (proj2 (H Sample.alice SampleChat.c0 Hrooms Hmembers))
                SampleChat.lobby SampleChat.member)
      as (c' & Hrun & Hm & Hs & _).
    + apply list_elem_of_here.
    + reflexivity.
    + apply list_elem_of_here.
    + reflexivity.
    + reflexivity.
    + apply sample_chat_references.
    + exists c'. split; [exact Hrun|]. rewrite Hm, Hs. split; reflexivity.
  - apply (proj1 (proj2 (H SampleChat.stranger SampleChat.c0 Hrooms
                           Hmembers)) SampleChat.lobby).
    + apply list_elem_of_here.
    + reflexivity.
    + intros p ->%list_elem_of_singleton [Hu _]. discriminate.
Defined.

Lemma X27_witness :
  edit_message 1 {| MessageCreate.content := "hello!" |} Sample.alice
    SampleChat.c0
  = (Ok (Some {| Message.id := 1; Message.content := "hello!";
                 Message.timestamp := 0; Message.is_edited := true;
                 Message.sender_id := 1; Message.chatroom_id := 7 |}),
     set_messages
       [{| Message.id := 1; Message.content := "hello!";
           Message.timestamp := 0; Message.is_edited := true;
           Message.sender_id := 1; Message.chatroom_id := 7 |}]
       SampleChat.c0)
  ∧ delete_message 1 Sample.alice SampleChat.c0
    = (Ok tt, set_messages [] SampleChat.c0)
  ∧ delete_message 1 SampleChat.stranger SampleChat.c0
    = (Raise (HTTPException 403 "You can only delete message you sent!"),
       SampleChat.c0).
Proof.
  destruct sample_chat_unique as (_ & _ & Hmessages).
  pose proof (λ current_user,
    proj2 (X27_edit_delete_by_sender 1
             {| MessageCreate.content := "hello!" |} current_user
             SampleChat.c0 Hmessages) [] SampleChat.hello [] eq_refl eq_refl)
    as H.
  split; [|split].
  - apply (proj2 (H Sample.alice)). reflexivity.
  - apply (proj2 (H Sample.alice)). reflexivity.
  - apply (proj1 (H SampleChat.stranger)). discriminate.
Defined.

Lemma X28_witness :
  let c := set_chatroomparticipants [] SampleChat.c0 in
  ∃ c1 c2,
    join_chatroom Sample.E SampleChat.primary_key true 7 Sample.alice c
    = (Ok ("/chatrooms/7/members", "You have successfully joined 'lobby' room."),
       c1)
    ∧ chatroomparticipants c1
      = [{| ChatRoomParticipant.id := 100; ChatRoomParticipant.user_id := 1;
            ChatRoomParticipant.chatroom_id := 7;
            ChatRoomParticipant.joined_at := 1700000000000000 |}]
    ∧ leave_room 7 Sample.alice c1
      = (Ok "You've successfully exited lobby", c2)
    ∧ chatroomparticipants c2 = [].
Proof.
  intros c.
  destruct (proj2 (proj2 (X28_join_leave Sample.E SampleChat.primary_key true
                            7 Sample.alice c (NoDup_singleton _)
                            (conj (NoDup_nil_2) (NoDup_nil_2)))
                     SampleChat.lobby (list_elem_of_here _ _) eq_refl))
    as (_ & Hjoin).
  { intros p Hp. by apply not_elem_of_nil in Hp. }
  destruct Hjoin as (c1 & c2 & Hrun & Hp & _ & _ & _ & _ & _ & Hleave & Hback).
  - apply sample_chat_references.
  - intros Hin. by apply not_elem_of_nil in Hin.
  - exists c1, c2. split; [exact Hrun|]. split; [exact Hp|].
    split; [exact Hleave|exact Hback].
Defined.

Lemma X29_witness :
  let c := set_chatroomparticipants [] SampleChat.c0 in
  let datas : list (gmap string string) :=
    [{[ "content" := "hi" ]}; {[ "content" := "there"; "to" := "bob" ]}] in
  ∃ c',
    receive_loop Sample.E SampleChat.primary_key true (λ _, true)
      (λ _, false) 1 7 Sample.alice_data
      ((Receive <$> datas) ++ [WebSocketDisconnect]) c
    = (Ok Left,
       set_base
         (set_manager {[ 7%Z := [2%nat] ]} (base c')) c')
    ∧ Message.content <$> messages c' = ["hello"; "hi"; "there"]
    ∧ (λ d, (d.1, Frame.content d.2)) <$> sent c'
      = [(1%nat, "hi"); (2%nat, "hi"); (1%nat, "there"); (2%nat, "there")]
    ∧ receive_loop Sample.E SampleChat.primary_key true (λ _, true)
        (λ _, false) 1 7 Sample.alice_data
        ((Receive <$> datas) ++ [Receive {[ "text" := "hi" ]}]) c
      = (Raise (KeyError "content"), c')
    ∧ manager (base c') = {[ 7%Z := [1%nat; 2%nat] ]}.
Proof.
  intros c datas.
  destruct (X29_receive_loop Sample.E SampleChat.primary_key true (λ _, true)
              (λ _, false) 1 7 Sample.alice_data datas ["hi"; "there"]
              [1%nat; 2%nat] c)
    as (c' & Hm & Hs & Ht & _ & _ & _ & Hgone & Hbad).
  - reflexivity.
  - apply list_elem_of_here.
  - reflexivity.
  - apply sample_chat_references.
  - repeat constructor.
  - exists c'. split; [exact (Hgone [])|]. rewrite Hm, Hs.
    split; [reflexivity|]. split; [reflexivity|].
    split; [by apply Hbad|]. by destruct Ht as (_ & _ & _ & ->).
Defined.

Lemma X30_witness :
  ∃ c',
    receive_loop Sample.E SampleChat.primary_key true
      (λ x, bool_decide (x ≠ 2%nat)) (λ _, false) 1 7 Sample.alice_data
      [Receive {[ "content" := "hi" ]}; Receive {[ "content" := "there" ]}]
      SampleChat.c0
    = (Raise (SendFailure 2), c')
    ∧ Message.content <$> messages c' = ["hello"; "hi"]
    ∧ (λ d, (d.1, Frame.content d.2)) <$> sent c' = [(1%nat, "hi")]
    ∧ manager (base c') = {[ 7%Z := [1%nat; 2%nat] ]}.
Proof.
  destruct (X30_dead_listener Sample.E SampleChat.primary_key true
              (λ x, bool_decide (x ≠ 2%nat)) (λ _, false) 1 7
              Sample.alice_data {[ "content" := "hi" ]} "hi"
              [Receive {[ "content" := "there" ]}] [1%nat] 2%nat []
              SampleChat.c0)
    as (res & c' & Hrun & Hm & Hs & Hraise & _).
  - reflexivity.
  - apply list_elem_of_here.
  - discriminate.
  - intros x ->%list_elem_of_singleton. reflexivity.
  - reflexivity.
  - apply sample_chat_references.
  - reflexivity.
  - destruct (Hraise eq_refl) as [-> Hman].
    exists c'. split; [exact Hrun|]. rewrite Hm, Hs, Hman.
    split; [reflexivity|]. split; reflexivity.
Defined.
